(** * Rollout datasets of [world_models/data/loaders.py]

  A shallow embedding of the two dataset classes of the loader module,
  [RolloutSequenceDataset] (windows of [seq_len] timesteps, "Mode A") and
  [RolloutObservationDataset] (single observation rows, "Mode B"), together
  with the pieces of Python and of the tensor library that the two classes
  call: floor division, slicing with clamped bounds, integer indexing with
  wrap-around of negative indices, [transpose(0, 1)], [view(-1, 60)] with
  its condition on the strides, and the binary64 product behind
  [int(0.8 * n)]. *)

From stdpp Require Import gmap strings list fin_maps.
From Stdlib Require Import ZArith Lia.

(** ** Exceptions *)

(** The exceptions the two classes can raise.  [RuntimeError] is what the
    tensor library raises when [view] is given an impossible shape, and
    [ValueError] what it raises for an integer index that does not fit a
    signed 64-bit integer. *)
Inductive error : Set :=
  | FileNotFoundError
  | KeyError
  | IndexError
  | ZeroDivisionError
  | RuntimeError
  | ValueError.

Inductive result (T : Type) : Type :=
  | Ok (x : T)
  | Err (e : error).
Arguments Ok {T} x.
Arguments Err {T} e.

#[global] Instance result_ret : MRet result := fun T x => Ok x.
#[global] Instance result_bind : MBind result :=
  fun T U f m => match m with Ok x => f x | Err e => Err e end.

Definition is_ok {T : Type} (r : result T) : Prop := ∃ x, r = Ok x.

(** ** [int(0.8 * n)]: the binary64 product *)

Module Float.

(** A non-negative binary float [mant * 2 ^ expo]. *)
Record float : Set := Float { mant : Z; expo : Z }.

(** Rounding of [m * 2 ^ e] to 53 significant bits, ties to even. *)
Definition round53 (m e : Z) : float :=
  let s := (Z.log2 m - 52)%Z in
  if (s <=? 0)%Z then Float m e
  else
    let q := (m / 2 ^ s)%Z in
    let r := (m mod 2 ^ s)%Z in
    let h := (2 ^ (s - 1))%Z in
    let up := (h <? r)%Z || ((r =? h)%Z && Z.odd q) in
    Float (if up then q + 1 else q)%Z (e + s)%Z.

(** The literal [0.8]: [0x1999999999999A * 2 ^ -53]. *)
Definition f08 : float := Float 7205759403792794 (-53).

(** Conversion of a size (a non-negative integer) to a float. *)
Definition of_nat (n : nat) : float := round53 (Z.of_nat n) 0.

Definition mul (x y : float) : float :=
  round53 (mant x * mant y) (expo x + expo y).

(** [int(x)] for a non-negative [x]: truncation. *)
Definition to_int (x : float) : Z :=
  if (0 <=? expo x)%Z then (mant x * 2 ^ expo x)%Z
  else (mant x / 2 ^ (- expo x))%Z.

End Float.

(** [int(0.8 * n)] for a dimension [n]. *)
Definition split_index (n : nat) : Z :=
  Float.to_int (Float.mul Float.f08 (Float.of_nat n)).

(** ** Python index arithmetic *)

(** Python's [//] and [%] round towards minus infinity, as [Z.div] and
    [Z.modulo] do; division by zero raises. *)
Definition floordiv (i n : Z) : result Z :=
  if decide (n = 0%Z) then Err ZeroDivisionError else Ok (i / n)%Z.
Definition pymod (i n : Z) : result Z :=
  if decide (n = 0%Z) then Err ZeroDivisionError else Ok (i mod n)%Z.

(** The tensor library unpacks an integer index into a signed 64-bit
    integer, and raises [ValueError] when it does not fit. *)
Definition fits_int64 (i : Z) : Prop := (- 2 ^ 63 ≤ i < 2 ^ 63)%Z.

Definition unpack_long (i : Z) : result Z :=
  if decide (fits_int64 i) then Ok i else Err ValueError.

(** An integer index into a dimension of size [n]: negative indices count
    from the end, and anything outside [-n, n) raises, [IndexError] when the
    index fits 64 bits and [ValueError] when it does not.  (The library
    unpacks the index before it compares it with the size; the sizes of a
    tensor are below [2 ^ 63], so that an index that does not fit is never in
    range and the order of the two tests cannot be observed.) *)
Definition norm_index (n : nat) (i : Z) : result nat :=
  if decide (0 ≤ i < Z.of_nat n)%Z then Ok (Z.to_nat i)
  else if decide (- Z.of_nat n ≤ i < 0)%Z then Ok (Z.to_nat (i + Z.of_nat n))
  else (_ ← unpack_long i; Err IndexError).

(** A slice bound on a dimension of size [n]: negative bounds count from the
    end, and the result is clamped to [0, n]. *)
Definition clamp_bound (n : nat) (x : Z) : nat :=
  if decide (x < 0)%Z then Z.to_nat (Z.max (x + Z.of_nat n) 0)
  else Z.to_nat (Z.min x (Z.of_nat n)).

(** [a:b] on a dimension of size [n], as (first position, length); a missing
    bound is [None]. *)
Definition slice_range (n : nat) (a b : option Z) : nat * nat :=
  let start := from_option (clamp_bound n) 0 a in
  let stop := from_option (clamp_bound n) n b in
  (start, stop - start).

(** ** Tensors *)

Definition product (l : list nat) : nat := foldr Nat.mul 1 l.

Section Tensor.
Context {A : Type}.

(** A dense tensor: its shape and its elements in row-major order. *)
Record tensor : Type := Tensor { shape : list nat; data : list A }.

Definition ndim (t : tensor) : nat := length (shape t).
Definition numel (t : tensor) : nat := product (shape t).

(** The elements are as many as the shape says. *)
Definition wf (t : tensor) : Prop := length (data t) = numel t.

(** [t.shape[k]] *)
Definition shape_at (t : tensor) (k : nat) : result nat :=
  match shape t !! k with
  | Some d => Ok d
  | None => Err IndexError
  end.

(** The [i]-th run of [sz] elements. *)
Definition block (sz i : nat) (l : list A) : list A :=
  take sz (drop (i * sz) l).

(** Position [i] along the first dimension, [i] already in range. *)
Definition select (t : tensor) (i : nat) : tensor :=
  match shape t with
  | [] => t
  | _ :: rest => Tensor rest (block (product rest) i (data t))
  end.

(** [t[i]] *)
Definition index0 (t : tensor) (i : Z) : result tensor :=
  match shape t with
  | [] => _ ← unpack_long i; Err IndexError
  | n :: _ => k ← norm_index n i; Ok (select t k)
  end.

(** [t[a:b]] *)
Definition slice0 (t : tensor) (a b : option Z) : result tensor :=
  match shape t with
  | [] => Err IndexError
  | n :: rest =>
      let '(start, len) := slice_range n a b in
      Ok (Tensor (len :: rest)
            (take (len * product rest) (drop (start * product rest) (data t))))
  end.

(** A trailing [:] at dimension [d]: the dimension has to exist, the
    tensor is unchanged. *)
Definition full_slice (d : nat) (t : tensor) : result tensor :=
  if decide (d < ndim t) then Ok t else Err IndexError.

(** [t.transpose(0, 1).contiguous()] *)
Definition transpose01 (t : tensor) : result tensor :=
  match shape t with
  | d0 :: d1 :: rest =>
      Ok (Tensor (d1 :: d0 :: rest)
            (flat_map (λ j,
               flat_map (λ i, block (product rest) (i * d1 + j) (data t))
                        (seq 0 d0))
               (seq 0 d1)))
  | _ => Err IndexError
  end.

(** ** Tensors as they are stored *)

(** A pickled tensor comes with a layout: next to its contents it has one
    stride per dimension.  The layout decides one thing in the two classes,
    whether [view(-1, 60)] of the observation dataset is possible; everything
    else they do is determined by the contents, and
    [transpose(0, 1).contiguous()] of the sequence dataset gives every field
    the row-major layout whatever the layout in the file. *)
Record stored : Type := Stored { contents :> tensor; strides : list nat }.

(** The strides of a contiguous tensor. *)
Fixpoint row_major (szs : list nat) : list nat :=
  match szs with
  | [] => []
  | _ :: szs' => product szs' :: row_major szs'
  end.

Definition contiguous (t : stored) : Prop := strides t = row_major (shape t).

(** A tensor in the row-major layout. *)
Definition dense (t : tensor) : stored := Stored t (row_major (shape t)).

(** Whether a tensor of sizes [oldshape] and strides [oldstride] can be
    viewed with the sizes [newshape], as the tensor library decides it (its
    [computeStride]): the dimensions of the tensor are walked from the last
    one and gathered into chunks that are laid out contiguously, and every
    chunk has to be filled exactly by dimensions of the view, which are walked
    from the last one too.  [consume] is the inner loop over the dimensions
    of the view, [chunks] the outer loop over the dimensions of the tensor,
    each given as (size, stride). *)
Fixpoint consume (vrest : list nat) (view_numel tensor_numel : nat)
  : list nat * nat :=
  match vrest with
  | [] => ([], view_numel)
  | v :: vrest' =>
      if (view_numel <? tensor_numel) || (v =? 1)
      then consume vrest' (view_numel * v) tensor_numel
      else (vrest, view_numel)
  end.

Fixpoint chunks (dims : list (nat * nat)) (vrest : list nat)
    (chunk_base_stride tensor_numel view_numel : nat) : bool :=
  match dims with
  | [] => bool_decide (vrest = [])
  | (size, _) :: dims' =>
      let tensor_numel := tensor_numel * size in
      let chunk_ends :=
        match dims' with
        | [] => true
        | (size', stride') :: _ =>
            negb (size' =? 1)
            && negb (stride' =? tensor_numel * chunk_base_stride)
        end in
      if chunk_ends then
        let '(vrest', view_numel') := consume vrest view_numel tensor_numel in
        if view_numel' =? tensor_numel
        then chunks dims' vrest'
               (match dims' with
                | (_, stride') :: _ => stride'
                | [] => chunk_base_stride
                end) 1 1
        else false
      else chunks dims' vrest chunk_base_stride tensor_numel view_numel
  end.

Definition view_compatible (oldshape oldstride newshape : list nat) : bool :=
  match reverse (zip oldshape oldstride) with
  | [] => true
  | ((_, last_stride) :: _) as dims =>
      if product oldshape =? 0 then true
      else chunks dims (reverse newshape) last_stride 1 1
  end.

(** [t.view(-1, w)]: the number of rows is inferred from the number of
    elements, which [w] has to divide, and the layout has to allow the view;
    the view has the elements of [t] in the same order.  Both failures are
    the tensor library's [RuntimeError]. *)
Definition view_rows (w : nat) (t : stored) : result tensor :=
  if decide (w ≠ 0 ∧ numel t mod w = 0)
  then
    if view_compatible (shape t) (strides t) [numel t / w; w]
    then Ok (Tensor [numel t / w; w] (data t))
    else Err RuntimeError
  else Err RuntimeError.

(** ** The pickled buffer *)

(** [{key: f(d[key]) for key in list(d.keys())}] *)
Definition dict_map (f : tensor → result tensor) (d : gmap string tensor)
  : result (gmap string tensor) :=
  map_fold (λ key t acc, acc ← acc; t' ← f t; Ok (<[key := t']> acc))
           (Ok ∅) d.

(** [d[key]] *)
Definition dict_get {V : Type} (d : gmap string V) (key : string) : result V :=
  match d !! key with
  | Some t => Ok t
  | None => Err KeyError
  end.

(** [pickle.load(open(path, 'rb'))]: the files that hold a pickled buffer,
    by path. *)
Definition pickle_load {V : Type} (fs : gmap string (gmap string V))
    (path : string) : result (gmap string V) :=
  match fs !! path with
  | Some d => Ok d
  | None => Err FileNotFoundError
  end.

End Tensor.
Arguments tensor A : clear implicits.
Arguments stored A : clear implicits.

(** ** Mode A: [RolloutSequenceDataset] *)

Module RolloutSequenceDataset.
Section WithElements.
Context {A : Type}.

Record t : Type := Build {
  buffer : gmap string (tensor A);
  seq_len : Z;
  train : bool;
  seq_num : Z
}.

(** The file is read through its contents: [transpose(0, 1).contiguous()]
    copies every field into the row-major layout, whatever its layout in the
    file. *)
Definition __init__ (fs : gmap string (gmap string (tensor A)))
    (path : string) (seq_len : Z) (train : bool) : result t :=
  buffer ← pickle_load fs path;
  buffer ← dict_map transpose01 buffer;
  obs ← dict_get buffer "obs";
  n ← shape_at obs 0;
  let split_idx := split_index n in
  buffer ← (if train
            then dict_map (λ x, slice0 x None (Some split_idx)) buffer
            else dict_map (λ x, slice0 x (Some split_idx) None) buffer);
  obs ← dict_get buffer "obs";
  steps ← shape_at obs 1;
  Ok (Build buffer seq_len train (Z.of_nat steps - seq_len + 1)%Z).

Definition __len__ (self : t) : result Z :=
  obs ← dict_get (buffer self) "obs";
  n ← shape_at obs 0;
  Ok (seq_num self * Z.of_nat n)%Z.

(** [x[idx1, idx2:idx2 + seq_len]], followed by [, :] for the three fields
    that are indexed with a trailing full slice.  The tensor library first
    counts the indices, and raises [IndexError] when the tensor has fewer
    dimensions; then it applies them from left to right. *)
Definition window (x : tensor A) (idx1 idx2 len : Z) (trailing : bool)
  : result (tensor A) :=
  if decide (ndim x < (if trailing then 3 else 2)) then Err IndexError
  else
    row ← index0 x idx1;
    w ← slice0 row (Some idx2) (Some (idx2 + len)%Z);
    if trailing then full_slice 1 w else Ok w.

Definition __getitem__ (self : t) (i : Z)
  : result (tensor A * tensor A * tensor A * tensor A * tensor A) :=
  idx1 ← floordiv i (seq_num self);
  idx2 ← pymod i (seq_num self);
  obs ← dict_get (buffer self) "obs";
  o ← window obs idx1 idx2 (seq_len self) true;
  action ← dict_get (buffer self) "action";
  a ← window action idx1 idx2 (seq_len self) true;
  reward ← dict_get (buffer self) "reward";
  r ← window reward idx1 idx2 (seq_len self) false;
  done ← dict_get (buffer self) "done";
  d ← window done idx1 idx2 (seq_len self) false;
  next_obs ← dict_get (buffer self) "next_obs";
  n ← window next_obs idx1 idx2 (seq_len self) true;
  Ok (o, a, r, d, n).

End WithElements.
Arguments t A : clear implicits.
End RolloutSequenceDataset.

(** ** Mode B: [RolloutObservationDataset] *)

Module RolloutObservationDataset.
Section WithElements.
Context {A : Type}.

Record t : Type := Build { buffer : tensor A }.

(** The file is read as it is stored, for [view] depends on the layout of
    [obs]. *)
Definition __init__ (fs : gmap string (gmap string (stored A)))
    (path : string) (train : bool) : result t :=
  buffer ← pickle_load fs path;
  obs ← dict_get buffer "obs";
  buffer ← view_rows 60 obs;
  n ← shape_at buffer 0;
  let split_pos := split_index n in
  buffer ← (if train
            then slice0 buffer None (Some split_pos)
            else slice0 buffer (Some split_pos) None);
  Ok (Build buffer).

Definition __getitem__ (self : t) (i : Z) : result (tensor A) :=
  index0 (buffer self) i.

Definition __len__ (self : t) : result Z :=
  n ← shape_at (buffer self) 0;
  Ok (Z.of_nat n).

End WithElements.
Arguments t A : clear implicits.
End RolloutObservationDataset.

Module Seq := RolloutSequenceDataset.
Module Obs := RolloutObservationDataset.

(** ** Notions for the statements *)

(** The train dataset keeps the episodes before the split index, the test
    dataset the episodes from the split index on: the first episode kept and
    the number of episodes kept, out of [n]. *)
Definition first_episode (train : bool) (split n : nat) : nat :=
  if train then 0 else split `min` n.
Definition episodes_in_split (train : bool) (split n : nat) : nat :=
  if train then split `min` n else n - split.

(** Row [i] of the matrix of 60 columns over the elements [l]. *)
Definition row60 {A : Type} (l : list A) (i : nat) : tensor A :=
  Tensor [60] (take 60 (drop (i * 60) l)).

(** The five fields [__getitem__] reads, in the order of the tuple it
    returns, each with whether it is indexed with a trailing [:]. *)
Definition fields : list (string * bool) :=
  [("obs", true); ("action", true); ("reward", false); ("done", false);
   ("next_obs", true)].

(** A pickled rollout buffer of [steps] timesteps and [eps] episodes: the
    five fields are there, complete, with the same two leading dimensions,
    and the fields indexed with a trailing [:] have a per-timestep shape. *)
Definition rollout_file {A : Type} (file : gmap string (tensor A))
    (steps eps : nat) : Prop :=
  ∀ key trailing, (key, trailing) ∈ fields →
    ∃ x rest, file !! key = Some x ∧ shape x = steps :: eps :: rest ∧ wf x ∧
              (trailing = true → rest ≠ []).

(** [w] is the window of [len] timesteps of episode [e] of the field [y]
    that starts at timestep [s]: complete, of leading dimension [len], and
    with timestep [s + j] of the episode at its position [j]. *)
Definition is_window {A : Type} (y : tensor A) (e s len : nat) (w : tensor A)
  : Prop :=
  ∃ n steps rest,
    shape y = n :: steps :: rest ∧ shape w = len :: rest ∧ wf w ∧
    ∀ j, j < len → select w j = select (select y e) (s + j).

(** [w] is that window of the field [key] of the provider [p]. *)
Definition field_window {A : Type} (p : RolloutSequenceDataset.t A)
    (key : string) (e s len : nat) (w : tensor A) : Prop :=
  ∃ y, RolloutSequenceDataset.buffer p !! key = Some y ∧ is_window y e s len w.

(** The window [w], against the field [x] as the file has it (timesteps
    first): position [j] of [w] is timestep [s + j] of episode [e] of the
    file. *)
Definition file_window {A : Type} (file : gmap string (tensor A))
    (key : string) (e s len : nat) (w : tensor A) : Prop :=
  ∃ x, file !! key = Some x ∧
       ∀ j, j < len → select w j = select (select x (s + j)) e.

(** ** Test buffers *)

Module Examples.
Import RolloutSequenceDataset.

(** A tensor of the given shape whose elements are [0, 1, 2, ...]. *)
Definition arange (sh : list nat) : tensor Z :=
  Tensor sh (Z.of_nat <$> seq 0 (product sh)).

(** A pickled buffer of [steps] timesteps and [eps] episodes. *)
Definition rollouts (steps eps : nat) : gmap string (tensor Z) :=
  <["obs" := arange [steps; eps; 3]]>
  (<["action" := arange [steps; eps; 2]]>
  (<["reward" := arange [steps; eps]]>
  (<["done" := arange [steps; eps]]>
  (<["next_obs" := arange [steps; eps; 3]]> ∅)))).

Definition disk (steps eps : nat) : gmap string (gmap string (tensor Z)) :=
  {["rollouts.pkl" := rollouts steps eps]}.

(** A file of 100 observation frames of 60 numbers. *)
Definition frames_disk : gmap string (gmap string (tensor Z)) :=
  {["frames.pkl" := {["obs" := arange [100; 60]]}]}.

(** The buffers of [disk 20 10] and, under another name, of [disk 3 5]. *)
Definition copied_disk : gmap string (gmap string (tensor Z)) :=
  <["copy.pkl" := rollouts 3 5]> (disk 20 10).

(** Files that are not rollout buffers: one with a field of one dimension,
    one without [obs], one without [action], one whose [obs] has no
    per-timestep shape. *)
Definition short_field_disk : gmap string (gmap string (tensor Z)) :=
  {["rollouts.pkl" := <["lengths" := arange [4]]> (rollouts 3 5)]}.
Definition no_obs_disk : gmap string (gmap string (tensor Z)) :=
  {["rollouts.pkl" := delete "obs" (rollouts 3 5)]}.
Definition no_action_disk : gmap string (gmap string (tensor Z)) :=
  {["rollouts.pkl" := delete "action" (rollouts 3 5)]}.
Definition flat_obs_disk : gmap string (gmap string (tensor Z)) :=
  {["rollouts.pkl" := <["obs" := arange [3; 5]]> (rollouts 3 5)]}.

(** A buffer whose [action] field has 2 timesteps where [obs] has 3. *)
Definition short_action_disk : gmap string (gmap string (tensor Z)) :=
  {["rollouts.pkl" := <["action" := arange [2; 5; 2]]> (rollouts 3 5)]}.

(** Observations of 4 timesteps and 5 episodes, 60 numbers per frame. *)
Definition wide_frames_disk : gmap string (gmap string (tensor Z)) :=
  {["frames.pkl" := {["obs" := arange [4; 5; 60]]}]}.

(** Files as they are stored when every tensor in them is contiguous. *)
Definition saved (fs : gmap string (gmap string (tensor Z)))
  : gmap string (gmap string (stored Z)) :=
  fmap (M:=gmap string) (fmap (M:=gmap string) dense) fs.

(** The transpose of the matrix of 2 rows [0 .. 59] and [60 .. 119], as
    [t()] gives it: 60 rows of 2 numbers over the same storage, with the
    strides (1, 60). *)
Definition transposed_frames : stored Z :=
  Stored (Tensor [60; 2]
            (flat_map (λ j, [Z.of_nat j; Z.of_nat (60 + j)]) (seq 0 60)))
         [1; 60].
Definition transposed_disk : gmap string (gmap string (stored Z)) :=
  {["frames.pkl" := {["obs" := transposed_frames]}]}.
End Examples.


(** * Properties *)

(** Membership in [fields]. *)
Ltac in_fields := unfold fields; repeat constructor.

Lemma bind_Ok {T U : Type} (x : T) (f : T → result U) : Ok x ≫= f = f x.
Proof. reflexivity. Qed.

Lemma bind_Err {T U : Type} (e : error) (f : T → result U) :
  Err e ≫= f = Err e.
Proof. reflexivity. Qed.

(** ** The split index *)

Lemma round53_exact (m e : Z) :
  (m < 2 ^ 53)%Z → Float.round53 m e = Float.Float m e.
Proof.
  intros Hm. unfold Float.round53.
  assert (Z.log2 m - 52 ≤ 0)%Z as Hs.
  { destruct (Z.le_gt_cases m 0) as [Hle|Hgt].
    - rewrite Z.log2_nonpos by exact Hle. lia.
    - apply (Z.log2_lt_pow2 m 53) in Hm; [lia | exact Hgt]. }
  apply Z.leb_le in Hs. by rewrite Hs.
Qed.

(** What rounding does to a mantissa of more than 53 bits: it drops [s] bits
    and moves to one of the two neighbours. *)
Lemma round53_neighbours (m e : Z) :
  (2 ^ 52 ≤ m)%Z →
  ∃ q s : Z,
    Float.round53 m e = Float.Float q (e + s) ∧
    (0 ≤ s)%Z ∧ (2 ^ (52 + s) ≤ m < 2 ^ (53 + s))%Z ∧
    (m / 2 ^ s ≤ q ≤ m / 2 ^ s + 1)%Z.
Proof.
  intros Hm.
  assert (0 < m)%Z as Hpos by (pose proof (Z.pow_pos_nonneg 2 52); lia).
  pose proof (Z.log2_spec m Hpos) as [Hlo Hhi].
  assert (52 ≤ Z.log2 m)%Z as H52 by (apply Z.log2_le_pow2; lia).
  exists (Float.mant (Float.round53 m e)), (Z.log2 m - 52)%Z.
  replace (52 + (Z.log2 m - 52))%Z with (Z.log2 m) by lia.
  replace (53 + (Z.log2 m - 52))%Z with (Z.succ (Z.log2 m)) by lia.
  unfold Float.round53.
  destruct (Z.leb_spec (Z.log2 m - 52) 0) as [Hs|Hs]; simpl.
  - assert (Z.log2 m - 52 = 0)%Z as -> by lia.
    rewrite Z.add_0_r, Z.pow_0_r, Z.div_1_r. repeat split; lia.
  - repeat split; try lia; destruct (_ || _); lia.
Qed.

(** On every size a tensor can have in memory the binary64 product is the
    exact floor of four fifths. *)
Lemma split_index_floor (n : nat) :
  (Z.of_nat n < 2 ^ 50)%Z → split_index n = (4 * Z.of_nat n / 5)%Z.
Proof.
  intros Hn. unfold split_index, Float.of_nat.
  rewrite round53_exact by lia.
  destruct (decide (n = 0)) as [->|Hn0]; [reflexivity|].
  unfold Float.mul, Float.f08; cbn [Float.mant Float.expo].
  set (P := (7205759403792794 * Z.of_nat n)%Z).
  destruct (round53_neighbours P (-53 + 0)) as (q & s & -> & Hs & [HPlo HPhi] & Hq).
  { subst P. lia. }
  assert (s ≤ 50)%Z as Hs50.
  { assert (2 ^ (52 + s) < 2 ^ 103)%Z as Hlt by (subst P; lia).
    apply Z.pow_lt_mono_r_iff in Hlt; lia. }
  unfold Float.to_int; cbn [Float.mant Float.expo].
  destruct (Z.leb_spec 0 (-53 + 0 + s)) as [?|_]; [lia|].
  replace (- (-53 + 0 + s))%Z with (53 - s)%Z by lia.
  set (a := (2 ^ s)%Z) in *. set (b := (2 ^ (53 - s))%Z).
  assert (0 < a)%Z as Ha by (apply Z.pow_pos_nonneg; lia).
  assert (0 < b)%Z as Hb by (apply Z.pow_pos_nonneg; lia).
  assert (a * b = 2 ^ 53)%Z as Hab.
  { subst a b. rewrite <- Z.pow_add_r by lia. f_equal. lia. }
  assert (a ≤ 2 ^ 50)%Z as Ha50 by (apply Z.pow_le_mono_r; lia).
  pose proof (Z.div_mod P a ltac:(lia)) as HPa.
  pose proof (Z.mod_pos_bound P a Ha) as Hra.
  pose proof (Z.div_mod (4 * Z.of_nat n) 5 ltac:(lia)) as Hk.
  pose proof (Z.mod_pos_bound (4 * Z.of_nat n) 5 ltac:(lia)) as Hrk.
  set (k := (4 * Z.of_nat n / 5)%Z) in *.
  set (q0 := (P / a)%Z) in *.
  assert (5 * P = 4 * Z.of_nat n * 2 ^ 53 + 2 * Z.of_nat n)%Z as H5P
    by (subst P; lia).
  symmetry. apply (Z.div_unique_pos q b k (q - k * b)); [|lia].
  split.
  - assert (k * b * a < a * (q0 + 1))%Z as Hlow by nia.
    assert (k * b < q0 + 1)%Z by nia. lia.
  - assert (a * (q0 + 1) < (k + 1) * b * a)%Z as Hup by nia.
    assert (q0 + 1 < (k + 1) * b)%Z by nia. lia.
Qed.

(** From [2 ^ 50] on the product can round up to the next integer. *)
Example split_index_above_floor :
  let n := 1769132826461756%Z in
  (2 ^ 50 ≤ n < 2 ^ 51)%Z ∧
  Float.to_int (Float.mul Float.f08 (Float.round53 n 0)) = (4 * n / 5 + 1)%Z.
Proof. split; [lia | reflexivity]. Qed.

Lemma round53_nonneg (m e : Z) : (0 ≤ m)%Z → (0 ≤ Float.mant (Float.round53 m e))%Z.
Proof.
  intros Hm. unfold Float.round53.
  destruct (Z.leb_spec (Z.log2 m - 52) 0) as [Hs|Hs]; simpl; [done|].
  assert (0 ≤ m / 2 ^ (Z.log2 m - 52))%Z.
  { apply Z.div_pos; [done | apply Z.pow_pos_nonneg; lia]. }
  destruct (_ || _); lia.
Qed.

Lemma split_index_nonneg (n : nat) : (0 ≤ split_index n)%Z.
Proof.
  unfold split_index, Float.mul, Float.to_int.
  set (x := Float.round53 _ _).
  assert (0 ≤ Float.mant x)%Z as Hx.
  { apply round53_nonneg. apply Z.mul_nonneg_nonneg; [done|].
    apply round53_nonneg. lia. }
  destruct (Z.leb_spec 0 (Float.expo x)).
  - apply Z.mul_nonneg_nonneg; [done | by apply Z.pow_nonneg].
  - apply Z.div_pos; [done | apply Z.pow_pos_nonneg; lia].
Qed.

(** ** Index arithmetic *)

Lemma norm_index_nonneg (n : nat) (i : Z) :
  (0 ≤ i < Z.of_nat n)%Z → norm_index n i = Ok (Z.to_nat i).
Proof. intros H. unfold norm_index. by rewrite decide_True. Qed.

Lemma norm_index_wrap (n : nat) (i : Z) :
  (- Z.of_nat n ≤ i < 0)%Z → norm_index n i = Ok (Z.to_nat (i + Z.of_nat n)).
Proof.
  intros H. unfold norm_index.
  rewrite decide_False by lia. by rewrite decide_True.
Qed.

Lemma norm_index_outside (n : nat) (i : Z) :
  (i < - Z.of_nat n ∨ Z.of_nat n ≤ i)%Z → fits_int64 i →
  norm_index n i = Err IndexError.
Proof.
  intros H Hfits. unfold norm_index, unpack_long.
  rewrite decide_False by lia. rewrite decide_False by lia.
  by rewrite decide_True.
Qed.

Lemma norm_index_overflow (n : nat) (i : Z) :
  (i < - Z.of_nat n ∨ Z.of_nat n ≤ i)%Z → ¬ fits_int64 i →
  norm_index n i = Err ValueError.
Proof.
  intros H Hfits. unfold norm_index, unpack_long.
  rewrite decide_False by lia. rewrite decide_False by lia.
  by rewrite decide_False.
Qed.

Lemma slice_range_prefix (n : nat) (k : Z) :
  (0 ≤ k)%Z → slice_range n None (Some k) = (0, Z.to_nat k `min` n).
Proof.
  intros Hk. unfold slice_range, clamp_bound; simpl.
  rewrite decide_False by lia. f_equal. lia.
Qed.

Lemma slice_range_suffix (n : nat) (k : Z) :
  (0 ≤ k)%Z → slice_range n (Some k) None = (Z.to_nat k `min` n, n - Z.to_nat k).
Proof.
  intros Hk. unfold slice_range, clamp_bound; simpl.
  rewrite decide_False by lia. f_equal; lia.
Qed.

Lemma slice_range_inside (n : nat) (a len : Z) :
  (0 ≤ a)%Z → (0 ≤ len)%Z → (a + len ≤ Z.of_nat n)%Z →
  slice_range n (Some a) (Some (a + len)%Z) = (Z.to_nat a, Z.to_nat len).
Proof.
  intros Ha Hlen Hn. unfold slice_range, clamp_bound; simpl.
  rewrite !decide_False by lia. f_equal; lia.
Qed.

Lemma floordiv_Ok (i n : Z) : n ≠ 0%Z → floordiv i n = Ok (i / n)%Z.
Proof. intros H. unfold floordiv. by rewrite decide_False. Qed.

Lemma pymod_Ok (i n : Z) : n ≠ 0%Z → pymod i n = Ok (i mod n)%Z.
Proof. intros H. unfold pymod. by rewrite decide_False. Qed.

(** ** Blocks of a row-major list *)

Section Blocks.
Context {A : Type}.
Implicit Types l : list A.

Lemma length_block (sz i : nat) l :
  (i + 1) * sz ≤ length l → length (block sz i l) = sz.
Proof.
  intros H. unfold block. rewrite length_take, length_drop. lia.
Qed.

(** A block of a slice is a block of the whole list. *)
Lemma block_take_drop (sz s len j : nat) l :
  j < len → block sz j (take (len * sz) (drop (s * sz) l)) = block sz (s + j) l.
Proof.
  intros Hj. unfold block.
  rewrite skipn_firstn_comm, take_take, drop_drop.
  f_equal; [nia | f_equal; lia].
Qed.

Lemma block_block (sz n i j : nat) l :
  j < n → block sz j (block (n * sz) i l) = block sz (i * n + j) l.
Proof.
  intros Hj. unfold block at 2.
  replace (i * (n * sz)) with (i * n * sz) by lia.
  by apply block_take_drop.
Qed.

Lemma length_flat_map_uniform {B : Type} (f : B → list A) (n : nat) (xs : list B) :
  Forall (λ x, length (f x) = n) xs → length (flat_map f xs) = length xs * n.
Proof.
  induction 1 as [|x xs Hx _ IH]; simpl; [done|].
  rewrite length_app, Hx, IH. lia.
Qed.

(** Where every piece has [n] elements, the [k]-th block of the
    concatenation is the [k]-th piece. *)
Lemma block_flat_map {B : Type} (f : B → list A) (n : nat) (xs : list B) (k : nat) :
  Forall (λ x, length (f x) = n) xs →
  block n k (flat_map f xs) = from_option f [] (xs !! k).
Proof.
  intros Hall. revert k.
  induction Hall as [|x xs Hx _ IH]; intros k; simpl.
  - unfold block. by rewrite drop_nil, take_nil.
  - destruct k as [|k]; unfold block; simpl.
    + rewrite drop_0. by rewrite take_app_length'.
    + rewrite drop_app_add' by done. apply IH.
Qed.

End Blocks.

(** ** Tensors *)

Section TensorFacts.
Context {A : Type}.
Implicit Types x y : tensor A.

Lemma select_cons x (n : nat) (rest : list nat) (i : nat) :
  shape x = n :: rest → select x i = Tensor rest (block (product rest) i (data x)).
Proof. intros H. unfold select. by rewrite H. Qed.

Lemma wf_select x (n : nat) (rest : list nat) (i : nat) :
  shape x = n :: rest → wf x → i < n → wf (select x i).
Proof.
  intros Hsh Hwf Hi. rewrite (select_cons _ _ _ _ Hsh).
  unfold wf, numel in *; simpl. rewrite Hsh in Hwf; simpl in Hwf.
  apply length_block. nia.
Qed.

Lemma index0_cons x (n : nat) (rest : list nat) (i : Z) :
  shape x = n :: rest → index0 x i = k ← norm_index n i; Ok (select x k).
Proof. intros H. unfold index0. by rewrite H. Qed.

Lemma slice0_cons x (n : nat) (rest : list nat) (a b : option Z) :
  shape x = n :: rest →
  slice0 x a b =
    Ok (Tensor ((slice_range n a b).2 :: rest)
          (take ((slice_range n a b).2 * product rest)
             (drop ((slice_range n a b).1 * product rest) (data x)))).
Proof. intros H. unfold slice0. rewrite H. by destruct (slice_range n a b). Qed.

(** A slice that stays inside the dimension keeps well-formedness. *)
Lemma wf_slice (rest : list nat) (n start len : nat) (l : list A) :
  length l = n * product rest → start + len ≤ n →
  wf (Tensor (len :: rest) (take (len * product rest) (drop (start * product rest) l))).
Proof.
  intros Hl Hn. unfold wf, numel; simpl.
  rewrite length_take, length_drop. nia.
Qed.

(** Position [j] of a slice is position [start + j] of the tensor. *)
Lemma select_slice (rest : list nat) (start len j : nat) (l : list A) :
  j < len →
  select (Tensor (len :: rest)
            (take (len * product rest) (drop (start * product rest) l))) j =
  Tensor rest (block (product rest) (start + j) l).
Proof.
  intros Hj. unfold select; simpl. f_equal. by apply block_take_drop.
Qed.

Lemma transpose01_cons x (d0 d1 : nat) (rest : list nat) :
  shape x = d0 :: d1 :: rest →
  transpose01 x =
    Ok (Tensor (d1 :: d0 :: rest)
          (flat_map (λ j,
             flat_map (λ i, block (product rest) (i * d1 + j) (data x)) (seq 0 d0))
             (seq 0 d1))).
Proof. intros H. unfold transpose01. by rewrite H. Qed.

Lemma transpose01_shape x y :
  transpose01 x = Ok y →
  ∃ d0 d1 rest, shape x = d0 :: d1 :: rest ∧ shape y = d1 :: d0 :: rest.
Proof.
  unfold transpose01. destruct (shape x) as [|d0 [|d1 rest]] eqn:Hsh; try done.
  intros [= <-]. by exists d0, d1, rest.
Qed.

Lemma transpose01_ok x : 2 ≤ ndim x → is_ok (transpose01 x).
Proof.
  unfold ndim, transpose01, is_ok.
  destruct (shape x) as [|d0 [|d1 rest]]; simpl; try lia. eauto.
Qed.

Section Transposed.
Context (x : tensor A) (d0 d1 : nat) (rest : list nat).
Hypothesis Hshape : shape x = d0 :: d1 :: rest.
Hypothesis Hwf : wf x.

Let sz := product rest.
Let inner (j i : nat) : list A := block sz (i * d1 + j) (data x).
Let outer (j : nat) : list A := flat_map (inner j) (seq 0 d0).

Local Lemma length_data : length (data x) = d0 * (d1 * sz).
Proof. unfold wf, numel in Hwf. by rewrite Hshape in Hwf. Qed.

Local Lemma length_inner (j i : nat) :
  j < d1 → i < d0 → length (inner j i) = sz.
Proof.
  intros Hj Hi. apply length_block. rewrite length_data.
  assert (i * d1 + j + 1 ≤ d0 * d1) as Hle by nia.
  apply (Nat.mul_le_mono_r _ _ sz) in Hle. lia.
Qed.

Local Lemma length_outer (j : nat) : j < d1 → length (outer j) = d0 * sz.
Proof.
  intros Hj. unfold outer.
  rewrite (length_flat_map_uniform _ sz), length_seq; [done|].
  apply Forall_forall. intros i Hi%elem_of_seq. apply length_inner; lia.
Qed.

(** The transposed tensor holds at [j, i] what the tensor holds at [i, j]. *)
Lemma transpose01_select y (i j : nat) :
  transpose01 x = Ok y → i < d0 → j < d1 →
  select (select y j) i = select (select x i) j.
Proof.
  rewrite (transpose01_cons _ _ _ _ Hshape). intros [= <-] Hi Hj.
  unfold select at 2 4; simpl. rewrite Hshape.
  unfold select; simpl. f_equal. fold sz.
  change (flat_map _ (seq 0 d1)) with (flat_map outer (seq 0 d1)).
  rewrite (block_flat_map outer (d0 * sz)).
  - rewrite lookup_seq_lt by done; simpl. unfold outer.
    rewrite (block_flat_map (inner j) sz).
    + rewrite lookup_seq_lt by done; simpl. unfold inner.
      symmetry. by apply block_block.
    + apply Forall_forall. intros i' Hi'%elem_of_seq. apply length_inner; lia.
  - apply Forall_forall. intros j' Hj'%elem_of_seq. apply length_outer; lia.
Qed.

Lemma wf_transpose01 y : transpose01 x = Ok y → wf y.
Proof.
  rewrite (transpose01_cons _ _ _ _ Hshape). intros [= <-].
  unfold wf, numel; simpl. fold sz.
  change (flat_map _ (seq 0 d1)) with (flat_map outer (seq 0 d1)).
  rewrite (length_flat_map_uniform _ (d0 * sz)), length_seq; [lia|].
  apply Forall_forall. intros j' Hj'%elem_of_seq. apply length_outer; lia.
Qed.

End Transposed.

End TensorFacts.

(** ** Dictionaries *)

Section DictFacts.
Context {A : Type}.
Implicit Types d : gmap string (tensor A).
Implicit Types f : tensor A → result (tensor A).

(** A comprehension that succeeds has mapped every entry, key by key. *)
Lemma dict_map_lookup f d d' (key : string) :
  dict_map f d = Ok d' →
  match d !! key with
  | Some x => ∃ y, f x = Ok y ∧ d' !! key = Some y
  | None => d' !! key = None
  end.
Proof.
  unfold dict_map. revert d'.
  apply (map_fold_weak_ind (λ r m, ∀ d', r = Ok d' →
    match m !! key with
    | Some x => ∃ y, f x = Ok y ∧ d' !! key = Some y
    | None => d' !! key = None
    end)).
  - intros d' [= <-]. by rewrite !lookup_empty.
  - intros k x m r Hk IH d' Hr.
    destruct r as [acc|]; simpl in Hr; [|done].
    destruct (f x) as [y|] eqn:Hfx; simpl in Hr; [|done].
    injection Hr as <-. specialize (IH acc eq_refl).
    destruct (decide (k = key)) as [->|Hne].
    + rewrite !lookup_insert_eq. eauto.
    + by rewrite !lookup_insert_ne.
Qed.

Lemma dict_map_lookup_Some f d d' (key : string) x :
  dict_map f d = Ok d' → d !! key = Some x →
  ∃ y, f x = Ok y ∧ d' !! key = Some y.
Proof.
  intros Hmap Hx. pose proof (dict_map_lookup f d d' key Hmap) as H.
  by rewrite Hx in H.
Qed.

(** A comprehension whose function succeeds on every entry succeeds. *)
Lemma dict_map_is_ok f d :
  (∀ key x, d !! key = Some x → is_ok (f x)) → is_ok (dict_map f d).
Proof.
  unfold dict_map.
  apply (map_fold_weak_ind (λ r m,
    (∀ key x, m !! key = Some x → is_ok (f x)) → is_ok r)).
  - intros _. by eexists.
  - intros k x m r Hk IH Hall.
    destruct IH as [acc ->].
    { intros key y Hy. apply (Hall key y).
      rewrite lookup_insert_ne; [done | congruence]. }
    destruct (Hall k x) as [y Hy]; [by rewrite lookup_insert_eq|].
    simpl. rewrite Hy. by eexists.
Qed.

Lemma dict_get_Ok d (key : string) x : dict_get d key = Ok x ↔ d !! key = Some x.
Proof. unfold dict_get. destruct (d !! key); naive_solver. Qed.

End DictFacts.

(** ** Construction of the sequence dataset *)

Section SequenceInit.
Import RolloutSequenceDataset.
Context {A : Type}.
Implicit Types x y : tensor A.

(** The train or test restriction of one transposed field. *)
Lemma restrict_field (train : bool) (split_idx : Z) x (n : nat) (inner : list nat) :
  (0 ≤ split_idx)%Z → shape x = n :: inner →
  (if train then slice0 x None (Some split_idx)
   else slice0 x (Some split_idx) None) =
  Ok (Tensor (episodes_in_split train (Z.to_nat split_idx) n :: inner)
        (take (episodes_in_split train (Z.to_nat split_idx) n * product inner)
           (drop (first_episode train (Z.to_nat split_idx) n * product inner)
              (data x)))).
Proof.
  intros Hk Hsh. destruct train; rewrite (slice0_cons _ _ _ _ _ Hsh).
  - by rewrite slice_range_prefix.
  - by rewrite slice_range_suffix.
Qed.

Lemma split_range (train : bool) (split n : nat) :
  first_episode train split n + episodes_in_split train split n ≤ n.
Proof. unfold first_episode, episodes_in_split. destruct train; lia. Qed.

(** What a successful construction has stored. *)
Lemma init_inv (fs : gmap string (gmap string (tensor A))) (path : string)
    (file : gmap string (tensor A)) (len : Z) (tr : bool) (p : t A) :
  fs !! path = Some file →
  __init__ fs path len tr = Ok p →
  ∃ obs steps eps rest,
    file !! "obs" = Some obs ∧ shape obs = steps :: eps :: rest ∧
    seq_len p = len ∧ train p = tr ∧
    seq_num p = (Z.of_nat steps - len + 1)%Z ∧
    ∀ key,
      match file !! key with
      | None => buffer p !! key = None
      | Some x =>
          ∃ d0 d1 inner x',
            shape x = d0 :: d1 :: inner ∧ transpose01 x = Ok x' ∧
            let split := Z.to_nat (split_index eps) in
            buffer p !! key =
              Some (Tensor (episodes_in_split tr split d1 :: d0 :: inner)
                      (take (episodes_in_split tr split d1 * product (d0 :: inner))
                         (drop (first_episode tr split d1 * product (d0 :: inner))
                            (data x'))))
      end.
Proof.
  intros Hfs. unfold __init__, pickle_load. rewrite Hfs; simpl.
  destruct (dict_map transpose01 file) as [tb|] eqn:Htb; simpl; [|done].
  destruct (dict_get tb "obs") as [tobs|] eqn:Htobs; simpl; [|done].
  apply dict_get_Ok in Htobs.
  pose proof (dict_map_lookup _ _ _ "obs" Htb) as Hobs.
  destruct (file !! "obs") as [obs|] eqn:Hfobs; [|congruence].
  destruct Hobs as (tobs' & Htr & Htobs'). simplify_eq.
  destruct (transpose01_shape _ _ Htr) as (steps & eps & rest & Hsh & Hsh').
  assert (shape_at tobs 0 = Ok eps) as ->
    by (unfold shape_at; by rewrite Hsh').
  simpl.
  pose proof (split_index_nonneg eps) as Hnn.
  set (split_idx := split_index eps) in *.
  set (restrict := λ x : tensor A,
         if tr then slice0 x None (Some split_idx)
         else slice0 x (Some split_idx) None).
  assert ((if tr then dict_map (λ x, slice0 x None (Some split_idx)) tb
           else dict_map (λ x, slice0 x (Some split_idx) None) tb)
          = dict_map restrict tb) as -> by (by destruct tr).
  destruct (dict_map restrict tb) as [sb|] eqn:Hsb; simpl; [|done].
  pose proof (dict_map_lookup_Some _ _ _ "obs" _ Hsb Htobs) as (sobs & Hr & Hsobs).
  unfold restrict in Hr. rewrite (restrict_field _ _ _ _ _ Hnn Hsh') in Hr.
  injection Hr as <-.
  unfold dict_get. rewrite Hsobs; simpl. intros [= <-]; simpl.
  exists obs, steps, eps, rest. repeat split; try done.
  intros key.
  pose proof (dict_map_lookup _ _ _ key Htb) as H1.
  pose proof (dict_map_lookup _ _ _ key Hsb) as H2.
  destruct (file !! key) as [x|].
  - destruct H1 as (x' & Hx' & Hlk). rewrite Hlk in H2.
    destruct H2 as (y & Hy & Hlk').
    destruct (transpose01_shape _ _ Hx') as (d0 & d1 & inner & Hshx & Hshx').
    exists d0, d1, inner, x'. repeat split; try done.
    unfold restrict in Hy. rewrite (restrict_field _ _ _ _ _ Hnn Hshx') in Hy.
    by injection Hy as <-.
  - by rewrite H1 in H2.
Qed.

Lemma dict_map_lookup_inv (f : tensor A → result (tensor A))
    (d d' : gmap string (tensor A)) (key : string) y :
  dict_map f d = Ok d' → d' !! key = Some y →
  ∃ x, d !! key = Some x ∧ f x = Ok y.
Proof.
  intros Hmap Hy. pose proof (dict_map_lookup f d d' key Hmap) as H.
  destruct (d !! key) as [x|]; [|congruence].
  destruct H as (y' & Hf & Hy'). exists x. split; congruence.
Qed.

(** Construction succeeds on every file that has an [obs] field and whose
    fields all have at least two dimensions. *)
Lemma init_is_ok (fs : gmap string (gmap string (tensor A))) (path : string)
    (file : gmap string (tensor A)) (len : Z) (tr : bool) :
  fs !! path = Some file →
  is_Some (file !! "obs") →
  (∀ key x, file !! key = Some x → 2 ≤ ndim x) →
  is_ok (__init__ fs path len tr).
Proof.
  intros Hfs [obs Hobs] Hnd. unfold __init__, pickle_load. rewrite Hfs; simpl.
  destruct (dict_map_is_ok transpose01 file) as [tb Htb].
  { intros key x Hx. apply transpose01_ok. eauto. }
  rewrite Htb; simpl.
  destruct (dict_map_lookup_Some _ _ _ "obs" _ Htb Hobs) as (tobs & Htr & Htobs).
  destruct (transpose01_shape _ _ Htr) as (steps & eps & rest & Hsh & Hsh').
  assert (dict_get tb "obs" = Ok tobs) as -> by (by apply dict_get_Ok).
  simpl.
  assert (shape_at tobs 0 = Ok eps) as ->
    by (unfold shape_at; by rewrite Hsh').
  simpl.
  pose proof (split_index_nonneg eps) as Hnn.
  set (split_idx := split_index eps) in *.
  set (restrict := λ x : tensor A,
         if tr then slice0 x None (Some split_idx)
         else slice0 x (Some split_idx) None).
  assert ((if tr then dict_map (λ x, slice0 x None (Some split_idx)) tb
           else dict_map (λ x, slice0 x (Some split_idx) None) tb)
          = dict_map restrict tb) as -> by (by destruct tr).
  destruct (dict_map_is_ok restrict tb) as [sb Hsb].
  { intros key x' Hx'.
    destruct (dict_map_lookup_inv _ _ _ _ _ Htb Hx') as (x & _ & Hx).
    destruct (transpose01_shape _ _ Hx) as (d0 & d1 & inner & _ & Hshx').
    unfold restrict. rewrite (restrict_field _ _ _ _ _ Hnn Hshx'). by eexists. }
  rewrite Hsb; simpl.
  destruct (dict_map_lookup_Some _ _ _ "obs" _ Hsb Htobs) as (sobs & Hr & Hsobs).
  unfold restrict in Hr. rewrite (restrict_field _ _ _ _ _ Hnn Hsh') in Hr.
  injection Hr as <-.
  unfold dict_get. rewrite Hsobs; simpl. by eexists.
Qed.

(** A field of the provider, against the same field of the file: episode [e]
    of the provider is episode [first_episode + e] of the file, timestep by
    timestep. *)
Lemma init_field (fs : gmap string (gmap string (tensor A))) (path : string)
    (file : gmap string (tensor A)) (len : Z) (tr : bool) (p : t A)
    (obs : tensor A) (steps eps : nat) (rest : list nat)
    (key : string) x (d0 d1 : nat) (inner : list nat) :
  fs !! path = Some file →
  __init__ fs path len tr = Ok p →
  file !! "obs" = Some obs → shape obs = steps :: eps :: rest →
  file !! key = Some x → shape x = d0 :: d1 :: inner →
  let split := Z.to_nat (split_index eps) in
  ∃ y,
    buffer p !! key = Some y ∧
    shape y = episodes_in_split tr split d1 :: d0 :: inner ∧
    (wf x →
     wf y ∧
     ∀ e s, e < episodes_in_split tr split d1 → s < d0 →
       select (select y e) s = select (select x s) (first_episode tr split d1 + e)).
Proof.
  intros Hfs Hinit Hobs Hsh Hx Hshx split.
  destruct (init_inv _ _ _ _ _ _ Hfs Hinit)
    as (obs' & steps' & eps' & rest' & Hobs' & Hsh' & _ & _ & _ & Hkeys).
  assert (obs' = obs) as -> by congruence.
  assert (eps' = eps) as -> by congruence.
  specialize (Hkeys key). rewrite Hx in Hkeys.
  destruct Hkeys as (d0' & d1' & inner' & x' & Hshx' & Hx' & Hlk).
  rewrite Hshx in Hshx'. injection Hshx' as <- <- <-.
  fold split in Hlk.
  pose proof (split_range tr split d1) as Hrange.
  eexists. split; [exact Hlk|]. split; [done|].
  intros Hwf.
  pose proof (wf_transpose01 x d0 d1 inner Hshx Hwf x' Hx') as Hwf'.
  rewrite (transpose01_cons _ _ _ _ Hshx) in Hx'.
  assert (shape x' = d1 :: d0 :: inner) as Hshx' by (by injection Hx' as <-).
  split.
  - apply (wf_slice (d0 :: inner) d1); [|done].
    unfold wf, numel in Hwf'. by rewrite Hshx' in Hwf'.
  - intros e s He Hs. rewrite select_slice by done.
    rewrite <- (select_cons x' d1 (d0 :: inner)) by done.
    apply (transpose01_select x d0 d1 inner Hshx Hwf); [|done|lia].
    by rewrite (transpose01_cons _ _ _ _ Hshx).
Qed.

End SequenceInit.

(** ** Size and items of the sequence dataset *)


Section SequenceItems.
Import RolloutSequenceDataset.
Context {A : Type}.
Implicit Types x y w : tensor A.

(** [__len__] after a successful construction. *)
Lemma init_len (fs : gmap string (gmap string (tensor A))) (path : string)
    (file : gmap string (tensor A)) (len : Z) (tr : bool) (p : t A)
    (obs : tensor A) (steps eps : nat) (rest : list nat) :
  fs !! path = Some file →
  __init__ fs path len tr = Ok p →
  file !! "obs" = Some obs → shape obs = steps :: eps :: rest →
  seq_num p = (Z.of_nat steps - len + 1)%Z ∧
  seq_len p = len ∧
  __len__ p =
    Ok ((Z.of_nat steps - len + 1) *
        Z.of_nat (episodes_in_split tr (Z.to_nat (split_index eps)) eps))%Z.
Proof.
  intros Hfs Hinit Hobs Hsh.
  destruct (init_field _ _ _ _ _ _ _ _ _ _ "obs" _ _ _ _ Hfs Hinit Hobs Hsh Hobs Hsh)
    as (y & Hy & Hshy & _).
  destruct (init_inv _ _ _ _ _ _ Hfs Hinit)
    as (obs' & steps' & eps' & rest' & Hobs' & Hsh' & Hlen & _ & Hnum & _).
  assert (obs' = obs) as -> by congruence.
  assert (steps' = steps) as -> by congruence.
  repeat split; try done.
  unfold __len__, dict_get, shape_at. rewrite Hy; simpl. rewrite Hshy; simpl.
  by rewrite Hnum.
Qed.

(** A window on a tensor with enough dimensions for its indices. *)
Lemma window_dims y (idx1 idx2 len : Z) (trailing : bool) :
  (if trailing then 3 else 2) ≤ ndim y →
  window y idx1 idx2 len trailing =
    (row ← index0 y idx1;
     w ← slice0 row (Some idx2) (Some (idx2 + len)%Z);
     if trailing then full_slice 1 w else Ok w).
Proof. intros H. unfold window. by rewrite decide_False by lia. Qed.

Lemma window_dims_cons y (n steps : nat) (rest : list nat)
    (idx1 idx2 len : Z) (trailing : bool) :
  shape y = n :: steps :: rest → (trailing = true → rest ≠ []) →
  window y idx1 idx2 len trailing =
    (row ← index0 y idx1;
     w ← slice0 row (Some idx2) (Some (idx2 + len)%Z);
     if trailing then full_slice 1 w else Ok w).
Proof.
  intros Hsh Hrest. apply window_dims. unfold ndim. rewrite Hsh.
  destruct trailing; simpl; [|lia].
  destruct rest; [by destruct Hrest | simpl; lia].
Qed.

(** A window succeeds whenever the episode index is one the tensor
    accepts. *)
Lemma window_is_ok y (n steps : nat) (rest : list nat) (idx1 idx2 len : Z)
    (trailing : bool) :
  shape y = n :: steps :: rest →
  (- Z.of_nat n ≤ idx1 < Z.of_nat n)%Z →
  (trailing = true → rest ≠ []) →
  is_ok (window y idx1 idx2 len trailing).
Proof.
  intros Hsh Hidx Hrest. rewrite (window_dims_cons _ _ _ _ _ _ _ _ Hsh Hrest).
  rewrite (index0_cons _ _ _ _ Hsh).
  assert (∃ k, norm_index n idx1 = Ok k) as [k ->].
  { destruct (decide (0 ≤ idx1)%Z).
    - rewrite norm_index_nonneg by lia. by eexists.
    - rewrite norm_index_wrap by lia. by eexists. }
  simpl. rewrite (select_cons _ _ _ _ Hsh).
  rewrite (slice0_cons _ steps rest) by done. simpl.
  destruct trailing; [|by eexists].
  unfold full_slice, ndim; simpl. destruct rest; [by destruct Hrest|].
  rewrite decide_True by (simpl; lia). by eexists.
Qed.

(** An episode index outside [-n, n) raises: [IndexError] when it fits 64
    bits, or when the tensor has too few dimensions for the indices, and
    [ValueError] otherwise. *)
Lemma window_outside y (n : nat) (rest : list nat) (idx1 idx2 len : Z)
    (trailing : bool) :
  shape y = n :: rest →
  (idx1 < - Z.of_nat n ∨ Z.of_nat n ≤ idx1)%Z → fits_int64 idx1 →
  window y idx1 idx2 len trailing = Err IndexError.
Proof.
  intros Hsh Hidx Hfits. unfold window. case_decide; [done|].
  rewrite (index0_cons _ _ _ _ Hsh). by rewrite norm_index_outside.
Qed.

Lemma window_overflow y (n : nat) (rest : list nat) (idx1 idx2 len : Z)
    (trailing : bool) :
  shape y = n :: rest → (if trailing then 3 else 2) ≤ ndim y →
  (idx1 < - Z.of_nat n ∨ Z.of_nat n ≤ idx1)%Z → ¬ fits_int64 idx1 →
  window y idx1 idx2 len trailing = Err ValueError.
Proof.
  intros Hsh Hnd Hidx Hfits. rewrite window_dims by done.
  rewrite (index0_cons _ _ _ _ Hsh). by rewrite norm_index_overflow.
Qed.

(** Negative episode indices count from the last episode. *)
Lemma window_wrap y (n : nat) (rest : list nat) (idx1 idx2 len : Z)
    (trailing : bool) :
  shape y = n :: rest →
  (- Z.of_nat n ≤ idx1 < 0)%Z →
  window y idx1 idx2 len trailing =
  window y (idx1 + Z.of_nat n) idx2 len trailing.
Proof.
  intros Hsh Hidx. unfold window. case_decide; [done|].
  rewrite !(index0_cons _ _ _ _ Hsh).
  rewrite norm_index_wrap by done. by rewrite norm_index_nonneg by lia.
Qed.

(** A window that lies inside the episode is exactly the [len] timesteps
    from [idx2] on. *)
Lemma window_inside y (n steps : nat) (rest : list nat) (idx1 idx2 len : Z)
    (trailing : bool) :
  shape y = n :: steps :: rest → wf y →
  (0 ≤ idx1 < Z.of_nat n)%Z →
  (0 ≤ idx2)%Z → (0 ≤ len)%Z → (idx2 + len ≤ Z.of_nat steps)%Z →
  (trailing = true → rest ≠ []) →
  ∃ w, window y idx1 idx2 len trailing = Ok w ∧
       is_window y (Z.to_nat idx1) (Z.to_nat idx2) (Z.to_nat len) w.
Proof.
  intros Hsh Hwf Hidx1 Hidx2 Hlen Hend Hrest.
  rewrite (window_dims_cons _ _ _ _ _ _ _ _ Hsh Hrest).
  rewrite (index0_cons _ _ _ _ Hsh), norm_index_nonneg by done. simpl.
  pose proof (wf_select y n (steps :: rest) (Z.to_nat idx1) Hsh Hwf ltac:(lia))
    as Hwfrow.
  rewrite (select_cons _ _ _ _ Hsh) in *.
  rewrite (slice0_cons _ steps rest) by done.
  rewrite slice_range_inside by done. simpl.
  set (row := block _ _ _) in *.
  set (w := Tensor _ (take _ _)).
  assert (is_window y (Z.to_nat idx1) (Z.to_nat idx2) (Z.to_nat len) w) as Hw.
  { exists n, steps, rest. repeat split; try done.
    - apply (wf_slice rest steps); [|lia].
      unfold wf, numel in Hwfrow. by simpl in Hwfrow.
    - intros j Hj. unfold w. rewrite select_slice by done.
      rewrite (select_cons y n (steps :: rest)) by done.
      by rewrite (select_cons _ steps rest). }
  destruct trailing; [|by exists w].
  unfold full_slice, ndim; simpl. destruct rest; [by destruct Hrest|].
  rewrite decide_True by (simpl; lia). by exists w.
Qed.

End SequenceItems.

(** * Main results *)

Section SequenceResults.
Import RolloutSequenceDataset.
Context {A : Type}.
Implicit Types x y w : tensor A.

(** C1.  A sequence dataset constructed from a file whose [obs] field has
    [steps] timesteps and [eps] episodes holds, in its own [obs] field, the
    episodes kept by the train or test restriction, and [__len__] returns
    [(steps - seq_len + 1)] times their number.  The equation holds for
    every [seq_len], in particular for [1 <= seq_len <= steps]. *)
Theorem C1_sequence_size (fs : gmap string (gmap string (tensor A)))
    (path : string) (file : gmap string (tensor A)) (len : Z) (tr : bool)
    (p : t A) (obs : tensor A) (steps eps : nat) (rest : list nat) :
  fs !! path = Some file →
  file !! "obs" = Some obs → shape obs = steps :: eps :: rest →
  __init__ fs path len tr = Ok p →
  ∃ y kept,
    buffer p !! "obs" = Some y ∧ shape y = kept :: steps :: rest ∧
    kept = episodes_in_split tr (Z.to_nat (split_index eps)) eps ∧
    __len__ p = Ok ((Z.of_nat steps - len + 1) * Z.of_nat kept)%Z.
Proof.
  intros Hfs Hobs Hsh Hinit.
  destruct (init_field _ _ _ _ _ _ _ _ _ _ "obs" _ _ _ _ Hfs Hinit Hobs Hsh Hobs Hsh)
    as (y & Hy & Hshy & _).
  destruct (init_len _ _ _ _ _ _ _ _ _ _ Hfs Hinit Hobs Hsh) as (_ & _ & Hlen).
  by exists y, (episodes_in_split tr (Z.to_nat (split_index eps)) eps).
Qed.

(** C7.  From a buffer of 20 timesteps and 10 episodes, with [seq_len = 5],
    the train dataset is constructed and has 128 items, and the test dataset
    is constructed and has 32 items. *)
Theorem C7_sizes_10_by_20 (fs : gmap string (gmap string (tensor A)))
    (path : string) (file : gmap string (tensor A)) (obs : tensor A)
    (rest : list nat) :
  fs !! path = Some file →
  file !! "obs" = Some obs → shape obs = 20 :: 10 :: rest →
  (∀ key x, file !! key = Some x → 2 ≤ ndim x) →
  (∃ p, __init__ fs path 5 true = Ok p ∧ __len__ p = Ok 128%Z) ∧
  (∃ p, __init__ fs path 5 false = Ok p ∧ __len__ p = Ok 32%Z).
Proof.
  intros Hfs Hobs Hsh Hnd.
  split.
  - destruct (init_is_ok fs path file 5 true Hfs) as [p Hp]; [eauto|done|].
    exists p. split; [done|].
    by destruct (init_len _ _ _ _ _ _ _ _ _ _ Hfs Hp Hobs Hsh) as (_ & _ & ->).
  - destruct (init_is_ok fs path file 5 false Hfs) as [p Hp]; [eauto|done|].
    exists p. split; [done|].
    by destruct (init_len _ _ _ _ _ _ _ _ _ _ Hfs Hp Hobs Hsh) as (_ & _ & ->).
Qed.

(** C4.  The split index [int(0.8 * eps)] is computed from the episode
    count [eps] of the file, and it is [floor(0.8 * eps)] (for every count
    below [2 ^ 50], where the binary64 product is exact enough).  For every
    field with that episode count, the train dataset holds the episodes
    [0 .. split - 1] of the file and the test dataset the episodes
    [split .. eps - 1]: the two ranges are disjoint and their lengths add up
    to [eps]. *)
Theorem C4_split_partitions_episodes (fs : gmap string (gmap string (tensor A)))
    (path : string) (file : gmap string (tensor A)) (len : Z)
    (ptrain ptest : t A) (obs : tensor A) (steps eps : nat) (rest : list nat) :
  fs !! path = Some file →
  file !! "obs" = Some obs → shape obs = steps :: eps :: rest →
  __init__ fs path len true = Ok ptrain →
  __init__ fs path len false = Ok ptest →
  let split := Z.to_nat (split_index eps) `min` eps in
  ((Z.of_nat eps < 2 ^ 50)%Z →
   split_index eps = Z.of_nat split ∧ split = 4 * eps / 5) ∧
  split + (eps - split) = eps ∧
  ∀ key x d0 inner,
    file !! key = Some x → shape x = d0 :: eps :: inner → wf x →
    ∃ ytrain ytest,
      buffer ptrain !! key = Some ytrain ∧ buffer ptest !! key = Some ytest ∧
      shape ytrain = split :: d0 :: inner ∧
      shape ytest = (eps - split) :: d0 :: inner ∧
      (∀ e s, e < split → s < d0 →
         select (select ytrain e) s = select (select x s) e) ∧
      (∀ e s, e < eps - split → s < d0 →
         select (select ytest e) s = select (select x s) (split + e)).
Proof.
  intros Hfs Hobs Hsh Htrain Htest split.
  split; [|split; [lia|]].
  - intros Hbound.
    assert (split_index eps = Z.of_nat (4 * eps / 5)) as Hsplit.
    { rewrite split_index_floor by done.
      by rewrite Nat2Z.inj_div, Nat2Z.inj_mul. }
    assert (4 * eps / 5 ≤ eps) as Hle.
    { apply Nat.Div0.div_le_upper_bound. lia. }
    unfold split. rewrite Hsplit, Nat2Z.id, Nat.min_l by done. done.
  - intros key x d0 inner Hx Hshx Hwf.
    destruct (init_field _ _ _ _ _ _ _ _ _ _ key _ _ _ _
                Hfs Htrain Hobs Hsh Hx Hshx)
      as (ytrain & Hytrain & Hshtrain & Htr).
    destruct (init_field _ _ _ _ _ _ _ _ _ _ key _ _ _ _
                Hfs Htest Hobs Hsh Hx Hshx)
      as (ytest & Hytest & Hshtest & Hte).
    destruct (Htr Hwf) as [_ Heptrain]. destruct (Hte Hwf) as [_ Heptest].
    unfold episodes_in_split, first_episode in *.
    fold split in Hshtrain, Heptrain, Heptest.
    replace (eps - Z.to_nat (split_index eps)) with (eps - split)
      in Hshtest, Heptest by (unfold split; lia).
    by exists ytrain, ytest.
Qed.

(** The window of one field at a flat index in range. *)
Lemma getitem_field (fs : gmap string (gmap string (tensor A)))
    (path : string) (file : gmap string (tensor A)) (len : Z) (tr : bool)
    (p : t A) (steps eps : nat) (idx1 idx2 : Z) (key : string) (trailing : bool) :
  fs !! path = Some file → rollout_file file steps eps →
  __init__ fs path len tr = Ok p →
  (key, trailing) ∈ fields →
  (0 ≤ idx1 < Z.of_nat (episodes_in_split tr (Z.to_nat (split_index eps)) eps))%Z →
  (0 ≤ idx2)%Z → (0 ≤ len)%Z → (idx2 + len ≤ Z.of_nat steps)%Z →
  ∃ y w,
    dict_get (buffer p) key = Ok y ∧
    window y idx1 idx2 len trailing = Ok w ∧
    field_window p key (Z.to_nat idx1) (Z.to_nat idx2) (Z.to_nat len) w.
Proof.
  intros Hfs Hfile Hinit Hkey Hidx1 Hidx2 Hlen Hend.
  destruct (Hfile "obs" true) as (obs & rest & Hobs & Hsh & _);
    [in_fields|].
  destruct (Hfile key trailing Hkey) as (x & inner & Hx & Hshx & Hwf & Htrail).
  destruct (init_field _ _ _ _ _ _ _ _ _ _ key _ _ _ _
              Hfs Hinit Hobs Hsh Hx Hshx) as (y & Hy & Hshy & Hprop).
  destruct (Hprop Hwf) as [Hwfy _].
  destruct (window_inside y _ _ _ idx1 idx2 len trailing Hshy Hwfy)
    as (w & Hw & Hisw); try done.
  exists y, w. split; [by apply dict_get_Ok|]. split; [done|].
  by exists y.
Qed.

(** C2.  On a dataset constructed with [1 <= seq_len <= steps] from a
    rollout buffer, [__getitem__] at a flat index [i] in [0, __len__)
    returns five tensors: the windows of [seq_len] timesteps of the fields
    [obs], [action], [reward], [done], [next_obs], in that order, all of
    episode [i // windows] and starting at timestep [i % windows], where
    [windows = steps - seq_len + 1].  Each has leading dimension
    [seq_len]. *)
Theorem C2_getitem_windows (fs : gmap string (gmap string (tensor A)))
    (path : string) (file : gmap string (tensor A)) (len : Z) (tr : bool)
    (p : t A) (steps eps : nat) (size i : Z) :
  fs !! path = Some file → rollout_file file steps eps →
  (1 ≤ len ≤ Z.of_nat steps)%Z →
  __init__ fs path len tr = Ok p →
  __len__ p = Ok size → (0 ≤ i < size)%Z →
  let windows := (Z.of_nat steps - len + 1)%Z in
  let e := Z.to_nat (i / windows) in
  let s := Z.to_nat (i mod windows) in
  ∃ o a r d n,
    __getitem__ p i = Ok (o, a, r, d, n) ∧
    field_window p "obs" e s (Z.to_nat len) o ∧
    field_window p "action" e s (Z.to_nat len) a ∧
    field_window p "reward" e s (Z.to_nat len) r ∧
    field_window p "done" e s (Z.to_nat len) d ∧
    field_window p "next_obs" e s (Z.to_nat len) n ∧
    Forall (λ w, ∃ rest, shape w = Z.to_nat len :: rest) [o; a; r; d; n].
Proof.
  intros Hfs Hfile Hlen Hinit Hsize Hi windows e s.
  destruct (Hfile "obs" true) as (obs & rest & Hobs & Hsh & _);
    [in_fields|].
  destruct (init_len _ _ _ _ _ _ _ _ _ _ Hfs Hinit Hobs Hsh)
    as (Hnum & Hseq & Hlen').
  rewrite Hlen' in Hsize. injection Hsize as <-. fold windows in Hi, Hnum.
  set (kept := episodes_in_split tr (Z.to_nat (split_index eps)) eps) in *.
  assert (windows = (Z.of_nat steps - len + 1)%Z) as Hwindows by done.
  clearbody windows.
  assert (1 ≤ windows)%Z as Hw by lia.
  assert (0 ≤ i / windows < Z.of_nat kept)%Z as Hidx1.
  { split; [apply Z.div_pos; lia | apply Z.div_lt_upper_bound; lia]. }
  pose proof (Z.mod_pos_bound i windows ltac:(lia)) as Hidx2.
  assert (i mod windows + len ≤ Z.of_nat steps)%Z as Hend by lia.
  pose proof (λ key trailing Hkey,
    getitem_field fs path file len tr p steps eps (i / windows) (i mod windows)
      key trailing Hfs Hfile Hinit Hkey Hidx1 (proj1 Hidx2) ltac:(lia) Hend)
    as Hfield.
  destruct (Hfield "obs" true) as (yo & o & Hyo & Ho & Hwo);
    [in_fields|].
  destruct (Hfield "action" true) as (ya & a & Hya & Ha & Hwa);
    [in_fields|].
  destruct (Hfield "reward" false) as (yr & r & Hyr & Hr & Hwr);
    [in_fields|].
  destruct (Hfield "done" false) as (yd & d & Hyd & Hd & Hwd);
    [in_fields|].
  destruct (Hfield "next_obs" true) as (yn & n & Hyn & Hn & Hwn);
    [in_fields|].
  exists o, a, r, d, n.
  split.
  { unfold __getitem__. rewrite Hnum, Hseq.
    rewrite floordiv_Ok, pymod_Ok by lia. simpl.
    rewrite Hyo; simpl. rewrite Ho; simpl.
    rewrite Hya; simpl. rewrite Ha; simpl.
    rewrite Hyr; simpl. rewrite Hr; simpl.
    rewrite Hyd; simpl. rewrite Hd; simpl.
    rewrite Hyn; simpl. by rewrite Hn. }
  repeat split; try done.
  repeat constructor.
  all: match goal with
       | H : field_window _ ?key _ _ _ ?w |- ∃ _, shape ?w = _ =>
           destruct H as (? & _ & ? & ? & rest' & _ & Hshw & _); by exists rest'
       end.
Qed.

End SequenceResults.

(** C3.  With [windows >= 1] windows per episode, [i // windows] and
    [i % windows] send the flat indices below [eps * windows] to the pairs
    (episode below [eps], start below [windows]); two flat indices with the
    same pair are equal, and every such pair comes from the flat index
    [e * windows + s], which lies in the range. *)
Theorem C3_decomposition_bijection (windows eps : Z) :
  (1 ≤ windows)%Z → (0 ≤ eps)%Z →
  (∀ i, (0 ≤ i < eps * windows)%Z →
     ∃ e s, floordiv i windows = Ok e ∧ pymod i windows = Ok s ∧
            (0 ≤ e < eps)%Z ∧ (0 ≤ s < windows)%Z) ∧
  (∀ i j, (0 ≤ i < eps * windows)%Z → (0 ≤ j < eps * windows)%Z →
     floordiv i windows = floordiv j windows →
     pymod i windows = pymod j windows → i = j) ∧
  (∀ e s, (0 ≤ e < eps)%Z → (0 ≤ s < windows)%Z →
     ∃ i, (0 ≤ i < eps * windows)%Z ∧
          floordiv i windows = Ok e ∧ pymod i windows = Ok s ∧
          ∀ j, (0 ≤ j < eps * windows)%Z →
               floordiv j windows = Ok e → pymod j windows = Ok s → j = i).
Proof.
  intros Hw He.
  assert (windows ≠ 0%Z) as Hw0 by lia.
  split; [|split].
  - intros i Hi. exists (i / windows)%Z, (i mod windows)%Z.
    rewrite floordiv_Ok, pymod_Ok by done.
    repeat split; try done.
    + apply Z.div_pos; lia.
    + apply Z.div_lt_upper_bound; lia.
    + apply Z.mod_pos_bound; lia.
    + apply Z.mod_pos_bound; lia.
  - intros i j _ _. rewrite !floordiv_Ok, !pymod_Ok by done.
    intros [= Hq] [= Hr].
    rewrite (Z.div_mod i windows), (Z.div_mod j windows) by lia. congruence.
  - intros e s Hes Hs. exists (e * windows + s)%Z.
    assert ((e * windows + s) / windows = e)%Z as Hq.
    { rewrite Z.div_add_l by lia. rewrite Z.div_small by lia. lia. }
    assert ((e * windows + s) mod windows = s)%Z as Hr.
    { rewrite Z.add_comm, Z.mod_add by lia. apply Z.mod_small. lia. }
    rewrite floordiv_Ok, pymod_Ok, Hq, Hr by done.
    repeat split; try nia.
    intros j _. rewrite floordiv_Ok, pymod_Ok by done.
    intros [= Hjq] [= Hjr].
    rewrite (Z.div_mod j windows) by lia. lia.
Qed.

(** ** Layouts that allow a view *)

Section LayoutFacts.

Lemma product_app (l k : list nat) : product (l ++ k) = product l * product k.
Proof.
  unfold product. induction l as [|a l IH]; simpl; [lia|]. rewrite IH. lia.
Qed.

Lemma product_reverse (l : list nat) : product (reverse l) = product l.
Proof.
  induction l as [|a l IH]; [done|].
  rewrite reverse_cons, product_app, IH. unfold product; simpl. lia.
Qed.

Lemma length_row_major (szs : list nat) : length (row_major szs) = length szs.
Proof. induction szs; simpl; congruence. Qed.

(** Read from the last dimension on, the stride of a contiguous tensor at a
    dimension is the product of the sizes before it. *)
Lemma row_major_reverse (szs : list nat) (j st : nat) :
  reverse (row_major szs) !! j = Some st →
  st = product (take j (reverse szs)).
Proof.
  revert j st. induction szs as [|a szs IH]; intros j st; [done|].
  simpl. rewrite !reverse_cons. intros Hj.
  destruct (decide (j < length szs)) as [Hlt|Hge].
  - rewrite lookup_app_l in Hj
      by (by rewrite length_reverse, length_row_major).
    rewrite take_app_le by (rewrite length_reverse; lia). by apply IH.
  - apply lookup_lt_Some in Hj as Hlen.
    rewrite length_app, length_reverse, length_row_major in Hlen.
    simpl in Hlen. assert (j = length szs) as -> by lia.
    rewrite lookup_app_r in Hj
      by (rewrite length_reverse, length_row_major; lia).
    rewrite length_reverse, length_row_major, Nat.sub_diag in Hj.
    injection Hj as <-.
    rewrite take_app_length' by (by rewrite length_reverse).
    by rewrite product_reverse.
Qed.

Lemma chunks_continue (size st size' st' : nat) (dims : list (nat * nat))
    (vrest : list nat) (base tn vn : nat) :
  st' = tn * size * base →
  chunks ((size, st) :: (size', st') :: dims) vrest base tn vn =
  chunks ((size', st') :: dims) vrest base (tn * size) vn.
Proof.
  intros ->. change (chunks ((size, st) :: ?d) vrest base tn vn)
    with (if negb (size' =? 1) && negb (tn * size * base =? tn * size * base)
          then let '(vrest', view_numel') := consume vrest vn (tn * size) in
               if view_numel' =? tn * size
               then chunks d vrest' (tn * size * base) 1 1 else false
          else chunks d vrest base (tn * size) vn).
  by rewrite Nat.eqb_refl, andb_false_r.
Qed.

(** On dimensions laid out contiguously there is one chunk, and the view
    has to fill it. *)
Lemma chunks_contiguous (dims : list (nat * nat)) (tn : nat)
    (vrest : list nat) (vn : nat) :
  dims ≠ [] →
  (∀ j st, dims.*2 !! j = Some st → st = tn * product (take j dims.*1)) →
  chunks dims vrest 1 tn vn =
    (let r := consume vrest vn (tn * product dims.*1) in
     (r.2 =? tn * product dims.*1) && bool_decide (r.1 = [])).
Proof.
  revert tn. induction dims as [|[size st] dims IH]; intros tn Hne Hst; [done|].
  destruct dims as [|[size' st'] dims'].
  - cbn [chunks fmap list_fmap fst].
    replace (tn * product [size]) with (tn * size)
      by (unfold product; simpl; lia).
    destruct (consume vrest vn (tn * size)) as [vr vn']; simpl.
    by destruct (vn' =? tn * size).
  - assert (st' = tn * size * 1) as ->.
    { rewrite (Hst 1 st' eq_refl). unfold product; simpl. lia. }
    rewrite chunks_continue by done.
    rewrite IH; [|done|].
    + replace (tn * size * product ((size', tn * size * 1) :: dims').*1)
        with (tn * product ((size, st) :: (size', tn * size * 1) :: dims').*1);
        [done|].
      cbn [fmap list_fmap fst]. unfold product; simpl. lia.
    + intros j st'' Hj. rewrite (Hst (S j) st'' Hj).
      cbn [fmap list_fmap fst take]. unfold product; simpl. lia.
Qed.

(** The two dimensions [(r, w)] fill a chunk of [r * w] elements. *)
Lemma consume_rows (w r : nat) :
  r * w ≠ 0 → consume [w; r] 1 (r * w) = ([], r * w).
Proof.
  intros HT. cbn [consume].
  destruct (Nat.ltb_spec 1 (r * w)) as [H1|H1];
    destruct (Nat.eqb_spec w 1) as [Hw|Hw]; cbn [orb].
  - destruct (Nat.ltb_spec (1 * w) (r * w)); destruct (Nat.eqb_spec r 1);
      cbn [orb]; first [exfalso; nia | f_equal; nia].
  - destruct (Nat.ltb_spec (1 * w) (r * w)); destruct (Nat.eqb_spec r 1);
      cbn [orb]; first [exfalso; nia | f_equal; nia].
  - destruct (Nat.ltb_spec (1 * w) (r * w)); destruct (Nat.eqb_spec r 1);
      cbn [orb]; first [exfalso; nia | f_equal; nia].
  - exfalso. apply Hw. destruct w as [|[|w]], r as [|r]; lia.
Qed.

(** A contiguous tensor can be viewed as rows of [w] elements whenever [w]
    divides the number of its elements. *)
Lemma view_compatible_row_major (szs : list nat) (w : nat) :
  w ≠ 0 → product szs mod w = 0 →
  view_compatible szs (row_major szs) [product szs / w; w] = true.
Proof.
  intros Hw Hmod. unfold view_compatible.
  destruct (reverse (zip szs (row_major szs))) as [|[size st] dims] eqn:Hdims;
    [done|].
  destruct (Nat.eqb_spec (product szs) 0) as [|Hnz]; [done|].
  assert ((reverse (zip szs (row_major szs))).*1 = reverse szs) as Hfst.
  { rewrite fmap_reverse, fst_zip; [done|]. by rewrite length_row_major. }
  assert ((reverse (zip szs (row_major szs))).*2 = reverse (row_major szs))
    as Hsnd.
  { rewrite fmap_reverse, snd_zip; [done|]. by rewrite length_row_major. }
  rewrite Hdims in Hfst, Hsnd.
  assert (∀ j st', ((size, st) :: dims).*2 !! j = Some st' →
            st' = 1 * product (take j ((size, st) :: dims).*1)) as Hst.
  { intros j st' Hj. rewrite Hsnd in Hj. rewrite Hfst.
    rewrite (row_major_reverse szs j st' Hj). lia. }
  assert (st = 1) as ->.
  { rewrite (Hst 0 st eq_refl). unfold product; simpl. lia. }
  assert ((size, 1) :: dims ≠ []) as Hne by done.
  rewrite (chunks_contiguous _ 1 _ _ Hne Hst).
  rewrite Hfst, product_reverse, Nat.mul_1_l.
  assert (product szs = product szs / w * w) as Hrows.
  { pose proof (Nat.div_mod_eq (product szs) w). lia. }
  change (reverse [product szs / w; w]) with [w; product szs / w].
  set (r := product szs / w) in *. rewrite Hrows.
  rewrite consume_rows by lia. simpl. by rewrite Nat.eqb_refl.
Qed.

End LayoutFacts.

(** ** The observation dataset *)

Section ObservationResults.
Import RolloutObservationDataset.
Context {A : Type}.
Implicit Types x y : tensor A.
Implicit Types obs : stored A.

Lemma view_rows_Ok (w : nat) obs :
  w ≠ 0 → numel obs mod w = 0 →
  view_compatible (shape obs) (strides obs) [numel obs / w; w] = true →
  view_rows w obs = Ok (Tensor [numel obs / w; w] (data obs)).
Proof.
  intros Hw Hmod Hlayout. unfold view_rows.
  rewrite decide_True by done. by rewrite Hlayout.
Qed.

Lemma view_rows_Err (w : nat) obs :
  numel obs mod w ≠ 0 → view_rows w obs = Err RuntimeError.
Proof. intros Hmod. unfold view_rows. rewrite decide_False; [done|]. tauto. Qed.

Lemma view_rows_Err_layout (w : nat) obs :
  view_compatible (shape obs) (strides obs) [numel obs / w; w] = false →
  view_rows w obs = Err RuntimeError.
Proof. intros Hlayout. unfold view_rows. rewrite Hlayout. by case_decide. Qed.

(** [view] fails with [RuntimeError] only, and what it returns is fixed. *)
Lemma view_rows_inv (w : nat) obs :
  w ≠ 0 →
  (numel obs mod w = 0 ∧
   view_compatible (shape obs) (strides obs) [numel obs / w; w] = true ∧
   view_rows w obs = Ok (Tensor [numel obs / w; w] (data obs))) ∨
  ((numel obs mod w ≠ 0 ∨
    view_compatible (shape obs) (strides obs) [numel obs / w; w] = false) ∧
   view_rows w obs = Err RuntimeError).
Proof.
  intros Hw.
  destruct (decide (numel obs mod w = 0)) as [Hmod|Hmod];
    [|right; split; [by left | by apply view_rows_Err]].
  destruct (view_compatible (shape obs) (strides obs) [numel obs / w; w])
    eqn:Hlayout; [|right; split; [by right | by apply view_rows_Err_layout]].
  left. by rewrite view_rows_Ok.
Qed.

(** Rows of the matrix of 60 columns are blocks of 60 elements. *)
Lemma select_row60 (rows : nat) (l : list A) (i : nat) :
  select (Tensor [rows; 60] l) i = row60 l i.
Proof. reflexivity. Qed.

(** Construction is the view followed by the split, which does not fail. *)
Lemma obs_init_view (fs : gmap string (gmap string (stored A))) (path : string)
    (file : gmap string (stored A)) obs (tr : bool) (rows : nat) (l : list A) :
  fs !! path = Some file → file !! "obs" = Some obs →
  view_rows 60 obs = Ok (Tensor [rows; 60] l) →
  let split := Z.to_nat (split_index rows) in
  __init__ fs path tr =
    Ok (Build (Tensor [episodes_in_split tr split rows; 60]
                 (take (episodes_in_split tr split rows * 60)
                    (drop (first_episode tr split rows * 60) l)))).
Proof.
  intros Hfs Hobs Hview split.
  unfold __init__, pickle_load, dict_get. rewrite Hfs; simpl. rewrite Hobs; simpl.
  rewrite Hview. simpl.
  pose proof (split_index_nonneg rows) as Hnn.
  rewrite (restrict_field tr (split_index rows)
             (Tensor [rows; 60] l) rows [60] Hnn eq_refl).
  reflexivity.
Qed.

(** What construction stores when the elements divide into rows of 60 and
    the layout allows the view. *)
Lemma obs_init_Ok (fs : gmap string (gmap string (stored A))) (path : string)
    (file : gmap string (stored A)) obs (tr : bool) :
  fs !! path = Some file → file !! "obs" = Some obs →
  numel obs mod 60 = 0 →
  view_compatible (shape obs) (strides obs) [numel obs / 60; 60] = true →
  let rows := numel obs / 60 in
  let split := Z.to_nat (split_index rows) in
  __init__ fs path tr =
    Ok (Build (Tensor [episodes_in_split tr split rows; 60]
                 (take (episodes_in_split tr split rows * 60)
                    (drop (first_episode tr split rows * 60) (data obs))))).
Proof.
  intros Hfs Hobs Hmod Hlayout rows split.
  apply (obs_init_view fs path file obs tr rows (data obs) Hfs Hobs).
  by apply view_rows_Ok.
Qed.

Lemma obs_init_Err (fs : gmap string (gmap string (stored A))) (path : string)
    (file : gmap string (stored A)) obs (tr : bool) :
  fs !! path = Some file → file !! "obs" = Some obs →
  view_rows 60 obs = Err RuntimeError →
  __init__ fs path tr = Err RuntimeError.
Proof.
  intros Hfs Hobs Hview.
  unfold __init__, pickle_load, dict_get. rewrite Hfs; simpl. rewrite Hobs; simpl.
  by rewrite Hview.
Qed.

(** A construction that succeeded went through the view. *)
Lemma obs_init_Ok_inv (fs : gmap string (gmap string (stored A)))
    (path : string) (file : gmap string (stored A)) obs (tr : bool)
    (q : t A) :
  fs !! path = Some file → file !! "obs" = Some obs →
  __init__ fs path tr = Ok q →
  numel obs mod 60 = 0 ∧
  view_compatible (shape obs) (strides obs) [numel obs / 60; 60] = true.
Proof.
  intros Hfs Hobs Hinit.
  destruct (view_rows_inv 60 obs) as [(Hmod & Hlayout & _)|[_ Hview]];
    [done|done|].
  by rewrite (obs_init_Err fs path file obs tr Hfs Hobs Hview) in Hinit.
Qed.

(** Items of a matrix of [n] rows. *)
Lemma obs_getitem (n : nat) (l : list A) (i : nat) :
  i < n →
  __getitem__ (Build (Tensor [n; 60] l)) (Z.of_nat i) = Ok (row60 l i).
Proof.
  intros Hi. unfold __getitem__, index0; simpl.
  rewrite norm_index_nonneg by lia. simpl. by rewrite Nat2Z.id.
Qed.

Lemma row60_slice (start len i : nat) (l : list A) :
  i < len →
  row60 (take (len * 60) (drop (start * 60) l)) i = row60 l (start + i).
Proof.
  intros Hi. unfold row60. f_equal. by apply (block_take_drop 60).
Qed.

(** C5.  When [view(-1, 60)] of the [obs] field gives a matrix [m] of 100
    rows, the flattened matrix, both constructions succeed; the train dataset
    has 80 items, the rows 0 to 79 of [m], and the test dataset has 20 items,
    the rows 80 to 99 of [m]; item 0 of the test dataset is row 80 of [m].
    The matrix has the elements of [obs], in their order. *)
Theorem C5_split_100_rows (fs : gmap string (gmap string (stored A)))
    (path : string) (file : gmap string (stored A)) obs (m : tensor A) :
  fs !! path = Some file → file !! "obs" = Some obs →
  view_rows 60 obs = Ok m → shape m = [100; 60] →
  data m = data obs ∧
  (∃ p, __init__ fs path true = Ok p ∧ __len__ p = Ok 80%Z ∧
        ∀ i, i < 80 → __getitem__ p (Z.of_nat i) = Ok (select m i)) ∧
  (∃ p, __init__ fs path false = Ok p ∧ __len__ p = Ok 20%Z ∧
        (∀ i, i < 20 → __getitem__ p (Z.of_nat i) = Ok (select m (80 + i))) ∧
        __getitem__ p 0 = Ok (select m 80)).
Proof.
  intros Hfs Hobs Hview Hshape.
  destruct (view_rows_inv 60 obs) as [(_ & _ & Hm)|[_ Herr]];
    [done| |congruence].
  rewrite Hview in Hm. injection Hm as ->. injection Hshape as Hrows.
  rewrite Hrows in Hview. split; [done|].
  pose proof (obs_init_view fs path file obs true 100 (data obs) Hfs Hobs Hview)
    as Htrain.
  pose proof (obs_init_view fs path file obs false 100 (data obs) Hfs Hobs Hview)
    as Htest.
  rewrite Hrows.
  change (Z.to_nat (split_index 100)) with 80 in Htrain, Htest.
  cbn [episodes_in_split first_episode] in Htrain, Htest.
  change (80 `min` 100) with 80 in Htrain, Htest.
  change (100 - 80) with 20 in Htest.
  split.
  - eexists. split; [exact Htrain|]. split; [done|].
    intros i Hi. rewrite obs_getitem by done.
    by rewrite (row60_slice 0 80).
  - eexists. split; [exact Htest|]. split; [done|].
    assert (∀ i, i < 20 →
      __getitem__ (Build (Tensor [20; 60]
                     (take (20 * 60) (drop (80 * 60) (data obs)))))
        (Z.of_nat i) = Ok (select (Tensor [100; 60] (data obs)) (80 + i)))
      as Hitems.
    { intros i Hi. rewrite obs_getitem by done.
      by rewrite (row60_slice 80 20). }
    split; [done|]. exact (Hitems 0 ltac:(lia)).
Qed.

(** C6, as the code has it.  Construction views the [obs] field as rows of
    60 elements, and stores the train or the test rows of that matrix of
    [numel / 60] rows.  It succeeds exactly when the number of elements is a
    multiple of 60 and the layout of [obs] allows the view, and raises the
    tensor library's [RuntimeError] otherwise.  For a contiguous [obs] it
    succeeds exactly when the number of elements is a multiple of 60: 600
    elements give the matrix of 10 rows of 60, and 601 elements raise,
    whatever the layout. *)
Theorem C6_view_divisible_by_60 (fs : gmap string (gmap string (stored A)))
    (path : string) (file : gmap string (stored A)) obs (tr : bool) :
  fs !! path = Some file → file !! "obs" = Some obs →
  let rows := numel obs / 60 in
  let split := Z.to_nat (split_index rows) in
  let kept := episodes_in_split tr split rows in
  let first := first_episode tr split rows in
  (is_ok (__init__ fs path tr) ↔
     numel obs mod 60 = 0 ∧
     view_compatible (shape obs) (strides obs) [rows; 60] = true) ∧
  (contiguous obs → (is_ok (__init__ fs path tr) ↔ numel obs mod 60 = 0)) ∧
  (∀ q, __init__ fs path tr = Ok q →
     view_rows 60 obs = Ok (Tensor [rows; 60] (data obs)) ∧
     buffer q = Tensor [kept; 60]
                  (take (kept * 60) (drop (first * 60) (data obs)))) ∧
  (¬ is_ok (__init__ fs path tr) →
     view_rows 60 obs = Err RuntimeError ∧
     __init__ fs path tr = Err RuntimeError) ∧
  (numel obs mod 60 ≠ 0 → __init__ fs path tr = Err RuntimeError) ∧
  (contiguous obs → numel obs = 600 →
     view_rows 60 obs = Ok (Tensor [10; 60] (data obs)) ∧
     ∃ q, __init__ fs path tr = Ok q ∧
          shape (buffer q) = [if tr then 8 else 2; 60]) ∧
  (numel obs = 601 →
     view_rows 60 obs = Err RuntimeError ∧
     __init__ fs path tr = Err RuntimeError).
Proof.
  intros Hfs Hobs rows split kept first.
  assert (numel obs mod 60 = 0 →
          view_compatible (shape obs) (strides obs) [rows; 60] = true →
          view_rows 60 obs = Ok (Tensor [rows; 60] (data obs)) ∧
          __init__ fs path tr =
            Ok (Build (Tensor [kept; 60]
                         (take (kept * 60) (drop (first * 60) (data obs))))))
    as Hok.
  { intros Hmod Hlayout. split; [by apply view_rows_Ok|].
    by apply (obs_init_Ok fs path file obs tr). }
  assert (view_rows 60 obs = Err RuntimeError →
          __init__ fs path tr = Err RuntimeError) as Herr
    by apply (obs_init_Err fs path file obs tr Hfs Hobs).
  assert (contiguous obs → numel obs mod 60 = 0 →
          view_compatible (shape obs) (strides obs) [rows; 60] = true)
    as Hdense.
  { intros Hc Hmod. rewrite Hc. by apply view_compatible_row_major. }
  split; [|split; [|split; [|split; [|split; [|split]]]]].
  - split.
    + intros [q Hq]. by apply (obs_init_Ok_inv fs path file obs tr q).
    + intros [Hmod Hlayout]. destruct (Hok Hmod Hlayout) as [_ ->]. by eexists.
  - intros Hc. split.
    + intros [q Hq]. by apply (obs_init_Ok_inv fs path file obs tr q).
    + intros Hmod. destruct (Hok Hmod (Hdense Hc Hmod)) as [_ ->]. by eexists.
  - intros q Hq.
    destruct (obs_init_Ok_inv fs path file obs tr q Hfs Hobs Hq)
      as [Hmod Hlayout].
    destruct (Hok Hmod Hlayout) as [Hview Hinit]. split; [done|].
    rewrite Hinit in Hq. by injection Hq as <-.
  - intros Hfail.
    destruct (view_rows_inv 60 obs) as [(Hmod & Hlayout & _)|[_ Hview]];
      [done| |].
    + destruct Hfail. destruct (Hok Hmod Hlayout) as [_ ->]. by eexists.
    + split; [done|by apply Herr].
  - intros Hmod. by apply Herr, view_rows_Err.
  - intros Hc Hnumel.
    assert (numel obs mod 60 = 0) as Hmod by (by rewrite Hnumel).
    destruct (Hok Hmod (Hdense Hc Hmod)) as [Hview Hinit].
    assert (rows = 10) as Hrows by (unfold rows; by rewrite Hnumel).
    split; [by rewrite Hview, Hrows|].
    eexists. split; [exact Hinit|]. simpl.
    unfold kept, split. rewrite Hrows. by destruct tr.
  - intros Hnumel.
    assert (view_rows 60 obs = Err RuntimeError) as Hview
      by (apply view_rows_Err; by rewrite Hnumel).
    split; [done|by apply Herr].
Qed.

End ObservationResults.

(** ** Indices outside the range and negative indices *)

Section IndexFacts.
Context {A : Type}.
Implicit Types x y : tensor A.

(** The fields of a dataset constructed from a rollout buffer. *)
Lemma field_present (fs : gmap string (gmap string (tensor A)))
    (path : string) (file : gmap string (tensor A)) (len : Z) (tr : bool)
    (p : Seq.t A) (steps eps : nat) (key : string) (trailing : bool) :
  fs !! path = Some file → rollout_file file steps eps →
  Seq.__init__ fs path len tr = Ok p →
  (key, trailing) ∈ fields →
  ∃ y rest,
    Seq.buffer p !! key = Some y ∧
    shape y = episodes_in_split tr (Z.to_nat (split_index eps)) eps
              :: steps :: rest ∧
    (trailing = true → rest ≠ []).
Proof.
  intros Hfs Hfile Hinit Hkey.
  destruct (Hfile "obs" true) as (obs & rest & Hobs & Hsh & _); [in_fields|].
  destruct (Hfile key trailing Hkey) as (x & inner & Hx & Hshx & _ & Htrail).
  destruct (init_field _ _ _ _ _ _ _ _ _ _ key _ _ _ _
              Hfs Hinit Hobs Hsh Hx Hshx) as (y & Hy & Hshy & _).
  by exists y, inner.
Qed.

(** [__getitem__] reads the flat index through the five windows only. *)
Lemma getitem_congr (p : Seq.t A) (i j : Z) :
  Seq.seq_num p ≠ 0%Z →
  (i mod Seq.seq_num p = j mod Seq.seq_num p)%Z →
  (∀ key trailing y, (key, trailing) ∈ fields →
     Seq.buffer p !! key = Some y →
     Seq.window y (i / Seq.seq_num p) (i mod Seq.seq_num p) (Seq.seq_len p)
       trailing =
     Seq.window y (j / Seq.seq_num p) (i mod Seq.seq_num p) (Seq.seq_len p)
       trailing) →
  Seq.__getitem__ p i = Seq.__getitem__ p j.
Proof.
  intros Hw Hmod Hwin. unfold Seq.__getitem__.
  rewrite !floordiv_Ok, !pymod_Ok by done. rewrite <- Hmod, !bind_Ok.
  unfold dict_get.
  destruct (Seq.buffer p !! "obs") as [yo|] eqn:Hyo; [|done].
  rewrite !bind_Ok, (Hwin "obs" true yo ltac:(in_fields) Hyo).
  destruct (Seq.window yo _ _ _ _); [|done]. rewrite !bind_Ok.
  destruct (Seq.buffer p !! "action") as [ya|] eqn:Hya; [|done].
  rewrite !bind_Ok, (Hwin "action" true ya ltac:(in_fields) Hya).
  destruct (Seq.window ya _ _ _ _); [|done]. rewrite !bind_Ok.
  destruct (Seq.buffer p !! "reward") as [yr|] eqn:Hyr; [|done].
  rewrite !bind_Ok, (Hwin "reward" false yr ltac:(in_fields) Hyr).
  destruct (Seq.window yr _ _ _ _); [|done]. rewrite !bind_Ok.
  destruct (Seq.buffer p !! "done") as [yd|] eqn:Hyd; [|done].
  rewrite !bind_Ok, (Hwin "done" false yd ltac:(in_fields) Hyd).
  destruct (Seq.window yd _ _ _ _); [|done]. rewrite !bind_Ok.
  destruct (Seq.buffer p !! "next_obs") as [yn|] eqn:Hyn; [|done].
  by rewrite !bind_Ok, (Hwin "next_obs" true yn ltac:(in_fields) Hyn).
Qed.

Lemma getitem_is_ok (p : Seq.t A) (i : Z) :
  Seq.seq_num p ≠ 0%Z →
  (∀ key trailing, (key, trailing) ∈ fields →
     ∃ y, Seq.buffer p !! key = Some y ∧
          is_ok (Seq.window y (i / Seq.seq_num p) (i mod Seq.seq_num p)
                   (Seq.seq_len p) trailing)) →
  is_ok (Seq.__getitem__ p i).
Proof.
  intros Hw Hwin. unfold Seq.__getitem__.
  rewrite !floordiv_Ok, !pymod_Ok by done. rewrite !bind_Ok. unfold dict_get.
  destruct (Hwin "obs" true) as (yo & -> & o & Ho); [in_fields|].
  rewrite bind_Ok, Ho, bind_Ok.
  destruct (Hwin "action" true) as (ya & -> & a & Ha); [in_fields|].
  rewrite bind_Ok, Ha, bind_Ok.
  destruct (Hwin "reward" false) as (yr & -> & r & Hr); [in_fields|].
  rewrite bind_Ok, Hr, bind_Ok.
  destruct (Hwin "done" false) as (yd & -> & d & Hd); [in_fields|].
  rewrite bind_Ok, Hd, bind_Ok.
  destruct (Hwin "next_obs" true) as (yn & -> & n & Hn); [in_fields|].
  rewrite bind_Ok, Hn, bind_Ok. by eexists.
Qed.

(** The first field read decides: an episode index that [obs] does not
    accept raises before anything else is read, [IndexError] when it fits 64
    bits and [ValueError] when it does not. *)
Lemma getitem_outside (p : Seq.t A) (i : Z) y (n : nat) (rest : list nat) :
  Seq.seq_num p ≠ 0%Z →
  Seq.buffer p !! "obs" = Some y → shape y = n :: rest →
  (i / Seq.seq_num p < - Z.of_nat n ∨ Z.of_nat n ≤ i / Seq.seq_num p)%Z →
  fits_int64 (i / Seq.seq_num p) →
  Seq.__getitem__ p i = Err IndexError.
Proof.
  intros Hw Hy Hsh Hidx Hfits. unfold Seq.__getitem__.
  rewrite !floordiv_Ok, !pymod_Ok by done. rewrite !bind_Ok. unfold dict_get.
  rewrite Hy, bind_Ok.
  by rewrite (window_outside _ _ _ _ _ _ _ Hsh Hidx Hfits).
Qed.

Lemma getitem_overflow (p : Seq.t A) (i : Z) y (n : nat) (rest : list nat) :
  Seq.seq_num p ≠ 0%Z →
  Seq.buffer p !! "obs" = Some y → shape y = n :: rest → 3 ≤ ndim y →
  (i / Seq.seq_num p < - Z.of_nat n ∨ Z.of_nat n ≤ i / Seq.seq_num p)%Z →
  ¬ fits_int64 (i / Seq.seq_num p) →
  Seq.__getitem__ p i = Err ValueError.
Proof.
  intros Hw Hy Hsh Hnd Hidx Hfits. unfold Seq.__getitem__.
  rewrite !floordiv_Ok, !pymod_Ok by done. rewrite !bind_Ok. unfold dict_get.
  rewrite Hy, bind_Ok.
  by rewrite (window_overflow _ _ _ _ _ _ true Hsh Hnd Hidx Hfits).
Qed.

(** With fewer than three dimensions in [obs], the three indices are too
    many, whatever they are. *)
Lemma getitem_few_dims (p : Seq.t A) (i : Z) y :
  Seq.seq_num p ≠ 0%Z →
  Seq.buffer p !! "obs" = Some y → ndim y < 3 →
  Seq.__getitem__ p i = Err IndexError.
Proof.
  intros Hw Hy Hnd. unfold Seq.__getitem__.
  rewrite !floordiv_Ok, !pymod_Ok by done. rewrite !bind_Ok. unfold dict_get.
  rewrite Hy, bind_Ok. unfold Seq.window. by rewrite decide_True.
Qed.

(** A constructed observation dataset holds a matrix of 60 columns. *)
Lemma obs_init_inv (fs : gmap string (gmap string (stored A)))
    (path : string) (tr : bool) (q : Obs.t A) :
  Obs.__init__ fs path tr = Ok q →
  ∃ n l, q = Obs.Build (Tensor [n; 60] l).
Proof.
  intros Hinit.
  destruct (fs !! path) as [file|] eqn:Hfs;
    [|by unfold Obs.__init__, pickle_load in Hinit; rewrite Hfs in Hinit].
  destruct (file !! "obs") as [obs|] eqn:Hobs.
  - destruct (obs_init_Ok_inv fs path file obs tr q Hfs Hobs Hinit)
      as [Hmod Hlayout].
    rewrite (obs_init_Ok fs path file obs tr Hfs Hobs Hmod Hlayout) in Hinit.
    injection Hinit as <-. by eexists _, _.
  - unfold Obs.__init__, pickle_load, dict_get in Hinit.
    rewrite Hfs in Hinit; simpl in Hinit. by rewrite Hobs in Hinit.
Qed.

End IndexFacts.

Section BothDatasets.
Context {A : Type}.
Implicit Types x y : tensor A.

(** C8, as the code has it.  [__getitem__] raises at every index
    [i >= __len__] and at every index [i < - __len__], for a sequence dataset
    constructed with [seq_len <= steps] and for an observation dataset.  The
    exception is [IndexError] as long as the integer that indexes the tensor
    fits a signed 64-bit integer, which is [i // seq_num] for the sequence
    dataset and [i] for the observation dataset, and the tensor library's
    [ValueError] beyond; a sequence dataset whose [obs] has no per-timestep
    shape raises [IndexError] in both cases. *)
Theorem C8_index_outside_raises :
  (∀ (fs : gmap string (gmap string (tensor A))) (path : string)
     (file : gmap string (tensor A)) (obs : tensor A) (steps eps : nat)
     (rest : list nat) (len : Z) (tr : bool) (p : Seq.t A) (size i : Z),
     fs !! path = Some file →
     file !! "obs" = Some obs → shape obs = steps :: eps :: rest →
     (len ≤ Z.of_nat steps)%Z →
     Seq.__init__ fs path len tr = Ok p → Seq.__len__ p = Ok size →
     (i < - size ∨ size ≤ i)%Z →
     let idx1 := (i / (Z.of_nat steps - len + 1))%Z in
     (rest = [] ∨ fits_int64 idx1 → Seq.__getitem__ p i = Err IndexError) ∧
     (rest ≠ [] → ¬ fits_int64 idx1 →
        Seq.__getitem__ p i = Err ValueError)) ∧
  (∀ (fs : gmap string (gmap string (stored A))) (path : string) (tr : bool)
     (q : Obs.t A) (size i : Z),
     Obs.__init__ fs path tr = Ok q → Obs.__len__ q = Ok size →
     (i < - size ∨ size ≤ i)%Z →
     (fits_int64 i → Obs.__getitem__ q i = Err IndexError) ∧
     (¬ fits_int64 i → Obs.__getitem__ q i = Err ValueError)).
Proof.
  split.
  - intros fs path file obs steps eps rest len tr p size i
      Hfs Hobs Hsh Hlen Hinit Hsize Hi idx1.
    destruct (init_field _ _ _ _ _ _ _ _ _ _ "obs" _ _ _ _
                Hfs Hinit Hobs Hsh Hobs Hsh) as (y & Hy & Hshy & _).
    destruct (init_len _ _ _ _ _ _ _ _ _ _ Hfs Hinit Hobs Hsh)
      as (Hnum & _ & Hlen').
    rewrite Hlen' in Hsize. injection Hsize as <-.
    set (kept := episodes_in_split tr (Z.to_nat (split_index eps)) eps) in *.
    set (windows := (Z.of_nat steps - len + 1)%Z) in *.
    assert (1 ≤ windows)%Z as Hw by (unfold windows; lia).
    assert (idx1 < - Z.of_nat kept ∨ Z.of_nat kept ≤ idx1)%Z as Hidx.
    { unfold idx1. destruct Hi as [Hi|Hi].
      - left. apply Z.div_lt_upper_bound; lia.
      - right. apply Z.div_le_lower_bound; lia. }
    unfold idx1 in *. rewrite <- Hnum in *.
    split.
    + intros [->|Hfits].
      * apply (getitem_few_dims p i y); [lia|done|].
        unfold ndim. rewrite Hshy. simpl. lia.
      * by apply (getitem_outside p i y kept (steps :: rest)); [lia|..].
    + intros Hrest Hfits.
      apply (getitem_overflow p i y kept (steps :: rest)); [lia|done|done| |done|done].
      unfold ndim. rewrite Hshy. destruct rest; [done|simpl; lia].
  - intros fs path tr q size i Hinit Hsize Hi.
    destruct (obs_init_inv fs path tr q Hinit) as (n & l & ->).
    injection Hsize as <-.
    unfold Obs.__getitem__, index0; simpl. split; intros Hfits.
    + by rewrite norm_index_outside by (done || lia).
    + by rewrite norm_index_overflow by (done || lia).
Qed.

(** C10.  For [1 <= k <= __len__], [__getitem__] at [-k] succeeds and
    returns what it returns at [__len__ - k]: on a sequence dataset
    constructed from a rollout buffer, and on an observation dataset. *)
Theorem C10_negative_index_wraps :
  (∀ (fs : gmap string (gmap string (tensor A))) (path : string)
     (file : gmap string (tensor A)) (steps eps : nat)
     (len : Z) (tr : bool) (p : Seq.t A) (size k : Z),
     fs !! path = Some file → rollout_file file steps eps →
     Seq.__init__ fs path len tr = Ok p → Seq.__len__ p = Ok size →
     (1 ≤ k ≤ size)%Z →
     is_ok (Seq.__getitem__ p (- k)) ∧
     Seq.__getitem__ p (- k) = Seq.__getitem__ p (size - k)) ∧
  (∀ (fs : gmap string (gmap string (stored A))) (path : string) (tr : bool)
     (q : Obs.t A) (size k : Z),
     Obs.__init__ fs path tr = Ok q → Obs.__len__ q = Ok size →
     (1 ≤ k ≤ size)%Z →
     is_ok (Obs.__getitem__ q (- k)) ∧
     Obs.__getitem__ q (- k) = Obs.__getitem__ q (size - k)).
Proof.
  split.
  - intros fs path file steps eps len tr p size k Hfs Hfile Hinit Hsize Hk.
    destruct (Hfile "obs" true) as (obs & rest & Hobs & Hsh & _); [in_fields|].
    destruct (init_len _ _ _ _ _ _ _ _ _ _ Hfs Hinit Hobs Hsh)
      as (Hnum & _ & Hlen').
    rewrite Hlen' in Hsize. injection Hsize as <-.
    set (kept := episodes_in_split tr (Z.to_nat (split_index eps)) eps) in *.
    rewrite <- Hnum in *.
    set (windows := Seq.seq_num p) in *.
    assert (1 ≤ windows)%Z as Hw by nia.
    assert (- Z.of_nat kept ≤ - k / windows < 0)%Z as Hidx.
    { split.
      - apply Z.div_le_lower_bound; lia.
      - apply Z.div_lt_upper_bound; lia. }
    assert ((windows * Z.of_nat kept - k) / windows
            = - k / windows + Z.of_nat kept)%Z as Hdiv.
    { replace (windows * Z.of_nat kept - k)%Z
        with (- k + Z.of_nat kept * windows)%Z by lia.
      apply Z.div_add. lia. }
    assert ((windows * Z.of_nat kept - k) mod windows = - k mod windows)%Z
      as Hmod.
    { replace (windows * Z.of_nat kept - k)%Z
        with (- k + Z.of_nat kept * windows)%Z by lia.
      apply Z.mod_add. lia. }
    split.
    + apply getitem_is_ok; fold windows; [lia|].
      intros key trailing Hkey.
      destruct (field_present _ _ _ _ _ _ _ _ _ _ Hfs Hfile Hinit Hkey)
        as (y & inner & Hy & Hshy & Htrail).
      exists y. split; [done|].
      apply (window_is_ok y kept steps inner); [done| |done].
      fold kept. lia.
    + apply getitem_congr; fold windows; [lia|by rewrite Hmod|].
      intros key trailing y Hkey Hy. rewrite Hdiv.
      destruct (field_present _ _ _ _ _ _ _ _ _ _ Hfs Hfile Hinit Hkey)
        as (y' & inner & Hy' & Hshy & _).
      assert (y' = y) as -> by congruence.
      by apply (window_wrap y kept (steps :: inner)).
  - intros fs path tr q size k Hinit Hsize Hk.
    destruct (obs_init_inv fs path tr q Hinit) as (n & l & ->).
    injection Hsize as <-.
    unfold Obs.__getitem__, index0; simpl.
    rewrite norm_index_wrap, norm_index_nonneg by lia. simpl.
    split; [by eexists|]. do 2 f_equal. lia.
Qed.

End BothDatasets.

(** ** The results on test buffers *)

Lemma rollouts_rollout_file (steps eps : nat) :
  rollout_file (Examples.rollouts steps eps) steps eps.
Proof.
  intros key trailing Hkey. unfold fields in Hkey.
  assert (∀ sh, wf (Examples.arange sh)) as Hwf.
  { intros sh. unfold wf, Examples.arange, numel; simpl.
    by rewrite length_fmap, length_seq. }
  unfold Examples.rollouts.
  repeat (apply elem_of_cons in Hkey as [[= -> ->]|Hkey]);
    [.. | by apply elem_of_nil in Hkey].
  all: eexists (Examples.arange _), _.
  all: split; [by simplify_map_eq|].
  all: split; [reflexivity|].
  all: by split; [apply Hwf|].
Qed.

Import Examples.

Lemma C1_sequence_size_witness :
  is_ok (Seq.__init__ (disk 3 5) "rollouts.pkl" 2 true) ∧
  (p ← Seq.__init__ (disk 3 5) "rollouts.pkl" 2 true; Seq.__len__ p) = Ok 8%Z.
Proof.
  destruct (Seq.__init__ (disk 3 5) "rollouts.pkl" 2 true) as [p|e] eqn:Hinit.
  - split; [by exists p|]. simpl.
    destruct (C1_sequence_size (disk 3 5) "rollouts.pkl" (rollouts 3 5) 2 true
                p (arange [3; 5; 3]) 3 5 [3])
      as (y & kept & _ & _ & -> & ->);
      [vm_compute; reflexivity .. | exact Hinit | vm_compute; reflexivity].
  - vm_compute in Hinit. discriminate Hinit.
Defined.

Lemma C7_sizes_10_by_20_witness :
  (p ← Seq.__init__ (disk 20 10) "rollouts.pkl" 5 true; Seq.__len__ p)
    = Ok 128%Z ∧
  (p ← Seq.__init__ (disk 20 10) "rollouts.pkl" 5 false; Seq.__len__ p)
    = Ok 32%Z.
Proof.
  destruct (C7_sizes_10_by_20 (disk 20 10) "rollouts.pkl" (rollouts 20 10)
              (arange [20; 10; 3]) [3])
    as [(p & -> & Hp) (q & -> & Hq)];
    [vm_compute; reflexivity .. | | by split].
  apply (bool_decide_eq_true_1
           (map_Forall (λ _ (x : tensor Z), 2 ≤ ndim x) (rollouts 20 10))).
  vm_compute. reflexivity.
Defined.

Lemma C3_decomposition_bijection_witness :
  (1 ≤ 16)%Z ∧ (0 ≤ 8)%Z ∧
  ∃ i, (0 ≤ i < 8 * 16)%Z ∧ floordiv i 16 = Ok 2%Z ∧ pymod i 16 = Ok 5%Z.
Proof.
  split; [lia|]. split; [lia|].
  destruct (C3_decomposition_bijection 16 8) as (_ & _ & Hpair); [lia ..|].
  destruct (Hpair 2 5)%Z as (i & Hi & Hq & Hr & _); [lia ..|].
  by exists i.
Defined.

Lemma C4_split_partitions_episodes_witness :
  (p ← Seq.__init__ (disk 3 5) "rollouts.pkl" 2 true;
   Ok (shape <$> Seq.buffer p !! "obs")) = Ok (Some [4; 3; 3]) ∧
  (p ← Seq.__init__ (disk 3 5) "rollouts.pkl" 2 false;
   Ok (shape <$> Seq.buffer p !! "obs")) = Ok (Some [1; 3; 3]).
Proof.
  destruct (Seq.__init__ (disk 3 5) "rollouts.pkl" 2 true) as [p|e] eqn:Hp;
    [|vm_compute in Hp; discriminate Hp].
  destruct (Seq.__init__ (disk 3 5) "rollouts.pkl" 2 false) as [q|e] eqn:Hq;
    [|vm_compute in Hq; discriminate Hq].
  destruct (C4_split_partitions_episodes (disk 3 5) "rollouts.pkl"
              (rollouts 3 5) 2 p q (arange [3; 5; 3]) 3 5 [3])
    as (_ & _ & Hfields);
    [vm_compute; reflexivity .. | exact Hp | exact Hq |].
  destruct (Hfields "obs" (arange [3; 5; 3]) 3 [3])
    as (y1 & y2 & Hy1 & Hy2 & Hsh1 & Hsh2 & _);
    [vm_compute; reflexivity .. |].
  rewrite !bind_Ok, Hy1, Hy2. simpl. rewrite Hsh1, Hsh2. split; reflexivity.
Defined.

Lemma C2_getitem_windows_witness :
  rollout_file (rollouts 3 5) 3 5 ∧
  ∃ o a r d n,
    (p ← Seq.__init__ (disk 3 5) "rollouts.pkl" 2 true; Seq.__getitem__ p 1)
      = Ok (o, a, r, d, n) ∧
    Forall (λ w, ∃ rest, shape w = 2 :: rest) [o; a; r; d; n].
Proof.
  split; [apply rollouts_rollout_file|].
  destruct (Seq.__init__ (disk 3 5) "rollouts.pkl" 2 true) as [p|e] eqn:Hp;
    [|vm_compute in Hp; discriminate Hp].
  assert (disk 3 5 !! "rollouts.pkl" = Some (rollouts 3 5)) as Hfs
    by (vm_compute; reflexivity).
  destruct (init_len (disk 3 5) "rollouts.pkl" (rollouts 3 5) 2 true p
              (arange [3; 5; 3]) 3 5 [3] Hfs Hp) as (_ & _ & Hlen);
    [vm_compute; reflexivity .. |].
  destruct (C2_getitem_windows (disk 3 5) "rollouts.pkl" (rollouts 3 5) 2 true
              p 3 5 8 1 Hfs (rollouts_rollout_file 3 5))
    as (o & a & r & d & n & Hget & _ & _ & _ & _ & _ & Hshapes);
    [lia | exact Hp | exact Hlen | lia |].
  exists o, a, r, d, n. rewrite bind_Ok. split; [exact Hget | exact Hshapes].
Defined.

Lemma C5_split_100_rows_witness :
  view_rows 60 (dense (arange [100; 60])) = Ok (arange [100; 60]) ∧
  (q ← Obs.__init__ (saved frames_disk) "frames.pkl" true; Obs.__len__ q)
    = Ok 80%Z ∧
  (q ← Obs.__init__ (saved frames_disk) "frames.pkl" false; Obs.__len__ q)
    = Ok 20%Z ∧
  (q ← Obs.__init__ (saved frames_disk) "frames.pkl" false;
   Obs.__getitem__ q 0) = Ok (select (arange [100; 60]) 80).
Proof.
  assert (view_rows 60 (dense (arange [100; 60])) = Ok (arange [100; 60]))
    as Hview by (vm_compute; reflexivity).
  split; [exact Hview|].
  destruct (C5_split_100_rows (saved frames_disk) "frames.pkl"
              {["obs" := dense (arange [100; 60])]} (dense (arange [100; 60]))
              (arange [100; 60]))
    as (_ & (q1 & -> & Hlen1 & _) & (q2 & -> & Hlen2 & _ & Hfirst));
    [vm_compute; reflexivity | vm_compute; reflexivity | exact Hview
    | reflexivity |].
  rewrite !bind_Ok.
  split; [exact Hlen1|]. split; [exact Hlen2|]. exact Hfirst.
Defined.

Lemma C6_view_divisible_by_60_witness :
  contiguous (dense (arange [20; 10; 3])) ∧
  numel (arange [20; 10; 3]) = 600 ∧
  view_rows 60 (dense (arange [20; 10; 3])) =
    Ok (Tensor [10; 60] (data (arange [20; 10; 3]))) ∧
  ∃ q, Obs.__init__ (saved (disk 20 10)) "rollouts.pkl" true = Ok q ∧
       shape (Obs.buffer q) = [8; 60].
Proof.
  split; [reflexivity|]. split; [reflexivity|].
  destruct (C6_view_divisible_by_60 (saved (disk 20 10)) "rollouts.pkl"
              (dense <$> rollouts 20 10) (dense (arange [20; 10; 3])) true)
    as (_ & _ & _ & _ & _ & H600 & _);
    [vm_compute; reflexivity .. |].
  apply H600; reflexivity.
Defined.

(** Where C6 as worded fails: the transposed [obs] has 120 elements, a
    multiple of 60, and is not contiguous; [view] refuses it and construction
    raises [RuntimeError]. *)
Lemma C6_transposed_obs_counterexample :
  transposed_disk !! "frames.pkl" = Some {["obs" := transposed_frames]} ∧
  numel transposed_frames = 120 ∧ numel transposed_frames mod 60 = 0 ∧
  view_rows 60 transposed_frames = Err RuntimeError ∧
  Obs.__init__ transposed_disk "frames.pkl" true = Err RuntimeError ∧
  Obs.__init__ transposed_disk "frames.pkl" false = Err RuntimeError ∧
  ¬ is_ok (Obs.__init__ transposed_disk "frames.pkl" true).
Proof.
  assert (Obs.__init__ transposed_disk "frames.pkl" true = Err RuntimeError)
    as Htrain by (vm_compute; reflexivity).
  repeat split; try (vm_compute; reflexivity).
  rewrite Htrain. by intros [q Hq].
Qed.

Lemma C8_index_outside_raises_witness :
  (p ← Seq.__init__ (disk 3 5) "rollouts.pkl" 2 true; Seq.__len__ p) = Ok 8%Z ∧
  (p ← Seq.__init__ (disk 3 5) "rollouts.pkl" 2 true; Seq.__getitem__ p 8)
    = Err IndexError ∧
  (p ← Seq.__init__ (disk 3 5) "rollouts.pkl" 2 true;
   Seq.__getitem__ p (2 ^ 64)) = Err ValueError ∧
  (q ← Obs.__init__ (saved (disk 20 10)) "rollouts.pkl" true; Obs.__len__ q)
    = Ok 8%Z ∧
  (q ← Obs.__init__ (saved (disk 20 10)) "rollouts.pkl" true;
   Obs.__getitem__ q (-9)) = Err IndexError ∧
  (q ← Obs.__init__ (saved (disk 20 10)) "rollouts.pkl" true;
   Obs.__getitem__ q (2 ^ 63)) = Err ValueError.
Proof.
  destruct (C8_index_outside_raises (A:=Z)) as [Hseq Hobs].
  destruct (Seq.__init__ (disk 3 5) "rollouts.pkl" 2 true) as [p|e] eqn:Hp;
    [|vm_compute in Hp; discriminate Hp].
  destruct (Obs.__init__ (saved (disk 20 10)) "rollouts.pkl" true)
    as [q|e] eqn:Hq; [|vm_compute in Hq; discriminate Hq].
  assert (disk 3 5 !! "rollouts.pkl" = Some (rollouts 3 5)) as Hfs
    by (vm_compute; reflexivity).
  destruct (init_len (disk 3 5) "rollouts.pkl" (rollouts 3 5) 2 true p
              (arange [3; 5; 3]) 3 5 [3] Hfs Hp) as (_ & _ & Hlen);
    [vm_compute; reflexivity .. |].
  assert (Obs.__len__ q = Ok 8%Z) as Hlenq.
  { vm_compute in Hq. injection Hq as <-. reflexivity. }
  rewrite !bind_Ok. split; [exact Hlen|]. split; [|split; [|split; [|split]]].
  - apply (Hseq (disk 3 5) "rollouts.pkl" (rollouts 3 5) (arange [3; 5; 3])
             3 5 [3] 2%Z true p 8%Z 8%Z Hfs);
      [vm_compute; reflexivity .. | lia | exact Hp | exact Hlen | lia |].
    right. unfold fits_int64. vm_compute. split; [discriminate | reflexivity].
  - apply (Hseq (disk 3 5) "rollouts.pkl" (rollouts 3 5) (arange [3; 5; 3])
             3 5 [3] 2%Z true p 8%Z (2 ^ 64)%Z Hfs);
      [vm_compute; reflexivity .. | lia | exact Hp | exact Hlen | lia
      | discriminate |].
    unfold fits_int64. vm_compute. intros [_ H]. discriminate H.
  - exact Hlenq.
  - apply (Hobs (saved (disk 20 10)) "rollouts.pkl" true q 8%Z (-9)%Z
             Hq Hlenq); [lia|].
    unfold fits_int64. vm_compute. split; [discriminate | reflexivity].
  - apply (Hobs (saved (disk 20 10)) "rollouts.pkl" true q 8%Z (2 ^ 63)%Z
             Hq Hlenq); [lia|].
    unfold fits_int64. vm_compute. intros [_ H]. discriminate H.
Defined.

(** Where C8 as worded fails: index [-1] is outside [0, __len__), and both
    classes return the last item for it. *)
Lemma C8_negative_index_counterexample :
  ((q ← Obs.__init__ (saved (disk 20 10)) "rollouts.pkl" true; Obs.__len__ q)
     = Ok 8%Z ∧
   ¬ (0 ≤ -1 < 8)%Z ∧
   (q ← Obs.__init__ (saved (disk 20 10)) "rollouts.pkl" true;
    Obs.__getitem__ q (-1))
     = Ok (row60 (data (arange [20; 10; 3])) 7)) ∧
  ((p ← Seq.__init__ (disk 3 5) "rollouts.pkl" 2 true; Seq.__len__ p) = Ok 8%Z ∧
   (p ← Seq.__init__ (disk 3 5) "rollouts.pkl" 2 true; Seq.__getitem__ p (-1))
     = Ok (Tensor [2; 3] [24; 25; 26; 39; 40; 41]%Z,
           Tensor [2; 2] [16; 17; 26; 27]%Z,
           Tensor [2] [8; 13]%Z,
           Tensor [2] [8; 13]%Z,
           Tensor [2; 3] [24; 25; 26; 39; 40; 41]%Z)).
Proof.
  repeat split; try (vm_compute; reflexivity). lia.
Qed.

Lemma C10_negative_index_wraps_witness :
  rollout_file (rollouts 3 5) 3 5 ∧
  (p ← Seq.__init__ (disk 3 5) "rollouts.pkl" 2 true; Seq.__getitem__ p (-1)) =
  (p ← Seq.__init__ (disk 3 5) "rollouts.pkl" 2 true; Seq.__getitem__ p 7) ∧
  (q ← Obs.__init__ (saved (disk 20 10)) "rollouts.pkl" true;
   Obs.__getitem__ q (-1)) =
  (q ← Obs.__init__ (saved (disk 20 10)) "rollouts.pkl" true;
   Obs.__getitem__ q 7).
Proof.
  split; [apply rollouts_rollout_file|].
  destruct (C10_negative_index_wraps (A:=Z)) as [Hseq Hobs].
  destruct (Seq.__init__ (disk 3 5) "rollouts.pkl" 2 true) as [p|e] eqn:Hp;
    [|vm_compute in Hp; discriminate Hp].
  destruct (Obs.__init__ (saved (disk 20 10)) "rollouts.pkl" true)
    as [q|e] eqn:Hq; [|vm_compute in Hq; discriminate Hq].
  assert (disk 3 5 !! "rollouts.pkl" = Some (rollouts 3 5)) as Hfs
    by (vm_compute; reflexivity).
  destruct (init_len (disk 3 5) "rollouts.pkl" (rollouts 3 5) 2 true p
              (arange [3; 5; 3]) 3 5 [3] Hfs Hp) as (_ & _ & Hlen);
    [vm_compute; reflexivity .. |].
  assert (Obs.__len__ q = Ok 8%Z) as Hlenq.
  { vm_compute in Hq. injection Hq as <-. reflexivity. }
  rewrite !bind_Ok. split.
  - apply (Hseq (disk 3 5) "rollouts.pkl" (rollouts 3 5) 3 5 2%Z true p 8%Z
             1%Z Hfs (rollouts_rollout_file 3 5) Hp Hlen). lia.
  - apply (Hobs (saved (disk 20 10)) "rollouts.pkl" true q 8%Z 1%Z Hq Hlenq). lia.
Defined.

(** * Further properties *)

(** ** How construction fails *)

Section ConstructionOutcome.
Context {A : Type}.
Implicit Types x y : tensor A.
Implicit Types file : gmap string (tensor A).

(** A comprehension that fails has failed on one of its entries. *)
Lemma dict_map_Err (f : tensor A → result (tensor A)) file (e : error) :
  dict_map f file = Err e → ∃ key x, file !! key = Some x ∧ f x = Err e.
Proof.
  unfold dict_map. revert e.
  apply (map_fold_weak_ind (λ r m, ∀ e, r = Err e →
    ∃ key x, m !! key = Some x ∧ f x = Err e)).
  - intros e [=].
  - intros k x m r Hk IH e Hr.
    destruct r as [acc|e0]; simpl in Hr.
    + destruct (f x) as [y|e1] eqn:Hfx; simpl in Hr; [done|].
      injection Hr as <-. exists k, x. by rewrite lookup_insert_eq.
    + injection Hr as <-. destruct (IH e0 eq_refl) as (key & x' & Hx' & Hf).
      exists key, x'. split; [|done].
      rewrite lookup_insert_ne; [done | congruence].
Qed.

Lemma transpose01_Err x (e : error) : transpose01 x = Err e → e = IndexError.
Proof. unfold transpose01. destruct (shape x) as [|? [|? ?]]; congruence. Qed.

Lemma transpose01_ndim x y : transpose01 x = Ok y → 2 ≤ ndim x.
Proof.
  intros (d0 & d1 & rest & Hsh & _)%transpose01_shape.
  unfold ndim. rewrite Hsh. simpl. lia.
Qed.

(** X1.  Construction of a sequence dataset raises [FileNotFoundError] when
    there is no file at the path; [IndexError] when some field of the file,
    whichever it is, has fewer than two dimensions; [KeyError] when every
    field has two dimensions and there is no [obs]; and succeeds in the
    remaining case, whatever [seq_len] is. *)
Theorem X1_sequence_construction_outcome
    (fs : gmap string (gmap string (tensor A))) (path : string)
    (len : Z) (tr : bool) :
  (fs !! path = None → Seq.__init__ fs path len tr = Err FileNotFoundError) ∧
  (∀ file key x,
     fs !! path = Some file → file !! key = Some x → ndim x < 2 →
     Seq.__init__ fs path len tr = Err IndexError) ∧
  (∀ file,
     fs !! path = Some file →
     (∀ key x, file !! key = Some x → 2 ≤ ndim x) →
     file !! "obs" = None →
     Seq.__init__ fs path len tr = Err KeyError) ∧
  (∀ file,
     fs !! path = Some file →
     (is_ok (Seq.__init__ fs path len tr) ↔
      is_Some (file !! "obs") ∧ ∀ key x, file !! key = Some x → 2 ≤ ndim x)).
Proof.
  assert (∀ file key x,
    fs !! path = Some file → file !! key = Some x → ndim x < 2 →
    Seq.__init__ fs path len tr = Err IndexError) as Hindex.
  { intros file key x Hfs Hx Hnd.
    unfold Seq.__init__, pickle_load. rewrite Hfs, bind_Ok.
    destruct (dict_map transpose01 file) as [tb|e] eqn:Htb.
    - destruct (dict_map_lookup_Some _ _ _ _ _ Htb Hx) as (y & Hy & _).
      apply transpose01_ndim in Hy. lia.
    - destruct (dict_map_Err _ _ _ Htb) as (key' & x' & _ & Hx').
      by rewrite (transpose01_Err _ _ Hx'). }
  assert (∀ file,
    fs !! path = Some file →
    (∀ key x, file !! key = Some x → 2 ≤ ndim x) →
    file !! "obs" = None →
    Seq.__init__ fs path len tr = Err KeyError) as Hkey.
  { intros file Hfs Hnd Hobs.
    unfold Seq.__init__, pickle_load. rewrite Hfs, bind_Ok.
    destruct (dict_map_is_ok transpose01 file) as [tb Htb].
    { intros key x Hx. apply transpose01_ok. eauto. }
    rewrite Htb, bind_Ok.
    pose proof (dict_map_lookup _ _ _ "obs" Htb) as Hlk.
    rewrite Hobs in Hlk. unfold dict_get. by rewrite Hlk. }
  split; [|split; [exact Hindex | split; [exact Hkey|]]].
  - intros Hfs. unfold Seq.__init__, pickle_load. by rewrite Hfs.
  - intros file Hfs. split.
    + intros [p Hp].
      assert (∀ key x, file !! key = Some x → 2 ≤ ndim x) as Hnd.
      { intros key x Hx. destruct (decide (2 ≤ ndim x)) as [|Hlt]; [done|].
        rewrite (Hindex file key x Hfs Hx) in Hp by lia. done. }
      split; [|done].
      destruct (file !! "obs") eqn:Hobs; [by eexists|].
      by rewrite (Hkey file Hfs Hnd Hobs) in Hp.
    + intros [Hobs Hnd]. by apply (init_is_ok fs path file).
Qed.

(** X2.  Construction of an observation dataset reads the file through its
    [obs] field only: it raises [FileNotFoundError] without a file,
    [KeyError] without [obs], and otherwise what it does is decided by [obs]
    as it is stored, whatever the other fields hold; it gives a dataset or
    the [RuntimeError] of [view], and a dataset only when the number of
    elements of [obs] is a multiple of 60. *)
Theorem X2_observation_construction_outcome
    (fs : gmap string (gmap string (stored A))) (path : string) (tr : bool) :
  (fs !! path = None → Obs.__init__ fs path tr = Err FileNotFoundError) ∧
  (∀ file : gmap string (stored A),
     fs !! path = Some file → file !! "obs" = None →
     Obs.__init__ fs path tr = Err KeyError) ∧
  (∀ (file file' : gmap string (stored A)) (obs : stored A),
     fs !! path = Some file → file !! "obs" = Some obs →
     file' !! "obs" = Some obs →
     Obs.__init__ fs path tr = Obs.__init__ (<[path := file']> fs) path tr ∧
     (is_ok (Obs.__init__ fs path tr) → numel obs mod 60 = 0) ∧
     (is_ok (Obs.__init__ fs path tr) ∨
      Obs.__init__ fs path tr = Err RuntimeError)).
Proof.
  split; [|split].
  - intros Hfs. unfold Obs.__init__, pickle_load. by rewrite Hfs.
  - intros file Hfs Hobs. unfold Obs.__init__, pickle_load, dict_get.
    rewrite Hfs, bind_Ok. by rewrite Hobs.
  - intros file file' obs Hfs Hobs Hobs'.
    assert (<[path := file']> fs !! path = Some file') as Hfs'
      by apply lookup_insert_eq.
    destruct (view_rows_inv 60 obs) as [(Hmod & Hlayout & _)|[_ Hview]];
      [done| |].
    + rewrite (obs_init_Ok fs path file obs tr Hfs Hobs Hmod Hlayout).
      rewrite (obs_init_Ok _ path file' obs tr Hfs' Hobs' Hmod Hlayout).
      split; [done|]. split; [done|]. left. by eexists.
    + rewrite (obs_init_Err fs path file obs tr Hfs Hobs Hview).
      rewrite (obs_init_Err _ path file' obs tr Hfs' Hobs' Hview).
      split; [done|]. split; [by intros [? ?]|]. by right.
Qed.

End ConstructionOutcome.

(** ** Items of the sequence dataset at the edges *)

Section SequenceEdges.
Context {A : Type}.
Implicit Types x y w : tensor A.
Implicit Types file : gmap string (tensor A).

(** [__getitem__] returns only after it has found all five fields. *)
Lemma getitem_Ok_fields (p : Seq.t A) (i : Z)
    (item : tensor A * tensor A * tensor A * tensor A * tensor A)
    (key : string) (trailing : bool) :
  Seq.__getitem__ p i = Ok item → (key, trailing) ∈ fields →
  is_Some (Seq.buffer p !! key).
Proof.
  unfold Seq.__getitem__, dict_get. intros Hget Hkey.
  destruct (floordiv i (Seq.seq_num p)) as [idx1|]; [|done].
  destruct (pymod i (Seq.seq_num p)) as [idx2|]; [|done].
  rewrite !bind_Ok in Hget.
  destruct (Seq.buffer p !! "obs") as [yo|] eqn:Hyo; [|done].
  rewrite bind_Ok in Hget.
  destruct (Seq.window yo _ _ _ _); [|done]. rewrite bind_Ok in Hget.
  destruct (Seq.buffer p !! "action") as [ya|] eqn:Hya; [|done].
  rewrite bind_Ok in Hget.
  destruct (Seq.window ya _ _ _ _); [|done]. rewrite bind_Ok in Hget.
  destruct (Seq.buffer p !! "reward") as [yr|] eqn:Hyr; [|done].
  rewrite bind_Ok in Hget.
  destruct (Seq.window yr _ _ _ _); [|done]. rewrite bind_Ok in Hget.
  destruct (Seq.buffer p !! "done") as [yd|] eqn:Hyd; [|done].
  rewrite bind_Ok in Hget.
  destruct (Seq.window yd _ _ _ _); [|done]. rewrite bind_Ok in Hget.
  destruct (Seq.buffer p !! "next_obs") as [yn|] eqn:Hyn; [|done].
  unfold fields in Hkey.
  repeat (apply elem_of_cons in Hkey as [[= -> ->]|Hkey]);
    [.. | by apply elem_of_nil in Hkey]; by eexists.
Qed.

(** [__getitem__] from its five windows. *)
Lemma getitem_Ok (p : Seq.t A) (i : Z) (yo ya yr yd yn o a r d n : tensor A) :
  Seq.seq_num p ≠ 0%Z →
  let idx1 := (i / Seq.seq_num p)%Z in
  let idx2 := (i mod Seq.seq_num p)%Z in
  Seq.buffer p !! "obs" = Some yo →
  Seq.window yo idx1 idx2 (Seq.seq_len p) true = Ok o →
  Seq.buffer p !! "action" = Some ya →
  Seq.window ya idx1 idx2 (Seq.seq_len p) true = Ok a →
  Seq.buffer p !! "reward" = Some yr →
  Seq.window yr idx1 idx2 (Seq.seq_len p) false = Ok r →
  Seq.buffer p !! "done" = Some yd →
  Seq.window yd idx1 idx2 (Seq.seq_len p) false = Ok d →
  Seq.buffer p !! "next_obs" = Some yn →
  Seq.window yn idx1 idx2 (Seq.seq_len p) true = Ok n →
  Seq.__getitem__ p i = Ok (o, a, r, d, n).
Proof.
  intros Hw idx1 idx2 Hyo Ho Hya Ha Hyr Hr Hyd Hd Hyn Hn.
  unfold Seq.__getitem__, dict_get.
  rewrite floordiv_Ok, pymod_Ok by done. rewrite !bind_Ok.
  fold idx1 idx2.
  rewrite Hyo, bind_Ok, Ho, bind_Ok, Hya, bind_Ok, Ha, bind_Ok.
  rewrite Hyr, bind_Ok, Hr, bind_Ok, Hyd, bind_Ok, Hd, bind_Ok.
  by rewrite Hyn, bind_Ok, Hn, bind_Ok.
Qed.

(** On a field without a per-timestep shape the trailing [:] has nothing to
    select. *)
Lemma window_no_trailing y (n steps : nat) (idx1 idx2 len : Z) :
  shape y = [n; steps] → Seq.window y idx1 idx2 len true = Err IndexError.
Proof.
  intros Hsh. unfold Seq.window, ndim. rewrite Hsh.
  by rewrite decide_True by (simpl; lia).
Qed.

(** A window asked to run past the last timestep stops there. *)
Lemma window_overlong y (n steps : nat) (rest : list nat) (idx1 len : Z)
    (trailing : bool) :
  shape y = n :: steps :: rest → wf y →
  (0 ≤ idx1 < Z.of_nat n)%Z → (Z.of_nat steps ≤ len)%Z →
  (trailing = true → rest ≠ []) →
  ∃ w, Seq.window y idx1 0 len trailing = Ok w ∧
       is_window y (Z.to_nat idx1) 0 steps w.
Proof.
  intros Hsh Hwf Hidx1 Hlen Hrest.
  rewrite (window_dims_cons _ _ _ _ _ _ _ _ Hsh Hrest).
  rewrite (index0_cons _ _ _ _ Hsh), norm_index_nonneg by done.
  rewrite !bind_Ok.
  pose proof (wf_select y n (steps :: rest) (Z.to_nat idx1) Hsh Hwf ltac:(lia))
    as Hwfrow.
  rewrite (select_cons _ _ _ _ Hsh) in *.
  rewrite (slice0_cons _ steps rest) by done.
  assert (slice_range steps (Some 0%Z) (Some (0 + len)%Z) = (0, steps)) as ->.
  { unfold slice_range, clamp_bound; simpl.
    rewrite !decide_False by lia. f_equal; lia. }
  rewrite bind_Ok. cbn [fst snd].
  set (row := block _ _ _) in *.
  set (w := Tensor _ (take _ _)).
  assert (is_window y (Z.to_nat idx1) 0 steps w) as Hw.
  { exists n, steps, rest. repeat split; try done.
    - apply (wf_slice rest steps); [|lia].
      unfold wf, numel in Hwfrow. by simpl in Hwfrow.
    - intros j Hj. unfold w. rewrite select_slice by done.
      rewrite (select_cons y n (steps :: rest)) by done.
      by rewrite (select_cons _ steps rest). }
  destruct trailing; [|by exists w].
  unfold full_slice, ndim; simpl. destruct rest; [by destruct Hrest|].
  rewrite decide_True by (simpl; lia). by exists w.
Qed.

(** X3.  Construction asks for [obs] only.  When the file has [obs], its
    fields have the two leading dimensions, and one of the other fields that
    [__getitem__] reads is missing, construction and [__len__] succeed, and
    [__getitem__] fails at every index. *)
Theorem X3_missing_field_fails_at_getitem
    (fs : gmap string (gmap string (tensor A))) (path : string) file
    (len : Z) (tr : bool) (key : string) (trailing : bool) :
  fs !! path = Some file →
  is_Some (file !! "obs") →
  (∀ key' x, file !! key' = Some x → 2 ≤ ndim x) →
  (key, trailing) ∈ fields → file !! key = None →
  ∃ p, Seq.__init__ fs path len tr = Ok p ∧
       is_ok (Seq.__len__ p) ∧ ∀ i, ¬ is_ok (Seq.__getitem__ p i).
Proof.
  intros Hfs Hhas Hdims Hkey Hmissing.
  destruct (init_is_ok fs path file len tr Hfs Hhas Hdims) as [p Hinit].
  exists p. split; [done|].
  destruct (init_inv _ _ _ _ _ _ Hfs Hinit)
    as (obs & steps & eps & rest & Hobs & Hsh & _ & _ & _ & Hkeys).
  split.
  - destruct (init_len _ _ _ _ _ _ _ _ _ _ Hfs Hinit Hobs Hsh) as (_ & _ & ->).
    by eexists.
  - intros i [item Hitem].
    destruct (getitem_Ok_fields p i item key trailing Hitem Hkey) as [y Hy].
    specialize (Hkeys key). rewrite Hmissing in Hkeys. congruence.
Qed.

(** X4.  When [obs] has exactly two dimensions (timesteps and episodes, no
    per-timestep shape) and the other fields of the file have at least two,
    construction succeeds and, unless [seq_len = steps + 1], [__getitem__]
    raises [IndexError] at every index: [obs] has no dimension for the
    trailing [:]. *)
Theorem X4_flat_obs_raises_at_getitem
    (fs : gmap string (gmap string (tensor A))) (path : string) file
    (obs : tensor A) (steps eps : nat) (len : Z) (tr : bool) :
  fs !! path = Some file →
  file !! "obs" = Some obs → shape obs = [steps; eps] →
  (∀ key x, file !! key = Some x → 2 ≤ ndim x) →
  len ≠ (Z.of_nat steps + 1)%Z →
  ∃ p, Seq.__init__ fs path len tr = Ok p ∧
       ∀ i, Seq.__getitem__ p i = Err IndexError.
Proof.
  intros Hfs Hobs Hsh Hdims Hlen.
  destruct (init_is_ok fs path file len tr Hfs ltac:(by eexists) Hdims)
    as [p Hinit].
  exists p. split; [done|]. intros i.
  destruct (init_field _ _ _ _ _ _ _ _ _ _ "obs" _ _ _ _
              Hfs Hinit Hobs Hsh Hobs Hsh) as (y & Hy & Hshy & _).
  destruct (init_len _ _ _ _ _ _ _ _ _ _ Hfs Hinit Hobs Hsh) as (Hnum & _ & _).
  unfold Seq.__getitem__, dict_get.
  rewrite floordiv_Ok, pymod_Ok by lia. rewrite !bind_Ok, Hy, bind_Ok.
  by rewrite (window_no_trailing y _ _ _ _ _ Hshy).
Qed.

(** X5.  With [seq_len = steps + 1] there is no window per episode:
    [__len__] is [0] and [__getitem__] raises [ZeroDivisionError] at every
    index. *)
Theorem X5_no_window_divides_by_zero
    (fs : gmap string (gmap string (tensor A))) (path : string) file
    (obs : tensor A) (steps eps : nat) (rest : list nat) (tr : bool)
    (p : Seq.t A) :
  fs !! path = Some file →
  file !! "obs" = Some obs → shape obs = steps :: eps :: rest →
  Seq.__init__ fs path (Z.of_nat steps + 1) tr = Ok p →
  Seq.__len__ p = Ok 0%Z ∧
  ∀ i, Seq.__getitem__ p i = Err ZeroDivisionError.
Proof.
  intros Hfs Hobs Hsh Hinit.
  destruct (init_len _ _ _ _ _ _ _ _ _ _ Hfs Hinit Hobs Hsh)
    as (Hnum & _ & Hlen).
  assert (Seq.seq_num p = 0%Z) as Hzero by lia.
  split.
  - rewrite Hlen. f_equal. lia.
  - intros i. unfold Seq.__getitem__, floordiv. rewrite Hzero.
    by rewrite decide_True.
Qed.

(** X6.  With [seq_len > steps + 1] on a rollout buffer that keeps at least
    one episode, [__len__] is negative, and [__getitem__ 0] still returns:
    its five windows are the whole of episode 0, [steps] timesteps each and
    not [seq_len]. *)
Theorem X6_overlong_seq_len_truncates
    (fs : gmap string (gmap string (tensor A))) (path : string) file
    (steps eps : nat) (len : Z) (tr : bool) (p : Seq.t A) :
  fs !! path = Some file → rollout_file file steps eps →
  (Z.of_nat steps + 1 < len)%Z →
  Seq.__init__ fs path len tr = Ok p →
  1 ≤ episodes_in_split tr (Z.to_nat (split_index eps)) eps →
  (∃ size, Seq.__len__ p = Ok size ∧ (size < 0)%Z) ∧
  ∃ o a r d n,
    Seq.__getitem__ p 0 = Ok (o, a, r, d, n) ∧
    field_window p "obs" 0 0 steps o ∧
    field_window p "action" 0 0 steps a ∧
    field_window p "reward" 0 0 steps r ∧
    field_window p "done" 0 0 steps d ∧
    field_window p "next_obs" 0 0 steps n.
Proof.
  intros Hfs Hfile Hlen Hinit Hkept.
  destruct (Hfile "obs" true) as (obs & rest & Hobs & Hsh & _); [in_fields|].
  destruct (init_len _ _ _ _ _ _ _ _ _ _ Hfs Hinit Hobs Hsh)
    as (Hnum & Hseq & Hlen').
  set (kept := episodes_in_split tr (Z.to_nat (split_index eps)) eps) in *.
  split; [eexists; split; [exact Hlen' | nia]|].
  assert (∀ key trailing, (key, trailing) ∈ fields →
    ∃ y w, Seq.buffer p !! key = Some y ∧
           Seq.window y 0 0 len trailing = Ok w ∧
           field_window p key 0 0 steps w) as Hfield.
  { intros key trailing Hkey.
    destruct (Hfile key trailing Hkey) as (x & inner & Hx & Hshx & Hwf & Htrail).
    destruct (init_field _ _ _ _ _ _ _ _ _ _ key _ _ _ _
                Hfs Hinit Hobs Hsh Hx Hshx) as (y & Hy & Hshy & Hprop).
    destruct (Hprop Hwf) as [Hwfy _]. fold kept in Hshy.
    destruct (window_overlong y _ _ _ 0 len trailing Hshy Hwfy)
      as (w & Hw & Hisw); [lia | lia | done |].
    exists y, w. split; [done|]. split; [done|]. by exists y. }
  destruct (Hfield "obs" true) as (yo & o & Hyo & Ho & Hwo); [in_fields|].
  destruct (Hfield "action" true) as (ya & a & Hya & Ha & Hwa); [in_fields|].
  destruct (Hfield "reward" false) as (yr & r & Hyr & Hr & Hwr); [in_fields|].
  destruct (Hfield "done" false) as (yd & d & Hyd & Hd & Hwd); [in_fields|].
  destruct (Hfield "next_obs" true) as (yn & n & Hyn & Hn & Hwn); [in_fields|].
  exists o, a, r, d, n. split; [|done].
  assert (Seq.seq_num p ≠ 0%Z) as Hw0 by lia.
  apply (getitem_Ok p 0 yo ya yr yd yn); try done.
  all: rewrite Hseq, Z.div_0_l, Z.mod_0_l by done; done.
Qed.

End SequenceEdges.

(** ** Items of the sequence dataset, against the file *)

Section SequenceContents.
Context {A : Type}.
Implicit Types x y w : tensor A.
Implicit Types file : gmap string (tensor A).

(** One field of an item in range: the window of the stored field, and the
    same window read off the file. *)
Lemma getitem_file_field (fs : gmap string (gmap string (tensor A)))
    (path : string) file (len : Z) (tr : bool) (p : Seq.t A)
    (steps eps : nat) (i : Z) (key : string) (trailing : bool) :
  fs !! path = Some file → rollout_file file steps eps →
  (1 ≤ len ≤ Z.of_nat steps)%Z →
  Seq.__init__ fs path len tr = Ok p →
  let windows := (Z.of_nat steps - len + 1)%Z in
  let split := Z.to_nat (split_index eps) in
  (0 ≤ i < windows * Z.of_nat (episodes_in_split tr split eps))%Z →
  (key, trailing) ∈ fields →
  ∃ y w,
    Seq.buffer p !! key = Some y ∧
    Seq.window y (i / windows) (i mod windows) len trailing = Ok w ∧
    is_window y (Z.to_nat (i / windows)) (Z.to_nat (i mod windows))
      (Z.to_nat len) w ∧
    file_window file key
      (first_episode tr split eps + Z.to_nat (i / windows))
      (Z.to_nat (i mod windows)) (Z.to_nat len) w.
Proof.
  intros Hfs Hfile Hlen Hinit windows split Hi Hkey.
  assert (1 ≤ windows)%Z as Hw by (unfold windows; lia).
  set (kept := episodes_in_split tr split eps) in *.
  assert (0 ≤ i / windows < Z.of_nat kept)%Z as Hidx1.
  { split; [apply Z.div_pos; lia | apply Z.div_lt_upper_bound; lia]. }
  pose proof (Z.mod_pos_bound i windows ltac:(lia)) as Hidx2.
  assert (i mod windows + len ≤ Z.of_nat steps)%Z as Hend
    by (unfold windows in *; lia).
  destruct (Hfile "obs" true) as (obs & rest & Hobs & Hsh & _); [in_fields|].
  destruct (Hfile key trailing Hkey) as (x & inner & Hx & Hshx & Hwf & Htrail).
  destruct (init_field _ _ _ _ _ _ _ _ _ _ key _ _ _ _
              Hfs Hinit Hobs Hsh Hx Hshx) as (y & Hy & Hshy & Hprop).
  destruct (Hprop Hwf) as [Hwfy Hepisode].
  destruct (window_inside y _ _ _ (i / windows) (i mod windows) len trailing
              Hshy Hwfy) as (w & Hw' & Hisw); try done; try lia.
  exists y, w. repeat split; try done.
  exists x. split; [done|]. intros j Hj.
  destruct Hisw as (n' & steps' & rest' & Hshy' & _ & _ & Hsel).
  rewrite Hsel by done. apply Hepisode; fold split kept; lia.
Qed.

(** The five fields of an item in range, read off the file. *)
Lemma getitem_file_item (fs : gmap string (gmap string (tensor A)))
    (path : string) file (len : Z) (tr : bool) (p : Seq.t A)
    (steps eps : nat) (i : Z) :
  fs !! path = Some file → rollout_file file steps eps →
  (1 ≤ len ≤ Z.of_nat steps)%Z →
  Seq.__init__ fs path len tr = Ok p →
  let windows := (Z.of_nat steps - len + 1)%Z in
  let split := Z.to_nat (split_index eps) in
  (0 ≤ i < windows * Z.of_nat (episodes_in_split tr split eps))%Z →
  let e := first_episode tr split eps + Z.to_nat (i / windows) in
  let s := Z.to_nat (i mod windows) in
  ∃ o a r d n,
    Seq.__getitem__ p i = Ok (o, a, r, d, n) ∧
    file_window file "obs" e s (Z.to_nat len) o ∧
    file_window file "action" e s (Z.to_nat len) a ∧
    file_window file "reward" e s (Z.to_nat len) r ∧
    file_window file "done" e s (Z.to_nat len) d ∧
    file_window file "next_obs" e s (Z.to_nat len) n.
Proof.
  intros Hfs Hfile Hlen Hinit windows split Hi e s.
  destruct (Hfile "obs" true) as (obs & rest & Hobs & Hsh & _); [in_fields|].
  destruct (init_len _ _ _ _ _ _ _ _ _ _ Hfs Hinit Hobs Hsh)
    as (Hnum & Hseq & _).
  fold windows in Hnum.
  pose proof (λ key trailing,
    getitem_file_field fs path file len tr p steps eps i key trailing
      Hfs Hfile Hlen Hinit Hi) as Hfield.
  fold windows split e s in Hfield.
  destruct (Hfield "obs" true) as (yo & o & Hyo & Ho & _ & Hfo); [in_fields|].
  destruct (Hfield "action" true) as (ya & a & Hya & Ha & _ & Hfa);
    [in_fields|].
  destruct (Hfield "reward" false) as (yr & r & Hyr & Hr & _ & Hfr);
    [in_fields|].
  destruct (Hfield "done" false) as (yd & d & Hyd & Hd & _ & Hfd);
    [in_fields|].
  destruct (Hfield "next_obs" true) as (yn & n & Hyn & Hn & _ & Hfn);
    [in_fields|].
  exists o, a, r, d, n. split; [|done].
  apply (getitem_Ok p i yo ya yr yd yn); rewrite ?Hnum, ?Hseq; try done.
  unfold windows. lia.
Qed.

(** X7.  An item in range, read off the file: on a dataset constructed with
    [1 <= seq_len <= steps] from a rollout buffer, position [j] of each of
    the five tensors of item [i] is what the file holds for that field at
    timestep [i % windows + j] of episode [first + i // windows], where
    [first] is [0] for the train dataset and the split index for the test
    dataset. *)
Theorem X7_item_read_off_the_file
    (fs : gmap string (gmap string (tensor A))) (path : string) file
    (len : Z) (tr : bool) (p : Seq.t A) (steps eps : nat) (size i : Z) :
  fs !! path = Some file → rollout_file file steps eps →
  (1 ≤ len ≤ Z.of_nat steps)%Z →
  Seq.__init__ fs path len tr = Ok p →
  Seq.__len__ p = Ok size → (0 ≤ i < size)%Z →
  let windows := (Z.of_nat steps - len + 1)%Z in
  let first := first_episode tr (Z.to_nat (split_index eps)) eps in
  let e := first + Z.to_nat (i / windows) in
  let s := Z.to_nat (i mod windows) in
  e < eps ∧ s + Z.to_nat len ≤ steps ∧
  ∃ o a r d n,
    Seq.__getitem__ p i = Ok (o, a, r, d, n) ∧
    file_window file "obs" e s (Z.to_nat len) o ∧
    file_window file "action" e s (Z.to_nat len) a ∧
    file_window file "reward" e s (Z.to_nat len) r ∧
    file_window file "done" e s (Z.to_nat len) d ∧
    file_window file "next_obs" e s (Z.to_nat len) n.
Proof.
  intros Hfs Hfile Hlen Hinit Hsize Hi windows first e s.
  destruct (Hfile "obs" true) as (obs & rest & Hobs & Hsh & _); [in_fields|].
  destruct (init_len _ _ _ _ _ _ _ _ _ _ Hfs Hinit Hobs Hsh)
    as (Hnum & Hseq & Hlen').
  rewrite Hlen' in Hsize. injection Hsize as <-. fold windows in Hi, Hnum.
  set (split := Z.to_nat (split_index eps)) in *.
  set (kept := episodes_in_split tr split eps) in *.
  assert (1 ≤ windows)%Z as Hw by (unfold windows; lia).
  assert (0 ≤ i / windows < Z.of_nat kept)%Z as Hidx1.
  { split; [apply Z.div_pos; lia | apply Z.div_lt_upper_bound; lia]. }
  pose proof (Z.mod_pos_bound i windows ltac:(lia)) as Hidx2.
  pose proof (split_range tr split eps) as Hrange. fold first kept in Hrange.
  split; [unfold e; lia|]. split; [unfold s, windows in *; lia|].
  pose proof (λ key trailing,
    getitem_file_field fs path file len tr p steps eps i key trailing
      Hfs Hfile Hlen Hinit Hi) as Hfield.
  fold windows split first e s in Hfield.
  destruct (Hfield "obs" true) as (yo & o & Hyo & Ho & _ & Hfo); [in_fields|].
  destruct (Hfield "action" true) as (ya & a & Hya & Ha & _ & Hfa);
    [in_fields|].
  destruct (Hfield "reward" false) as (yr & r & Hyr & Hr & _ & Hfr);
    [in_fields|].
  destruct (Hfield "done" false) as (yd & d & Hyd & Hd & _ & Hfd);
    [in_fields|].
  destruct (Hfield "next_obs" true) as (yn & n & Hyn & Hn & _ & Hfn);
    [in_fields|].
  exists o, a, r, d, n. split; [|done].
  apply (getitem_Ok p i yo ya yr yd yn); rewrite ?Hnum, ?Hseq; try done; lia.
Qed.

(** X8.  Consecutive items of one episode are windows that slide by one
    timestep: when [i] and [i + 1] are in range and [i] is not the last
    window of its episode, position [j] of each tensor of item [i + 1] is
    position [j + 1] of the same tensor of item [i]. *)
Theorem X8_windows_slide_by_one
    (fs : gmap string (gmap string (tensor A))) (path : string) file
    (len : Z) (tr : bool) (p : Seq.t A) (steps eps : nat) (size i : Z)
    (item item' : tensor A * tensor A * tensor A * tensor A * tensor A) :
  fs !! path = Some file → rollout_file file steps eps →
  (1 ≤ len ≤ Z.of_nat steps)%Z →
  Seq.__init__ fs path len tr = Ok p →
  Seq.__len__ p = Ok size → (0 ≤ i)%Z → (i + 1 < size)%Z →
  (i mod (Z.of_nat steps - len + 1) + 1 < Z.of_nat steps - len + 1)%Z →
  Seq.__getitem__ p i = Ok item →
  Seq.__getitem__ p (i + 1) = Ok item' →
  let '(o, a, r, d, n) := item in
  let '(o', a', r', d', n') := item' in
  Forall2 (λ w w', ∀ j, j + 1 < Z.to_nat len →
             select w' j = select w (j + 1))
    [o; a; r; d; n] [o'; a'; r'; d'; n'].
Proof.
  intros Hfs Hfile Hlen Hinit Hsize Hi0 Hi1 Hmid Hitem Hitem'.
  destruct (Hfile "obs" true) as (obs & rest & Hobs & Hsh & _); [in_fields|].
  destruct (init_len _ _ _ _ _ _ _ _ _ _ Hfs Hinit Hobs Hsh)
    as (Hnum & Hseq & Hlen').
  rewrite Hlen' in Hsize. injection Hsize as <-.
  set (windows := (Z.of_nat steps - len + 1)%Z) in *.
  assert (1 ≤ windows)%Z as Hw by (unfold windows; lia).
  pose proof (Z.mod_pos_bound i windows ltac:(lia)) as Hidx2.
  assert ((i + 1) / windows = i / windows)%Z as Hdiv.
  { symmetry. apply (Z.div_unique_pos (i + 1) windows _ (i mod windows + 1));
      [lia|]. pose proof (Z.div_mod i windows ltac:(lia)). lia. }
  assert ((i + 1) mod windows = i mod windows + 1)%Z as Hmod.
  { symmetry. apply (Z.mod_unique_pos (i + 1) windows (i / windows));
      [lia|]. pose proof (Z.div_mod i windows ltac:(lia)). lia. }
  assert (∀ key trailing y w w', (key, trailing) ∈ fields →
    Seq.buffer p !! key = Some y →
    Seq.window y (i / windows) (i mod windows) len trailing = Ok w →
    Seq.window y ((i + 1) / windows) ((i + 1) mod windows) len trailing
      = Ok w' →
    ∀ j, j + 1 < Z.to_nat len → select w' j = select w (j + 1)) as Hslide.
  { intros key trailing y w w' Hkey Hy Hwin Hwin' j Hj.
    destruct (getitem_file_field fs path file len tr p steps eps i key
                trailing Hfs Hfile Hlen Hinit ltac:(fold windows; lia) Hkey)
      as (y1 & w1 & Hy1 & Hw1 & Hisw & _).
    destruct (getitem_file_field fs path file len tr p steps eps (i + 1) key
                trailing Hfs Hfile Hlen Hinit ltac:(fold windows; lia) Hkey)
      as (y2 & w2 & Hy2 & Hw2 & Hisw' & _).
    fold windows in Hw1, Hw2, Hisw, Hisw'.
    assert (y1 = y) as -> by congruence. assert (y2 = y) as -> by congruence.
    assert (w1 = w) as -> by congruence. assert (w2 = w') as -> by congruence.
    destruct Hisw as (? & ? & ? & _ & _ & _ & Hsel).
    destruct Hisw' as (? & ? & ? & _ & _ & _ & Hsel').
    rewrite Hsel, Hsel' by lia. rewrite Hdiv, Hmod. f_equal. lia. }
  destruct item as [[[[o a] r] d] n]. destruct item' as [[[[o' a'] r'] d'] n'].
  unfold Seq.__getitem__, dict_get in Hitem, Hitem'.
  rewrite Hnum, Hseq in Hitem, Hitem'.
  rewrite !floordiv_Ok, !pymod_Ok in Hitem, Hitem' by lia.
  rewrite !bind_Ok in Hitem, Hitem'.
  destruct (Seq.buffer p !! "obs") as [yo|] eqn:Hyo; [|done].
  rewrite bind_Ok in Hitem, Hitem'.
  destruct (Seq.window yo (i / windows) _ _ _) as [wo|] eqn:Ho; [|done].
  destruct (Seq.window yo ((i + 1) / windows) _ _ _) as [wo'|] eqn:Ho';
    [|done].
  rewrite bind_Ok in Hitem, Hitem'.
  destruct (Seq.buffer p !! "action") as [ya|] eqn:Hya; [|done].
  rewrite bind_Ok in Hitem, Hitem'.
  destruct (Seq.window ya (i / windows) _ _ _) as [wa|] eqn:Ha; [|done].
  destruct (Seq.window ya ((i + 1) / windows) _ _ _) as [wa'|] eqn:Ha';
    [|done].
  rewrite bind_Ok in Hitem, Hitem'.
  destruct (Seq.buffer p !! "reward") as [yr|] eqn:Hyr; [|done].
  rewrite bind_Ok in Hitem, Hitem'.
  destruct (Seq.window yr (i / windows) _ _ _) as [wr|] eqn:Hr; [|done].
  destruct (Seq.window yr ((i + 1) / windows) _ _ _) as [wr'|] eqn:Hr';
    [|done].
  rewrite bind_Ok in Hitem, Hitem'.
  destruct (Seq.buffer p !! "done") as [yd|] eqn:Hyd; [|done].
  rewrite bind_Ok in Hitem, Hitem'.
  destruct (Seq.window yd (i / windows) _ _ _) as [wd|] eqn:Hd; [|done].
  destruct (Seq.window yd ((i + 1) / windows) _ _ _) as [wd'|] eqn:Hd';
    [|done].
  rewrite bind_Ok in Hitem, Hitem'.
  destruct (Seq.buffer p !! "next_obs") as [yn|] eqn:Hyn; [|done].
  rewrite bind_Ok in Hitem, Hitem'.
  destruct (Seq.window yn (i / windows) _ _ _) as [wn|] eqn:Hn; [|done].
  destruct (Seq.window yn ((i + 1) / windows) _ _ _) as [wn'|] eqn:Hn';
    [|done].
  rewrite bind_Ok in Hitem, Hitem'.
  injection Hitem as <- <- <- <- <-. injection Hitem' as <- <- <- <- <-.
  repeat constructor.
  - by apply (Hslide "obs" true yo); [in_fields|..].
  - by apply (Hslide "action" true ya); [in_fields|..].
  - by apply (Hslide "reward" false yr); [in_fields|..].
  - by apply (Hslide "done" false yd); [in_fields|..].
  - by apply (Hslide "next_obs" true yn); [in_fields|..].
Qed.

End SequenceContents.

(** ** The two halves of the split *)

Section SplitHalves.
Context {A : Type}.
Implicit Types x y : tensor A.
Implicit Types file : gmap string (tensor A).

(** Four fifths, rounded down: zero only below two, and short of the whole
    as soon as there is something. *)
Lemma four_fifths (n : nat) :
  4 * n / 5 ≤ n ∧ (4 * n / 5 = 0 ↔ n ≤ 1) ∧ (n - 4 * n / 5 = 0 ↔ n = 0).
Proof.
  pose proof (Nat.div_mod_eq (4 * n) 5) as Hdiv.
  pose proof (Nat.mod_upper_bound (4 * n) 5 ltac:(lia)) as Hmod.
  set (k := 4 * n / 5) in *. set (r := (4 * n) `mod` 5) in *.
  clearbody k r. lia.
Qed.

(** X9.  The train and the test dataset of one file share out its windows:
    their [__len__] add up to [(steps - seq_len + 1) * eps], for every
    [seq_len]. *)
Theorem X9_train_and_test_sizes_add_up
    (fs : gmap string (gmap string (tensor A))) (path : string) file
    (obs : tensor A) (steps eps : nat) (rest : list nat) (len : Z)
    (ptrain ptest : Seq.t A) :
  fs !! path = Some file →
  file !! "obs" = Some obs → shape obs = steps :: eps :: rest →
  Seq.__init__ fs path len true = Ok ptrain →
  Seq.__init__ fs path len false = Ok ptest →
  ∃ ntrain ntest,
    Seq.__len__ ptrain = Ok ntrain ∧ Seq.__len__ ptest = Ok ntest ∧
    (ntrain + ntest = (Z.of_nat steps - len + 1) * Z.of_nat eps)%Z.
Proof.
  intros Hfs Hobs Hsh Htrain Htest.
  destruct (init_len _ _ _ _ _ _ _ _ _ _ Hfs Htrain Hobs Hsh) as (_ & _ & ->).
  destruct (init_len _ _ _ _ _ _ _ _ _ _ Hfs Htest Hobs Hsh) as (_ & _ & ->).
  eexists _, _. split; [done|]. split; [done|].
  unfold episodes_in_split. nia.
Qed.

(** X10.  Which half is empty: unless [seq_len = steps + 1], the train
    dataset has no item exactly when the file has at most one episode, and
    the test dataset has no item exactly when the file has no episode (for
    episode counts below [2 ^ 50]). *)
Theorem X10_empty_halves
    (fs : gmap string (gmap string (tensor A))) (path : string) file
    (obs : tensor A) (steps eps : nat) (rest : list nat) (len : Z)
    (ptrain ptest : Seq.t A) :
  fs !! path = Some file →
  file !! "obs" = Some obs → shape obs = steps :: eps :: rest →
  (Z.of_nat eps < 2 ^ 50)%Z → len ≠ (Z.of_nat steps + 1)%Z →
  Seq.__init__ fs path len true = Ok ptrain →
  Seq.__init__ fs path len false = Ok ptest →
  (Seq.__len__ ptrain = Ok 0%Z ↔ eps ≤ 1) ∧
  (Seq.__len__ ptest = Ok 0%Z ↔ eps = 0).
Proof.
  intros Hfs Hobs Hsh Hbound Hlen Htrain Htest.
  destruct (init_len _ _ _ _ _ _ _ _ _ _ Hfs Htrain Hobs Hsh) as (_ & _ & ->).
  destruct (init_len _ _ _ _ _ _ _ _ _ _ Hfs Htest Hobs Hsh) as (_ & _ & ->).
  assert (Z.to_nat (split_index eps) = 4 * eps / 5) as ->.
  { rewrite split_index_floor by done.
    by rewrite <- (Nat2Z.inj_mul 4), <- (Nat2Z.inj_div _ 5), Nat2Z.id. }
  destruct (four_fifths eps) as (Hle & Htr & Hte).
  unfold episodes_in_split. rewrite Nat.min_l by done.
  set (k := 4 * eps / 5) in *. clearbody k.
  set (windows := (Z.of_nat steps - len + 1)%Z).
  assert (windows ≠ 0%Z) as Hw by (unfold windows; lia). clearbody windows.
  split; split.
  - intros [= Hzero]. apply Htr. nia.
  - intros Heps. apply Htr in Heps. rewrite Heps. f_equal. lia.
  - intros [= Hzero]. apply Hte. nia.
  - intros Heps. apply Hte in Heps. rewrite Heps. f_equal. lia.
Qed.

(** X11.  Construction keeps every field of the file, the five that
    [__getitem__] reads and any other: the dataset has a field exactly
    under the keys of the file, each one transposed and cut at the split
    index computed from [obs], also when its own episode count differs. *)
Theorem X11_every_field_is_kept
    (fs : gmap string (gmap string (tensor A))) (path : string) file
    (obs : tensor A) (steps eps : nat) (rest : list nat) (len : Z) (tr : bool)
    (p : Seq.t A) :
  fs !! path = Some file →
  file !! "obs" = Some obs → shape obs = steps :: eps :: rest →
  Seq.__init__ fs path len tr = Ok p →
  (∀ key, is_Some (Seq.buffer p !! key) ↔ is_Some (file !! key)) ∧
  ∀ key x d0 d1 inner,
    file !! key = Some x → shape x = d0 :: d1 :: inner →
    ∃ y, Seq.buffer p !! key = Some y ∧
         shape y =
           (if tr then Z.to_nat (split_index eps) `min` d1
            else d1 - Z.to_nat (split_index eps)) :: d0 :: inner.
Proof.
  intros Hfs Hobs Hsh Hinit. split.
  - intros key.
    destruct (init_inv _ _ _ _ _ _ Hfs Hinit)
      as (? & ? & ? & ? & _ & _ & _ & _ & _ & Hkeys).
    specialize (Hkeys key). destruct (file !! key) as [field|].
    + destruct Hkeys as (? & ? & ? & ? & _ & _ & ->). split; by eexists.
    + rewrite Hkeys. split; by intros [? ?].
  - intros key x d0 d1 inner Hx Hshx.
    destruct (init_field _ _ _ _ _ _ _ _ _ _ key _ _ _ _
                Hfs Hinit Hobs Hsh Hx Hshx) as (y & Hy & Hshy & _).
    exists y. split; [done|]. by destruct tr.
Qed.

End SplitHalves.

(** ** Rows of the observation dataset *)

Section ObservationRows.
Context {A : Type}.
Implicit Types x y : tensor A.
Implicit Types file : gmap string (stored A).

(** The two observation datasets of one file, stored and item by item. *)
Lemma obs_split_items (fs : gmap string (gmap string (stored A)))
    (path : string) file (obs : stored A) (tr : bool) (q : Obs.t A) :
  fs !! path = Some file → file !! "obs" = Some obs →
  Obs.__init__ fs path tr = Ok q →
  let rows := numel obs / 60 in
  let cut := Z.to_nat (split_index rows) `min` rows in
  let first := if tr then 0 else cut in
  let kept := if tr then cut else rows - cut in
  numel obs = rows * 60 ∧
  Obs.__len__ q = Ok (Z.of_nat kept) ∧
  ∀ i, i < kept →
    Obs.__getitem__ q (Z.of_nat i) = Ok (row60 (data obs) (first + i)).
Proof.
  intros Hfs Hobs Hinit rows cut first kept.
  destruct (obs_init_Ok_inv fs path file obs tr q Hfs Hobs Hinit)
    as [Hmod Hlayout].
  rewrite (obs_init_Ok fs path file obs tr Hfs Hobs Hmod Hlayout) in Hinit.
  injection Hinit as <-.
  change (Nat.divmod (numel obs) 59 0 59).1 with rows.
  assert (episodes_in_split tr (Z.to_nat (split_index rows)) rows = kept)
    as -> by (unfold episodes_in_split, kept, cut; destruct tr; lia).
  assert (first_episode tr (Z.to_nat (split_index rows)) rows = first)
    as -> by (unfold first_episode, first, cut; by destruct tr).
  split; [|split].
  - pose proof (Nat.div_mod_eq (numel obs) 60). unfold rows. lia.
  - done.
  - intros i Hi. rewrite obs_getitem by done. by rewrite row60_slice.
Qed.

(** X12.  The train and the test observation dataset of one file share out
    the rows of its matrix of 60 columns, in order: with [cut] the split
    index [int(0.8 * rows)], the train dataset has [cut] items, the rows
    [0 .. cut - 1], and the test dataset has the other [rows - cut], the
    rows from [cut] on; [cut] is [floor(0.8 * rows)] below [2 ^ 50] rows. *)
Theorem X12_observation_split_shares_rows
    (fs : gmap string (gmap string (stored A))) (path : string) file
    (obs : stored A) (qtrain qtest : Obs.t A) :
  fs !! path = Some file → file !! "obs" = Some obs →
  Obs.__init__ fs path true = Ok qtrain →
  Obs.__init__ fs path false = Ok qtest →
  let rows := numel obs / 60 in
  let cut := Z.to_nat (split_index rows) `min` rows in
  numel obs = rows * 60 ∧
  Obs.__len__ qtrain = Ok (Z.of_nat cut) ∧
  Obs.__len__ qtest = Ok (Z.of_nat (rows - cut)) ∧
  cut + (rows - cut) = rows ∧
  (∀ i, i < cut →
     Obs.__getitem__ qtrain (Z.of_nat i) = Ok (row60 (data obs) i)) ∧
  (∀ i, i < rows - cut →
     Obs.__getitem__ qtest (Z.of_nat i) = Ok (row60 (data obs) (cut + i))) ∧
  ((Z.of_nat rows < 2 ^ 50)%Z → cut = 4 * rows / 5).
Proof.
  intros Hfs Hobs Htrain Htest rows cut.
  destruct (obs_split_items fs path file obs true qtrain Hfs Hobs Htrain)
    as (Hnumel & Hlen1 & Hitems1).
  destruct (obs_split_items fs path file obs false qtest Hfs Hobs Htest)
    as (_ & Hlen2 & Hitems2).
  repeat split; try done.
  - unfold cut. lia.
  - intros Hbound. unfold cut.
    rewrite split_index_floor by done.
    rewrite <- (Nat2Z.inj_mul 4), <- (Nat2Z.inj_div _ 5), Nat2Z.id.
    destruct (four_fifths rows) as (Hle & _). lia.
Qed.

(** X13.  Every item of an observation dataset over a complete [obs] field
    is a vector of exactly 60 elements, at each index [__getitem__]
    accepts. *)
Theorem X13_observation_item_is_60_wide
    (fs : gmap string (gmap string (stored A))) (path : string) file
    (obs : stored A) (tr : bool) (q : Obs.t A) (size i : Z) :
  fs !! path = Some file → file !! "obs" = Some obs → wf obs →
  Obs.__init__ fs path tr = Ok q → Obs.__len__ q = Ok size →
  (- size ≤ i < size)%Z →
  ∃ v, Obs.__getitem__ q i = Ok v ∧ shape v = [60] ∧ length (data v) = 60.
Proof.
  intros Hfs Hobs Hwf Hinit Hsize Hi.
  destruct (obs_init_Ok_inv fs path file obs tr q Hfs Hobs Hinit)
    as [Hmod Hlayout].
  rewrite (obs_init_Ok fs path file obs tr Hfs Hobs Hmod Hlayout) in Hinit.
  injection Hinit as <-.
  change (Nat.divmod (numel obs) 59 0 59).1 with (numel obs / 60) in *.
  set (rows := numel obs / 60) in *.
  set (split := Z.to_nat (split_index rows)) in *.
  pose proof (split_range tr split rows) as Hrange.
  set (kept := episodes_in_split tr split rows) in *.
  set (first := first_episode tr split rows) in *.
  injection Hsize as <-.
  assert (length (data obs) = rows * 60) as Hlen.
  { unfold wf in Hwf. rewrite Hwf.
    pose proof (Nat.div_mod_eq (numel obs) 60). unfold rows. lia. }
  assert (∀ k, k < kept →
    length (take 60 (drop (k * 60)
              (take (kept * 60) (drop (first * 60) (data obs))))) = 60)
    as Hrow.
  { intros k Hk. rewrite !length_take, !length_drop, length_take, length_drop.
    lia. }
  unfold Obs.__getitem__, index0; simpl.
  destruct (decide (0 ≤ i)%Z).
  - rewrite norm_index_nonneg by lia. rewrite bind_Ok.
    eexists. split; [done|]. split; [done|]. apply Hrow. lia.
  - rewrite norm_index_wrap by lia. rewrite bind_Ok.
    eexists. split; [done|]. split; [done|]. apply Hrow. lia.
Qed.

(** X14.  The observation dataset does not transpose: when the per-frame
    shape of [obs] is 60, row [t * eps + e] of its matrix is the frame of
    episode [e] at timestep [t], so that the split is along time.  The train
    dataset returns that frame at index [t * eps + e] when this is below the
    split index [cut], and the test dataset returns it at
    [t * eps + e - cut] otherwise. *)
Theorem X14_observation_rows_are_frames
    (fs : gmap string (gmap string (stored A))) (path : string) file
    (obs : stored A) (steps eps : nat) (qtrain qtest : Obs.t A) (t e : nat) :
  fs !! path = Some file → file !! "obs" = Some obs →
  shape obs = [steps; eps; 60] →
  Obs.__init__ fs path true = Ok qtrain →
  Obs.__init__ fs path false = Ok qtest →
  t < steps → e < eps →
  let rows := steps * eps in
  let cut := Z.to_nat (split_index rows) `min` rows in
  let r := t * eps + e in
  (r < cut →
   Obs.__getitem__ qtrain (Z.of_nat r) = Ok (select (select obs t) e)) ∧
  (cut ≤ r →
   Obs.__getitem__ qtest (Z.of_nat (r - cut)) = Ok (select (select obs t) e)).
Proof.
  intros Hfs Hobs Hsh Htrain Htest Ht He rows cut r.
  assert (numel obs / 60 = rows) as Hrows.
  { unfold numel. rewrite Hsh.
    change (product [steps; eps; 60]) with (steps * (eps * 60)).
    replace (steps * (eps * 60)) with (rows * 60) by (unfold rows; lia).
    by apply Nat.div_mul. }
  assert (select (select obs t) e = row60 (data obs) r) as ->.
  { rewrite (select_cons obs steps [eps; 60]) by done.
    unfold select; simpl. unfold row60. f_equal.
    change (product [60]) with 60. change (product [eps; 60]) with (eps * 60).
    by apply (block_block 60). }
  assert (r < rows) as Hr by (unfold r, rows; nia).
  destruct (obs_split_items fs path file obs true qtrain Hfs Hobs Htrain)
    as (_ & _ & Hitems1).
  destruct (obs_split_items fs path file obs false qtest Hfs Hobs Htest)
    as (_ & _ & Hitems2).
  rewrite Hrows in Hitems1, Hitems2. fold cut in Hitems1, Hitems2.
  split.
  - intros Hlt. by apply Hitems1.
  - intros Hge. rewrite Hitems2 by lia. do 2 f_equal. lia.
Qed.

End ObservationRows.

(** ** Fields that disagree with [obs] *)

Section MismatchedFields.
Context {A : Type}.
Implicit Types x y w : tensor A.
Implicit Types file : gmap string (tensor A).

(** The leading dimension of a window, whatever the timesteps at hand:
    both ends of the slice are clamped to the episode. *)
Lemma window_shape y (n steps : nat) (rest : list nat) (idx1 idx2 len : Z)
    (trailing : bool) :
  shape y = n :: steps :: rest →
  (0 ≤ idx1 < Z.of_nat n)%Z → (0 ≤ idx2)%Z → (0 ≤ len)%Z →
  (trailing = true → rest ≠ []) →
  ∃ w, Seq.window y idx1 idx2 len trailing = Ok w ∧
       shape w =
         (Z.to_nat (idx2 + len) `min` steps - Z.to_nat idx2 `min` steps)
         :: rest.
Proof.
  intros Hsh Hidx1 Hidx2 Hlen Hrest.
  rewrite (window_dims_cons _ _ _ _ _ _ _ _ Hsh Hrest).
  rewrite (index0_cons _ _ _ _ Hsh), norm_index_nonneg by done.
  rewrite !bind_Ok, (select_cons _ _ _ _ Hsh).
  rewrite (slice0_cons _ steps rest) by done.
  assert (slice_range steps (Some idx2) (Some (idx2 + len)%Z) =
          (Z.to_nat idx2 `min` steps,
           Z.to_nat (idx2 + len) `min` steps - Z.to_nat idx2 `min` steps))
    as ->.
  { unfold slice_range, clamp_bound; simpl.
    rewrite !decide_False by lia. f_equal; lia. }
  rewrite bind_Ok. cbn [fst snd].
  destruct trailing; [|by eexists].
  unfold full_slice, ndim; simpl. destruct rest; [by destruct Hrest|].
  rewrite decide_True by (simpl; lia). by eexists.
Qed.

(** X15.  Construction does not compare the fields.  When [action] has
    fewer timesteps than [obs] (and the buffer is a rollout buffer
    otherwise), construction and [__getitem__] succeed at every index in
    range, and the [action] window is silently cut at the last timestep
    [action] has: its leading dimension is below [seq_len] for every window
    that reaches past it, while the [obs] window has [seq_len]
    timesteps. *)
Theorem X15_shorter_field_is_cut_silently
    (fs : gmap string (gmap string (tensor A))) (path : string) file
    (act : tensor A) (steps eps short : nat) (inner : list nat)
    (len : Z) (tr : bool) (p : Seq.t A) (size i : Z) :
  fs !! path = Some (<["action" := act]> file) →
  rollout_file file steps eps →
  shape act = short :: eps :: inner → inner ≠ [] → short < steps →
  (1 ≤ len ≤ Z.of_nat steps)%Z →
  Seq.__init__ fs path len tr = Ok p →
  Seq.__len__ p = Ok size → (0 ≤ i < size)%Z →
  let s := Z.to_nat (i mod (Z.of_nat steps - len + 1)) in
  ∃ o a r d n rest,
    Seq.__getitem__ p i = Ok (o, a, r, d, n) ∧
    shape o = Z.to_nat len :: rest ∧
    shape a = ((s + Z.to_nat len) `min` short - s `min` short) :: inner ∧
    (short < s + Z.to_nat len →
     (s + Z.to_nat len) `min` short - s `min` short < Z.to_nat len).
Proof.
  intros Hfs Hfile Hact Hinner Hshort Hlen Hinit Hsize Hi s.
  set (file' := <["action" := act]> file) in *.
  destruct (Hfile "obs" true) as (obs & rest & Hobs & Hsh & _); [in_fields|].
  assert (file' !! "obs" = Some obs) as Hobs'
    by (unfold file'; by rewrite lookup_insert_ne).
  destruct (init_len _ _ _ _ _ _ _ _ _ _ Hfs Hinit Hobs' Hsh)
    as (Hnum & Hseq & Hlen').
  rewrite Hlen' in Hsize. injection Hsize as <-.
  set (windows := (Z.of_nat steps - len + 1)%Z) in *.
  set (kept := episodes_in_split tr (Z.to_nat (split_index eps)) eps) in *.
  assert (1 ≤ windows)%Z as Hw by (unfold windows; lia).
  assert (0 ≤ i / windows < Z.of_nat kept)%Z as Hidx1.
  { split; [apply Z.div_pos; lia | apply Z.div_lt_upper_bound; lia]. }
  pose proof (Z.mod_pos_bound i windows ltac:(lia)) as Hidx2.
  assert (i mod windows + len ≤ Z.of_nat steps)%Z as Hend
    by (unfold windows in *; lia).
  assert (∀ key trailing, (key, trailing) ∈ fields → key ≠ "action" →
    ∃ y w inner', Seq.buffer p !! key = Some y ∧
      Seq.window y (i / windows) (i mod windows) len trailing = Ok w ∧
      shape w = Z.to_nat len :: inner') as Hfield.
  { intros key trailing Hkey Hne.
    destruct (Hfile key trailing Hkey) as (x & inner' & Hx & Hshx & Hwf & Htr).
    assert (file' !! key = Some x) as Hx'
      by (unfold file'; by rewrite lookup_insert_ne).
    destruct (init_field _ _ _ _ _ _ _ _ _ _ key _ _ _ _
                Hfs Hinit Hobs' Hsh Hx' Hshx) as (y & Hy & Hshy & _).
    destruct (window_shape y _ _ _ (i / windows) (i mod windows) len trailing
                Hshy) as (w & Hwin & Hshw); [done | lia | lia | done |].
    exists y, w, inner'. split; [done|]. split; [done|].
    rewrite Hshw. f_equal. lia. }
  destruct (Hfield "obs" true) as (yo & o & rest' & Hyo & Ho & Hsho);
    [in_fields | done |].
  destruct (Hfield "reward" false) as (yr & r & ? & Hyr & Hr & _);
    [in_fields | done |].
  destruct (Hfield "done" false) as (yd & d & ? & Hyd & Hd & _);
    [in_fields | done |].
  destruct (Hfield "next_obs" true) as (yn & n & ? & Hyn & Hn & _);
    [in_fields | done |].
  assert (file' !! "action" = Some act) as Hact'
    by (unfold file'; by rewrite lookup_insert_eq).
  destruct (init_field _ _ _ _ _ _ _ _ _ _ "action" _ _ _ _
              Hfs Hinit Hobs' Hsh Hact' Hact) as (ya & Hya & Hshya & _).
  destruct (window_shape ya _ _ _ (i / windows) (i mod windows) len true
              Hshya) as (a & Ha & Hsha); [done | lia | lia | done |].
  exists o, a, r, d, n, rest'. split; [|split; [done|split]].
  - apply (getitem_Ok p i yo ya yr yd yn); rewrite ?Hnum, ?Hseq; try done; lia.
  - rewrite Hsha. f_equal. unfold s. lia.
  - lia.
Qed.

End MismatchedFields.

(** ** Two constructions from the same contents *)

Section SameContents.
Context {A : Type}.

(** C9.  Two datasets of the same class constructed from files with the
    same contents, with the same [train] flag and, for the sequence class,
    the same [seq_len], have the same [__len__] and the same item at every
    index, and both are what the contents of the file make them: on a
    rollout buffer with [1 <= seq_len <= steps], [__len__] is
    [(steps - seq_len + 1) * kept] for both and item [i] of both is the
    window of timesteps [i % windows ..] of episode [first + i // windows]
    of the file; on an observation file, [__len__] is the number of rows
    kept for both and item [i] of both is row [first + i] of the matrix of
    60 columns over the elements of [obs]. *)
Theorem C9_construction_deterministic :
  (∀ (fs1 fs2 : gmap string (gmap string (tensor A))) (path1 path2 : string)
     (file : gmap string (tensor A)) (len : Z) (tr : bool) (p1 p2 : Seq.t A),
     fs1 !! path1 = Some file → fs2 !! path2 = Some file →
     Seq.__init__ fs1 path1 len tr = Ok p1 →
     Seq.__init__ fs2 path2 len tr = Ok p2 →
     Seq.__len__ p1 = Seq.__len__ p2 ∧
     (∀ i, Seq.__getitem__ p1 i = Seq.__getitem__ p2 i) ∧
     ∀ steps eps,
       rollout_file file steps eps → (1 ≤ len ≤ Z.of_nat steps)%Z →
       let windows := (Z.of_nat steps - len + 1)%Z in
       let split := Z.to_nat (split_index eps) in
       let size := (windows * Z.of_nat (episodes_in_split tr split eps))%Z in
       Seq.__len__ p1 = Ok size ∧ Seq.__len__ p2 = Ok size ∧
       ∀ i, (0 ≤ i < size)%Z →
         let e := first_episode tr split eps + Z.to_nat (i / windows) in
         let s := Z.to_nat (i mod windows) in
         ∃ o a r d n,
           Seq.__getitem__ p1 i = Ok (o, a, r, d, n) ∧
           Seq.__getitem__ p2 i = Ok (o, a, r, d, n) ∧
           file_window file "obs" e s (Z.to_nat len) o ∧
           file_window file "action" e s (Z.to_nat len) a ∧
           file_window file "reward" e s (Z.to_nat len) r ∧
           file_window file "done" e s (Z.to_nat len) d ∧
           file_window file "next_obs" e s (Z.to_nat len) n) ∧
  (∀ (fs1 fs2 : gmap string (gmap string (stored A))) (path1 path2 : string)
     (file : gmap string (stored A)) (obs : stored A) (tr : bool)
     (q1 q2 : Obs.t A),
     fs1 !! path1 = Some file → fs2 !! path2 = Some file →
     file !! "obs" = Some obs →
     Obs.__init__ fs1 path1 tr = Ok q1 →
     Obs.__init__ fs2 path2 tr = Ok q2 →
     let rows := numel obs / 60 in
     let cut := Z.to_nat (split_index rows) `min` rows in
     let first := if tr then 0 else cut in
     let kept := if tr then cut else rows - cut in
     Obs.__len__ q1 = Ok (Z.of_nat kept) ∧
     Obs.__len__ q2 = Ok (Z.of_nat kept) ∧
     (∀ i, Obs.__getitem__ q1 i = Obs.__getitem__ q2 i) ∧
     ∀ i, i < kept →
       Obs.__getitem__ q1 (Z.of_nat i) = Ok (row60 (data obs) (first + i)) ∧
       Obs.__getitem__ q2 (Z.of_nat i) = Ok (row60 (data obs) (first + i))).
Proof.
  split.
  - intros fs1 fs2 path1 path2 file len tr p1 p2 Hfs1 Hfs2 H1 H2.
    assert (p1 = p2) as <-.
    { unfold Seq.__init__, pickle_load in H1, H2.
      rewrite Hfs1 in H1. rewrite Hfs2 in H2. congruence. }
    split; [done|]. split; [done|].
    intros steps eps Hfile Hlen windows split size.
    destruct (Hfile "obs" true) as (obs & rest & Hobs & Hsh & _); [in_fields|].
    destruct (init_len _ _ _ _ _ _ _ _ _ _ Hfs1 H1 Hobs Hsh) as (_ & _ & Hsize).
    split; [done|]. split; [done|].
    intros i Hi e s.
    destruct (getitem_file_item fs1 path1 file len tr p1 steps eps i
                Hfs1 Hfile Hlen H1 Hi)
      as (o & a & r & d & n & Hitem & Hwindows).
    by exists o, a, r, d, n.
  - intros fs1 fs2 path1 path2 file obs tr q1 q2 Hfs1 Hfs2 Hobs H1 H2
      rows cut first kept.
    assert (q1 = q2) as <-.
    { unfold Obs.__init__, pickle_load in H1, H2.
      rewrite Hfs1 in H1. rewrite Hfs2 in H2. congruence. }
    destruct (obs_split_items fs1 path1 file obs tr q1 Hfs1 Hobs H1)
      as (_ & Hlen & Hitems).
    split; [done|]. split; [done|]. split; [done|].
    intros i Hi. split; by apply Hitems.
Qed.

End SameContents.

(** ** The further properties on test buffers *)

Lemma C9_construction_deterministic_witness :
  ((p ← Seq.__init__ (disk 3 5) "rollouts.pkl" 2 true; Seq.__len__ p) = Ok 8%Z ∧
   (p ← Seq.__init__ copied_disk "copy.pkl" 2 true; Seq.__len__ p) = Ok 8%Z ∧
   (p ← Seq.__init__ (disk 3 5) "rollouts.pkl" 2 true; Seq.__getitem__ p 1) =
   (p ← Seq.__init__ copied_disk "copy.pkl" 2 true; Seq.__getitem__ p 1)) ∧
  ((q ← Obs.__init__ (saved (disk 20 10)) "rollouts.pkl" false;
    Obs.__getitem__ q 1) = Ok (row60 (data (arange [20; 10; 3])) 9) ∧
   (q ← Obs.__init__ (saved copied_disk) "rollouts.pkl" false;
    Obs.__getitem__ q 1) = Ok (row60 (data (arange [20; 10; 3])) 9)).
Proof.
  destruct (C9_construction_deterministic (A:=Z)) as [Hseq Hobs].
  destruct (Seq.__init__ (disk 3 5) "rollouts.pkl" 2 true) as [p1|e] eqn:Hp1;
    [|vm_compute in Hp1; discriminate Hp1].
  destruct (Seq.__init__ copied_disk "copy.pkl" 2 true) as [p2|e] eqn:Hp2;
    [|vm_compute in Hp2; discriminate Hp2].
  destruct (Obs.__init__ (saved (disk 20 10)) "rollouts.pkl" false)
    as [q1|e] eqn:Hq1; [|vm_compute in Hq1; discriminate Hq1].
  destruct (Obs.__init__ (saved copied_disk) "rollouts.pkl" false)
    as [q2|e] eqn:Hq2; [|vm_compute in Hq2; discriminate Hq2].
  rewrite !bind_Ok. split.
  - destruct (Hseq (disk 3 5) copied_disk "rollouts.pkl" "copy.pkl"
                (rollouts 3 5) 2%Z true p1 p2)
      as (_ & Hsame & Hfile);
      [vm_compute; reflexivity | vm_compute; reflexivity
      | exact Hp1 | exact Hp2 |].
    destruct (Hfile 3 5 (rollouts_rollout_file 3 5) ltac:(lia))
      as (Hlen1 & Hlen2 & _).
    split; [exact Hlen1|]. split; [exact Hlen2|]. exact (Hsame 1%Z).
  - destruct (Hobs (saved (disk 20 10)) (saved copied_disk)
                "rollouts.pkl" "rollouts.pkl" (dense <$> rollouts 20 10)
                (dense (arange [20; 10; 3])) false q1 q2)
      as (_ & _ & _ & Hitems);
      [vm_compute; reflexivity | vm_compute; reflexivity
      | vm_compute; reflexivity | exact Hq1 | exact Hq2 |].
    apply (Hitems 1). vm_compute. lia.
Defined.

Lemma X1_sequence_construction_outcome_witness :
  Seq.__init__ (disk 3 5) "missing.pkl" 2 true = Err FileNotFoundError ∧
  Seq.__init__ short_field_disk "rollouts.pkl" 2 true = Err IndexError ∧
  Seq.__init__ no_obs_disk "rollouts.pkl" 2 true = Err KeyError ∧
  is_ok (Seq.__init__ (disk 3 5) "rollouts.pkl" 2 true).
Proof.
  split; [|split; [|split]].
  - apply (X1_sequence_construction_outcome (disk 3 5) "missing.pkl" 2 true).
    vm_compute; reflexivity.
  - destruct (X1_sequence_construction_outcome short_field_disk
                "rollouts.pkl" 2 true) as (_ & Hindex & _).
    apply (Hindex (<["lengths" := arange [4]]> (rollouts 3 5)) "lengths"
             (arange [4])); [vm_compute; reflexivity .. | vm_compute; lia].
  - destruct (X1_sequence_construction_outcome no_obs_disk
                "rollouts.pkl" 2 true) as (_ & _ & Hkey & _).
    apply (Hkey (delete "obs" (rollouts 3 5)));
      [vm_compute; reflexivity | | vm_compute; reflexivity].
    apply (bool_decide_eq_true_1
             (map_Forall (λ _ (x : tensor Z), 2 ≤ ndim x)
                (delete "obs" (rollouts 3 5)))).
    vm_compute. reflexivity.
  - destruct (X1_sequence_construction_outcome (disk 3 5)
                "rollouts.pkl" 2 true) as (_ & _ & _ & Hok).
    apply (Hok (rollouts 3 5)); [vm_compute; reflexivity|].
    split; [vm_compute; by eexists|].
    apply (bool_decide_eq_true_1
             (map_Forall (λ _ (x : tensor Z), 2 ≤ ndim x) (rollouts 3 5))).
    vm_compute. reflexivity.
Defined.

Lemma X2_observation_construction_outcome_witness :
  Obs.__init__ (saved (disk 20 10)) "missing.pkl" true
    = Err FileNotFoundError ∧
  Obs.__init__ (saved no_obs_disk) "rollouts.pkl" true = Err KeyError ∧
  Obs.__init__ (saved (disk 20 10)) "rollouts.pkl" true =
  Obs.__init__
    (<["rollouts.pkl" := {["obs" := dense (arange [20; 10; 3])]}]>
       (saved (disk 20 10)))
    "rollouts.pkl" true.
Proof.
  split; [|split].
  - apply (X2_observation_construction_outcome (saved (disk 20 10))
             "missing.pkl" true).
    vm_compute; reflexivity.
  - destruct (X2_observation_construction_outcome (saved no_obs_disk)
                "rollouts.pkl" true) as (_ & Hkey & _).
    apply (Hkey (dense <$> delete "obs" (rollouts 3 5)));
      vm_compute; reflexivity.
  - destruct (X2_observation_construction_outcome (saved (disk 20 10))
                "rollouts.pkl" true) as (_ & _ & Hsame).
    apply (Hsame (dense <$> rollouts 20 10)
             {["obs" := dense (arange [20; 10; 3])]}
             (dense (arange [20; 10; 3]))); vm_compute; reflexivity.
Defined.

Lemma X3_missing_field_fails_at_getitem_witness :
  map_Forall (λ _ (x : tensor Z), 2 ≤ ndim x) (delete "action" (rollouts 3 5)) ∧
  is_ok (p ← Seq.__init__ no_action_disk "rollouts.pkl" 2 true; Seq.__len__ p) ∧
  ¬ is_ok (p ← Seq.__init__ no_action_disk "rollouts.pkl" 2 true;
           Seq.__getitem__ p 0).
Proof.
  assert (map_Forall (λ _ (x : tensor Z), 2 ≤ ndim x)
            (delete "action" (rollouts 3 5))) as Hdims.
  { apply (bool_decide_eq_true_1
             (map_Forall (λ _ (x : tensor Z), 2 ≤ ndim x)
                (delete "action" (rollouts 3 5)))).
    vm_compute. reflexivity. }
  split; [exact Hdims|].
  destruct (X3_missing_field_fails_at_getitem no_action_disk "rollouts.pkl"
              (delete "action" (rollouts 3 5)) 2 true "action" true)
    as (p & -> & Hlen & Hget);
    [vm_compute; reflexivity
    | exists (arange [3; 5; 3]); vm_compute; reflexivity
    | exact Hdims | in_fields | vm_compute; reflexivity |].
  rewrite !bind_Ok. split; [exact Hlen | exact (Hget 0%Z)].
Defined.

Lemma X4_flat_obs_raises_at_getitem_witness :
  map_Forall (λ _ (x : tensor Z), 2 ≤ ndim x)
    (<["obs" := arange [3; 5]]> (rollouts 3 5)) ∧
  is_ok (Seq.__init__ flat_obs_disk "rollouts.pkl" 2 true) ∧
  (p ← Seq.__init__ flat_obs_disk "rollouts.pkl" 2 true; Seq.__getitem__ p 0)
    = Err IndexError.
Proof.
  assert (map_Forall (λ _ (x : tensor Z), 2 ≤ ndim x)
            (<["obs" := arange [3; 5]]> (rollouts 3 5))) as Hdims.
  { apply (bool_decide_eq_true_1
             (map_Forall (λ _ (x : tensor Z), 2 ≤ ndim x)
                (<["obs" := arange [3; 5]]> (rollouts 3 5)))).
    vm_compute. reflexivity. }
  split; [exact Hdims|].
  destruct (X4_flat_obs_raises_at_getitem flat_obs_disk "rollouts.pkl"
              (<["obs" := arange [3; 5]]> (rollouts 3 5)) (arange [3; 5]) 3 5
              2%Z true)
    as (p & -> & Hget);
    [vm_compute; reflexivity | vm_compute; reflexivity | reflexivity
    | exact Hdims | lia |].
  rewrite bind_Ok. split; [by eexists | exact (Hget 0%Z)].
Defined.

Lemma X5_no_window_divides_by_zero_witness :
  (p ← Seq.__init__ (disk 3 5) "rollouts.pkl" 4 true; Seq.__len__ p)
    = Ok 0%Z ∧
  (p ← Seq.__init__ (disk 3 5) "rollouts.pkl" 4 true; Seq.__getitem__ p 0)
    = Err ZeroDivisionError.
Proof.
  destruct (Seq.__init__ (disk 3 5) "rollouts.pkl" 4 true) as [p|e] eqn:Hp;
    [|vm_compute in Hp; discriminate Hp].
  rewrite !bind_Ok.
  destruct (X5_no_window_divides_by_zero (disk 3 5) "rollouts.pkl"
              (rollouts 3 5) (arange [3; 5; 3]) 3 5 [3] true p)
    as [Hlen Hget]; [vm_compute; reflexivity .. | exact Hp |].
  split; [exact Hlen | exact (Hget 0%Z)].
Defined.

Lemma X6_overlong_seq_len_truncates_witness :
  rollout_file (rollouts 3 5) 3 5 ∧
  (∃ size,
     (p ← Seq.__init__ (disk 3 5) "rollouts.pkl" 5 true; Seq.__len__ p)
       = Ok size ∧ (size < 0)%Z) ∧
  is_ok (p ← Seq.__init__ (disk 3 5) "rollouts.pkl" 5 true;
         Seq.__getitem__ p 0).
Proof.
  split; [apply rollouts_rollout_file|].
  destruct (Seq.__init__ (disk 3 5) "rollouts.pkl" 5 true) as [p|e] eqn:Hp;
    [|vm_compute in Hp; discriminate Hp].
  rewrite !bind_Ok.
  destruct (X6_overlong_seq_len_truncates (disk 3 5) "rollouts.pkl"
              (rollouts 3 5) 3 5 5%Z true p)
    as [Hlen (o & a & r & d & n & Hget & _)];
    [vm_compute; reflexivity | apply rollouts_rollout_file | lia | exact Hp
    | vm_compute; lia |].
  split; [exact Hlen | by eexists].
Defined.

Lemma X7_item_read_off_the_file_witness :
  rollout_file (rollouts 3 5) 3 5 ∧
  ∃ o a r d n,
    (p ← Seq.__init__ (disk 3 5) "rollouts.pkl" 2 false; Seq.__getitem__ p 1)
      = Ok (o, a, r, d, n) ∧
    file_window (rollouts 3 5) "obs" 4 1 2 o.
Proof.
  split; [apply rollouts_rollout_file|].
  destruct (Seq.__init__ (disk 3 5) "rollouts.pkl" 2 false) as [p|e] eqn:Hp;
    [|vm_compute in Hp; discriminate Hp].
  assert (disk 3 5 !! "rollouts.pkl" = Some (rollouts 3 5)) as Hfs
    by (vm_compute; reflexivity).
  destruct (init_len (disk 3 5) "rollouts.pkl" (rollouts 3 5) 2 false p
              (arange [3; 5; 3]) 3 5 [3] Hfs Hp) as (_ & _ & Hlen);
    [vm_compute; reflexivity .. |].
  destruct (X7_item_read_off_the_file (disk 3 5) "rollouts.pkl" (rollouts 3 5)
              2 false p 3 5 2 1 Hfs (rollouts_rollout_file 3 5))
    as (_ & _ & o & a & r & d & n & Hget & Hobs & _);
    [lia | exact Hp | exact Hlen | lia |].
  exists o, a, r, d, n. rewrite bind_Ok. split; [exact Hget | exact Hobs].
Defined.

Lemma X8_windows_slide_by_one_witness :
  rollout_file (rollouts 3 5) 3 5 ∧
  match (p ← Seq.__init__ (disk 3 5) "rollouts.pkl" 2 true; Seq.__getitem__ p 0),
        (p ← Seq.__init__ (disk 3 5) "rollouts.pkl" 2 true; Seq.__getitem__ p 1)
  with
  | Ok (o, _, _, _, _), Ok (o', _, _, _, _) => select o' 0 = select o 1
  | _, _ => False
  end.
Proof.
  split; [apply rollouts_rollout_file|].
  destruct (Seq.__init__ (disk 3 5) "rollouts.pkl" 2 true) as [p|e] eqn:Hp;
    [|vm_compute in Hp; discriminate Hp].
  rewrite !bind_Ok.
  assert (disk 3 5 !! "rollouts.pkl" = Some (rollouts 3 5)) as Hfs
    by (vm_compute; reflexivity).
  destruct (init_len (disk 3 5) "rollouts.pkl" (rollouts 3 5) 2 true p
              (arange [3; 5; 3]) 3 5 [3] Hfs Hp) as (_ & _ & Hlen);
    [vm_compute; reflexivity .. |].
  destruct (Seq.__getitem__ p 0) as [item|e0] eqn:H0;
    [|pose proof Hp as Hp'; vm_compute in Hp'; injection Hp' as <-;
      vm_compute in H0; discriminate H0].
  destruct (Seq.__getitem__ p 1) as [item'|e1] eqn:H1;
    [|pose proof Hp as Hp'; vm_compute in Hp'; injection Hp' as <-;
      vm_compute in H1; discriminate H1].
  pose proof (X8_windows_slide_by_one (disk 3 5) "rollouts.pkl" (rollouts 3 5)
                2 true p 3 5 8 0 item item' Hfs (rollouts_rollout_file 3 5))
    as Hslide.
  destruct item as [[[[o a] r] d] n]. destruct item' as [[[[o' a'] r'] d'] n'].
  assert (Forall2 (λ w w', ∀ j, j + 1 < Z.to_nat 2 →
                     select w' j = select w (j + 1))
            [o; a; r; d; n] [o'; a'; r'; d'; n']) as Hall.
  { apply Hslide; [lia | exact Hp | exact Hlen | lia | lia
                  | vm_compute; reflexivity | exact H0 | exact H1]. }
  inversion Hall as [|? ? ? ? Hhead _]. apply Hhead. simpl. lia.
Defined.

Lemma X9_train_and_test_sizes_add_up_witness :
  ∃ ntrain ntest,
    (p ← Seq.__init__ (disk 3 5) "rollouts.pkl" 2 true; Seq.__len__ p)
      = Ok ntrain ∧
    (p ← Seq.__init__ (disk 3 5) "rollouts.pkl" 2 false; Seq.__len__ p)
      = Ok ntest ∧
    (ntrain + ntest = 10)%Z.
Proof.
  destruct (Seq.__init__ (disk 3 5) "rollouts.pkl" 2 true) as [p|e] eqn:Hp;
    [|vm_compute in Hp; discriminate Hp].
  destruct (Seq.__init__ (disk 3 5) "rollouts.pkl" 2 false) as [q|e] eqn:Hq;
    [|vm_compute in Hq; discriminate Hq].
  destruct (X9_train_and_test_sizes_add_up (disk 3 5) "rollouts.pkl"
              (rollouts 3 5) (arange [3; 5; 3]) 3 5 [3] 2 p q)
    as (ntrain & ntest & Hn1 & Hn2 & Hsum);
    [vm_compute; reflexivity .. | exact Hp | exact Hq |].
  exists ntrain, ntest. rewrite !bind_Ok.
  split; [exact Hn1|]. split; [exact Hn2 | exact Hsum].
Defined.

Lemma X10_empty_halves_witness :
  (p ← Seq.__init__ (disk 3 1) "rollouts.pkl" 2 true; Seq.__len__ p) = Ok 0%Z.
Proof.
  destruct (Seq.__init__ (disk 3 1) "rollouts.pkl" 2 true) as [p|e] eqn:Hp;
    [|vm_compute in Hp; discriminate Hp].
  destruct (Seq.__init__ (disk 3 1) "rollouts.pkl" 2 false) as [q|e] eqn:Hq;
    [|vm_compute in Hq; discriminate Hq].
  destruct (X10_empty_halves (disk 3 1) "rollouts.pkl" (rollouts 3 1)
              (arange [3; 1; 3]) 3 1 [3] 2 p q) as [Htrain _];
    [vm_compute; reflexivity .. | lia | lia | exact Hp | exact Hq |].
  rewrite bind_Ok. apply Htrain. lia.
Defined.

Lemma X11_every_field_is_kept_witness :
  (p ← Seq.__init__ (disk 3 5) "rollouts.pkl" 2 false;
   Ok (shape <$> Seq.buffer p !! "reward")) = Ok (Some [1; 3]).
Proof.
  destruct (Seq.__init__ (disk 3 5) "rollouts.pkl" 2 false) as [p|e] eqn:Hp;
    [|vm_compute in Hp; discriminate Hp].
  destruct (X11_every_field_is_kept (disk 3 5) "rollouts.pkl" (rollouts 3 5)
              (arange [3; 5; 3]) 3 5 [3] 2 false p) as [_ Hfield];
    [vm_compute; reflexivity .. | exact Hp |].
  destruct (Hfield "reward" (arange [3; 5]) 3 5 []) as (y & Hy & Hshy);
    [vm_compute; reflexivity .. |].
  rewrite bind_Ok, Hy. simpl. rewrite Hshy. reflexivity.
Defined.

Lemma X12_observation_split_shares_rows_witness :
  (q ← Obs.__init__ (saved (disk 20 10)) "rollouts.pkl" true; Obs.__len__ q)
    = Ok 8%Z ∧
  (q ← Obs.__init__ (saved (disk 20 10)) "rollouts.pkl" false; Obs.__getitem__ q 1)
    = Ok (row60 (data (arange [20; 10; 3])) 9).
Proof.
  destruct (Obs.__init__ (saved (disk 20 10)) "rollouts.pkl" true) as [q1|e] eqn:Hq1;
    [|vm_compute in Hq1; discriminate Hq1].
  destruct (Obs.__init__ (saved (disk 20 10)) "rollouts.pkl" false) as [q2|e] eqn:Hq2;
    [|vm_compute in Hq2; discriminate Hq2].
  destruct (X12_observation_split_shares_rows (saved (disk 20 10))
              "rollouts.pkl" (dense <$> rollouts 20 10)
              (dense (arange [20; 10; 3])) q1 q2)
    as (_ & Hlen1 & _ & _ & _ & Htest & _);
    [vm_compute; reflexivity .. | exact Hq1 | exact Hq2 |].
  rewrite !bind_Ok. split; [exact Hlen1|].
  apply (Htest 1). vm_compute. lia.
Defined.

Lemma X13_observation_item_is_60_wide_witness :
  wf (arange [20; 10; 3]) ∧
  ∃ v,
    (q ← Obs.__init__ (saved (disk 20 10)) "rollouts.pkl" true; Obs.__getitem__ q (-1))
      = Ok v ∧
    shape v = [60] ∧ length (data v) = 60.
Proof.
  assert (wf (arange [20; 10; 3])) as Hwf by (vm_compute; reflexivity).
  split; [exact Hwf|].
  destruct (Obs.__init__ (saved (disk 20 10)) "rollouts.pkl" true) as [q|e] eqn:Hq;
    [|vm_compute in Hq; discriminate Hq].
  assert (Obs.__len__ q = Ok 8%Z) as Hlen.
  { pose proof Hq as Hq'. vm_compute in Hq'. injection Hq' as <-.
    reflexivity. }
  rewrite bind_Ok.
  apply (X13_observation_item_is_60_wide (saved (disk 20 10))
           "rollouts.pkl" (dense <$> rollouts 20 10)
           (dense (arange [20; 10; 3])) true q 8 (-1));
    [vm_compute; reflexivity .. | exact Hwf | exact Hq | exact Hlen | lia].
Defined.

Lemma X14_observation_rows_are_frames_witness :
  (q ← Obs.__init__ (saved wide_frames_disk) "frames.pkl" true; Obs.__getitem__ q 7)
    = Ok (select (select (arange [4; 5; 60]) 1) 2).
Proof.
  destruct (Obs.__init__ (saved wide_frames_disk) "frames.pkl" true) as [q1|e] eqn:Hq1;
    [|vm_compute in Hq1; discriminate Hq1].
  destruct (Obs.__init__ (saved wide_frames_disk) "frames.pkl" false) as [q2|e] eqn:Hq2;
    [|vm_compute in Hq2; discriminate Hq2].
  destruct (X14_observation_rows_are_frames (saved wide_frames_disk)
              "frames.pkl" {["obs" := dense (arange [4; 5; 60])]}
              (dense (arange [4; 5; 60])) 4 5 q1 q2 1 2)
    as [Htrain _];
    [vm_compute; reflexivity .. | exact Hq1 | exact Hq2 | lia | lia |].
  rewrite bind_Ok. apply Htrain. vm_compute. lia.
Defined.

Lemma X15_shorter_field_is_cut_silently_witness :
  rollout_file (rollouts 3 5) 3 5 ∧
  ∃ o a r d n,
    (p ← Seq.__init__ short_action_disk "rollouts.pkl" 2 true;
     Seq.__getitem__ p 1) = Ok (o, a, r, d, n) ∧
    shape o = [2; 3] ∧ shape a = [1; 2].
Proof.
  split; [apply rollouts_rollout_file|].
  destruct (Seq.__init__ short_action_disk "rollouts.pkl" 2 true)
    as [p|e] eqn:Hp; [|vm_compute in Hp; discriminate Hp].
  assert (short_action_disk !! "rollouts.pkl"
          = Some (<["action" := arange [2; 5; 2]]> (rollouts 3 5))) as Hfs
    by (vm_compute; reflexivity).
  destruct (init_len short_action_disk "rollouts.pkl" _ 2 true p
              (arange [3; 5; 3]) 3 5 [3] Hfs Hp) as (_ & _ & Hlen);
    [vm_compute; reflexivity .. |].
  destruct (X15_shorter_field_is_cut_silently short_action_disk "rollouts.pkl"
              (rollouts 3 5) (arange [2; 5; 2]) 3 5 2 [2] 2 true p 8 1 Hfs
              (rollouts_rollout_file 3 5))
    as (o & a & r & d & n & rest & Hget & Hsho & Hsha & _);
    [reflexivity | discriminate | lia | lia | exact Hp | exact Hlen | lia |].
  exists o, a, r, d, n. rewrite bind_Ok. split; [exact Hget|].
  split; [|exact Hsha].
  pose proof Hp as Hp'. vm_compute in Hp'. injection Hp' as <-.
  vm_compute in Hget. injection Hget as <- _ _ _ _. reflexivity.
Defined.
